(** * ChatLab database service: a shallow embedding of
      [electron/main/database/index.ts] and the properties of its importer,
      session catalog and analytics queries.

    The SQLite store of one session is modelled by its three tables; the
    database directory by a finite map from file names to files.  SQL
    statements are modelled by the list programs they denote.  The WHERE/ON
    fragments that the TypeScript code assembles as text are kept as text and
    handed to a small reader for the fragment grammar that the code can emit,
    so that the string surgery of [buildTimeFilter],
    [buildSystemMessageFilter] and [getMemberActivity] is verified as
    written. *)

From Stdlib Require Import ZArith QArith Qround String Ascii List Permutation Sorted Lia.
From stdpp Require Import gmap strings list fin_maps pretty.
From Stdlib Require Import Lqa.

Open Scope string_scope.
Open Scope list_scope.
Open Scope Z_scope.

(** ** JavaScript string primitives used by the module

    Strings are byte strings (UTF-8).  Every pattern the code searches for is
    ASCII, and an ASCII byte never occurs inside a multi-byte UTF-8 sequence,
    so searching bytes agrees with searching UTF-16 code units. *)

Module JsString.

(** [s.substring(n)] *)
Fixpoint drop (n : nat) (s : string) : string :=
  match n, s with
  | O, _ => s
  | S n', String _ s' => drop n' s'
  | S _, EmptyString => EmptyString
  end.

(** [s.includes(needle)] *)
Fixpoint includes (needle s : string) : bool :=
  String.prefix needle s ||
  match s with
  | EmptyString => false
  | String _ s' => includes needle s'
  end.

(** [s.endsWith(suffix)] *)
Fixpoint endsWith (suffix s : string) : bool :=
  String.eqb suffix s ||
  match s with
  | EmptyString => false
  | String _ s' => endsWith suffix s'
  end.

(** [s.replace(pat, rep)] with a string pattern: only the first occurrence
    is replaced. *)
Fixpoint replace (pat rep s : string) : string :=
  if String.prefix pat s then (rep ++ drop (String.length pat) s)%string
  else match s with
       | EmptyString => EmptyString
       | String c s' => String c (replace pat rep s')
       end.

(** Truthiness of a string: the empty string is falsy. *)
Definition truthy (s : string) : bool :=
  match s with EmptyString => false | _ => true end.

(** [parts.join(sep)] *)
Fixpoint join (sep : string) (parts : list string) : string :=
  match parts with
  | [] => ""
  | [p] => p
  | p :: ps => (p ++ sep ++ join sep ps)%string
  end.

End JsString.

(** ** Exceptions and the state-and-exception monad

    A computation over a store [S] either returns a value or throws; in both
    cases the store it leaves behind is observable (a file that was removed
    before an exception stays removed). *)

Inductive exn : Type :=
| SqliteError        (* raised by the storage engine *)
| TypeError          (* property access on [undefined] *)
| FsError.           (* raised by a file-system call *)

Inductive outcome (A : Type) : Type :=
| Returns (a : A)
| Throws (e : exn).
Arguments Returns {A} a.
Arguments Throws {A} e.

Definition M (S A : Type) : Type := S -> outcome A * S.

Definition ret {S A} (a : A) : M S A := fun s => (Returns a, s).
Definition throw {S A} (e : exn) : M S A := fun s => (Throws e, s).
Definition bind {S A B} (c : M S A) (k : A -> M S B) : M S B :=
  fun s => match c s with
           | (Returns a, s') => k a s'
           | (Throws e, s') => (Throws e, s')
           end.

Notation "'do' x <- c ; k" := (bind c (fun x => k))
  (at level 10, x name, c at level 100, k at level 200).
Notation "'run' c ; k" := (bind c (fun _ => k))
  (at level 10, c at level 100, k at level 200).

(** [for (const x of xs) { acc = body(acc, x) }] *)
Fixpoint forOf {S A X} (body : A -> X -> M S A) (xs : list X) (acc : A) : M S A :=
  match xs with
  | [] => ret acc
  | x :: xs' => do acc' <- body acc x; forOf body xs' acc'
  end.

(** Exceptions only, for code that does not change the store. *)
Definition obind {A B} (o : outcome A) (k : A -> outcome B) : outcome B :=
  match o with
  | Returns a => k a
  | Throws e => Throws e
  end.

(** ** A stable sort, for [ORDER BY] and [Array.prototype.sort]

    [le x y] says that [x] may stay in front of [y]. *)

Section Sort.
Context {A : Type} (le : A -> A -> bool).

Fixpoint insertSorted (x : A) (l : list A) : list A :=
  match l with
  | [] => [x]
  | y :: l' => if le x y then x :: l else y :: insertSorted x l'
  end.

Fixpoint sortBy (l : list A) : list A :=
  match l with
  | [] => []
  | x :: l' => insertSorted x (sortBy l')
  end.
End Sort.

(** ** The stored data (schema of [createDatabase])

    [m_id] is the PRIMARY KEY of [member]: the engine keeps the ids of the
    rows of a table distinct.  The properties of the analytics queries that
    rest on it state it as [NoDup (map m_id (member d))]. *)

Record meta_row := MetaRow {
  meta_name : string;
  meta_platform : string;
  meta_type : string;
  imported_at : Z
}.

Record member_row := MemberRow {
  m_id : Z;                 (* INTEGER PRIMARY KEY AUTOINCREMENT *)
  platform_id : string;     (* TEXT NOT NULL UNIQUE *)
  m_name : string           (* TEXT NOT NULL *)
}.

Record message_row := MessageRow {
  msg_id : Z;               (* INTEGER PRIMARY KEY AUTOINCREMENT *)
  sender_id : Z;            (* REFERENCES member(id) *)
  ts : Z;
  msg_type : Z;
  content : option string   (* TEXT, nullable *)
}.

(** The tables of one session database, with the two AUTOINCREMENT counters
    of [sqlite_sequence]. *)
Record database := Database {
  meta : list meta_row;
  member : list member_row;
  message : list message_row;
  seq_member : Z;
  seq_message : Z
}.

Definition emptyDatabase : database :=
  {| meta := []; member := []; message := []; seq_member := 0; seq_message := 0 |}.

(** A file of the database directory: a SQLite database with the schema, a
    SQLite database without any table (what opening a missing path leaves
    behind), or anything else (a [-wal] or [-shm] companion, a foreign or
    corrupt file). *)
Inductive file : Type :=
| DbFile (d : database)
| BlankDb
| Foreign.

Abbreviation directory := (gmap string file).

(** ** The canonical model handed over by the parsers *)

(** Modelled from the spec: the declarations of [src/types/chat] are not
    among the sources; the fields are the ones [importData] reads, with the
    types the spec gives them (strings, unix seconds, an enumerated message
    type kept as its number, an optional text). *)
Record ParsedMeta := {
  pm_name : string;
  pm_platform : string;
  pm_type : string
}.

Record ParsedMember := {
  platformId : string;
  name : string
}.

Record ParsedMessage := {
  senderPlatformId : string;
  timestamp : Z;
  type : Z;
  msgContent : option string
}.

Record ParseResult := {
  pr_meta : ParsedMeta;
  members : list ParsedMember;
  messages : list ParsedMessage
}.

(** Modelled from the spec: [AnalysisSession], [MemberActivity],
    [HourlyActivity] and [DailyActivity] of [src/types/chat], with the fields
    the code fills in. *)
Record AnalysisSession := {
  s_id : string;
  s_name : string;
  s_platform : string;
  s_type : string;
  importedAt : Z;
  s_messageCount : Z;
  s_memberCount : Z;
  s_dbPath : string
}.

Record MemberActivity := {
  memberId : Z;
  ma_platformId : string;
  ma_name : string;
  messageCount : Z;
  percentage : Q
}.

Record HourlyActivity := {
  hour : Z;
  h_messageCount : Z
}.

Record DailyActivity := {
  date : option string;     (* [strftime] yields NULL outside its range *)
  d_messageCount : Z
}.

Record TypeCount := {
  tc_type : Z;
  tc_count : Z
}.

(** The label that marks the system sentinel member. *)
Definition systemLabel : string := "系统消息".

(** ** The SQL fragments assembled at run time

    The queries are fixed templates into which the code splices a WHERE (or
    ON) fragment it has built as text.  The reader below is the part of the
    SQL grammar those fragments live in: white-space separated tokens, an
    optional [WHERE] keyword, and comparisons joined by [AND].  Text outside
    this grammar does not prepare ([SqliteError]), and so does a number of
    bound values different from the number of [?] placeholders. *)

Module Sql.

Definition isSpace (c : ascii) : bool :=
  Ascii.eqb c " " || Ascii.eqb c "010".

Fixpoint split (s : string) : list string :=
  match s with
  | EmptyString => [""]
  | String c s' =>
      if isSpace c then "" :: split s'
      else match split s' with
           | w :: ws => String c w :: ws
           | [] => [String c ""]
           end
  end.

Definition tokens (s : string) : list string :=
  List.filter (fun w => negb (String.eqb w "")) (split s).

(** The comparisons that occur in the module's queries. *)
Inductive atom : Type :=
| TsGe            (* ts >= ? *)
| TsLe            (* ts <= ? *)
| NameNotSystem   (* m.name != '<label>' *)
| IdEqSender.     (* m.id = msg.sender_id *)

Definition readAtom (a b c : string) : option atom :=
  if String.eqb a "ts" && String.eqb b ">=" && String.eqb c "?" then Some TsGe
  else if String.eqb a "ts" && String.eqb b "<=" && String.eqb c "?" then Some TsLe
  else if String.eqb a "m.name" && String.eqb b "!="
          && String.eqb c ("'" ++ systemLabel ++ "'")%string then Some NameNotSystem
  else if String.eqb a "m.id" && String.eqb b "=" && String.eqb c "msg.sender_id"
       then Some IdEqSender
  else None.

Fixpoint readConj (ws : list string) : option (list atom) :=
  match ws with
  | a :: b :: c :: rest =>
      match readAtom a b c with
      | None => None
      | Some x =>
          match rest with
          | [] => Some [x]
          | k :: rest' =>
              if String.eqb k "AND" then option_map (cons x) (readConj rest')
              else None
          end
      end
  | _ => None
  end.

Definition readWhere (clause : string) : option (list atom) :=
  match tokens clause with
  | [] => Some []
  | k :: ws => if String.eqb k "WHERE" then readConj ws else None
  end.

Definition readOn (text : string) : option (list atom) :=
  readConj (tokens text).

(** A comparison with its placeholder filled in. *)
Inductive cond : Type :=
| CTsGe (v : Z)
| CTsLe (v : Z)
| CNameNotSystem
| CIdEqSender.

(** Positional binding: every [?] takes the next value, none may be left. *)
Fixpoint bindParams (la : list atom) (params : list Z) : option (list cond) :=
  match la with
  | [] => match params with [] => Some [] | _ :: _ => None end
  | TsGe :: la' =>
      match params with
      | v :: ps => option_map (cons (CTsGe v)) (bindParams la' ps)
      | [] => None
      end
  | TsLe :: la' =>
      match params with
      | v :: ps => option_map (cons (CTsLe v)) (bindParams la' ps)
      | [] => None
      end
  | NameNotSystem :: la' => option_map (cons CNameNotSystem) (bindParams la' params)
  | IdEqSender :: la' => option_map (cons CIdEqSender) (bindParams la' params)
  end.

Definition holds (c : cond) (m : member_row) (msg : message_row) : bool :=
  match c with
  | CTsGe v => v <=? ts msg
  | CTsLe v => ts msg <=? v
  | CNameNotSystem => negb (String.eqb (m_name m) systemLabel)
  | CIdEqSender => m_id m =? sender_id msg
  end.

Definition holdsAll (cs : list cond) (m : member_row) (msg : message_row) : bool :=
  forallb (fun c => holds c m msg) cs.

Definition prepared (la : option (list atom)) (params : list Z) : outcome (list cond) :=
  match la with
  | None => Throws SqliteError
  | Some la' =>
      match bindParams la' params with
      | None => Throws SqliteError
      | Some cs => Returns cs
      end
  end.

(** [GROUP BY key]: one group per distinct key, holding the rows with it. *)
Definition groupBy {R K : Type} `{EqDecision K} (key : R -> K) (rows : list R)
  : list (K * list R) :=
  List.map (fun k => (k, List.filter (fun r => bool_decide (key r = k)) rows))
           (remove_dups (List.map key rows)).

(** [FROM message msg JOIN member m ON msg.sender_id = m.id WHERE cs] *)
Definition joinWhere (d : database) (cs : list cond)
  : list (message_row * member_row) :=
  flat_map (fun msg =>
              List.map (fun m => (msg, m))
                (List.filter (fun m => (sender_id msg =? m_id m) && holdsAll cs m msg)
                             (member d)))
           (message d).

(** [FROM member m LEFT JOIN message msg ON cs]: a member without a match
    keeps one row whose message columns are NULL. *)
Definition leftJoinOn (d : database) (cs : list cond)
  : list (member_row * option message_row) :=
  flat_map (fun m =>
              match List.filter (fun msg => holdsAll cs m msg) (message d) with
              | [] => [(m, None)]
              | l => List.map (fun msg => (m, Some msg)) l
              end)
           (member d).

End Sql.

(** ** Storage: the database directory

    A path is represented by the file name inside the database directory
    ([getDbDir] is the same directory for every call; [ensureDbDir] makes it
    exist). *)

(** [generateSessionId]: [timestamp] is the value of [Date.now()] and
    [random] the (at most six) base-36 digits taken from [Math.random()]. *)
Definition generateSessionId (timestamp : Z) (random : string) : string :=
  ("chat_" ++ pretty timestamp ++ "_" ++ random)%string.

Definition getDbPath (sessionId : string) : string :=
  (sessionId ++ ".db")%string.

Definition existsSync (p : string) (fs : directory) : bool :=
  bool_decide (is_Some (fs !! p)).

Definition readdirSync (fs : directory) : list string :=
  List.map fst (map_to_list fs).

(** [fs.unlinkSync]: throws when the file is missing, and when the
    environment refuses the removal ([locked], e.g. a file lock). *)
Definition unlinkSync (locked : string -> bool) (p : string) : M directory unit :=
  fun fs =>
    match fs !! p with
    | None => (Throws FsError, fs)
    | Some _ => if locked p then (Throws FsError, fs)
                else (Returns tt, delete p fs)
    end.

(** [createDatabase]: opening creates a missing file; the schema is created
    with [IF NOT EXISTS]; a file that is not a database makes the first
    pragma throw. *)
Definition createDatabase (sessionId : string) : M directory database :=
  fun fs =>
    let dbPath := getDbPath sessionId in
    match fs !! dbPath with
    | Some Foreign => (Throws SqliteError, fs)
    | Some (DbFile d) => (Returns d, fs)
    | Some BlankDb | None =>
        (Returns emptyDatabase, <[dbPath := DbFile emptyDatabase]> fs)
    end.

(** A read-only connection: the tables, when the file has the schema. *)
Inductive connection : Type :=
| Conn (tables : option database).

(** [openDatabase]: [None] is the [null] returned for a missing file. *)
Definition openDatabase (fs : directory) (sessionId : string)
  : outcome (option connection) :=
  match fs !! getDbPath sessionId with
  | None => Returns None
  | Some (DbFile d) => Returns (Some (Conn (Some d)))
  | Some BlankDb => Returns (Some (Conn None))
  | Some Foreign => Throws SqliteError
  end.

(** Preparing a statement over the schema's tables. *)
Definition tablesOf (c : connection) : outcome database :=
  match c with
  | Conn (Some d) => Returns d
  | Conn None => Throws SqliteError
  end.

(** ** The importer *)

(** The state of a write transaction: the tables as modified so far and the
    number of statements executed.  [faults n] tells whether the storage
    engine fails on statement number [n] (disk full, I/O error, ...). *)
Record txstate := TxState {
  tx_db : database;
  tx_step : nat
}.

Definition nextRowid (seq : Z) (ids : list Z) : Z :=
  Z.max seq (fold_right Z.max 0 ids) + 1.

Module Stmt.

Definition nop (d : database) : unit * database := (tt, d).

(** INSERT INTO meta (name, platform, type, imported_at) VALUES (?, ?, ?, ?) *)
Definition insertMeta (n p t : string) (at_ : Z) (d : database) : unit * database :=
  (tt, {| meta := meta d ++ [MetaRow n p t at_];
          member := member d; message := message d;
          seq_member := seq_member d; seq_message := seq_message d |}).

(** INSERT OR IGNORE INTO member (platform_id, name) VALUES (?, ?) *)
Definition insertMember (pid nm : string) (d : database) : unit * database :=
  if existsb (fun r => String.eqb (platform_id r) pid) (member d) then (tt, d)
  else
    let id := nextRowid (seq_member d) (List.map m_id (member d)) in
    (tt, {| meta := meta d;
            member := member d ++ [MemberRow id pid nm];
            message := message d;
            seq_member := id; seq_message := seq_message d |}).

(** UPDATE member SET name = ? WHERE platform_id = ? *)
Definition updateMemberName (nm pid : string) (d : database) : unit * database :=
  (tt, {| meta := meta d;
          member := List.map (fun r => if String.eqb (platform_id r) pid
                                       then MemberRow (m_id r) (platform_id r) nm
                                       else r) (member d);
          message := message d;
          seq_member := seq_member d; seq_message := seq_message d |}).

(** SELECT id FROM member WHERE platform_id = ?  (first row, or [undefined]) *)
Definition getMemberId (pid : string) (d : database) : option Z * database :=
  (option_map m_id (List.find (fun r => String.eqb (platform_id r) pid) (member d)), d).

(** INSERT INTO message (sender_id, ts, type, content) VALUES (?, ?, ?, ?) *)
Definition insertMessage (sender t ty : Z) (c : option string) (d : database)
  : unit * database :=
  let id := nextRowid (seq_message d) (List.map msg_id (message d)) in
  (tt, {| meta := meta d; member := member d;
          message := message d ++ [MessageRow id sender t ty c];
          seq_member := seq_member d; seq_message := id |}).

End Stmt.

Section Importer.

Variable faults : nat -> bool.

(** Running one statement inside the transaction. *)
Definition exec {A} (f : database -> A * database) : M txstate A :=
  fun s =>
    if faults (tx_step s) then (Throws SqliteError, s)
    else let '(a, d') := f (tx_db s) in
         (Returns a, {| tx_db := d'; tx_step := S (tx_step s) |}).

(** One turn of [for (const member of parseResult.members)]. *)
Definition importMember (memberIdMap : gmap string Z) (member : ParsedMember)
  : M txstate (gmap string Z) :=
  run exec (Stmt.insertMember (platformId member) (name member));
  run exec (Stmt.updateMemberName (name member) (platformId member));
  do row <- exec (Stmt.getMemberId (platformId member));
  match row with
  | Some id => ret (<[platformId member := id]> memberIdMap)
  | None => throw TypeError
  end.

(** One turn of [for (const msg of parseResult.messages)]. *)
Definition importMessage (memberIdMap : gmap string Z) (_ : unit)
           (msg : ParsedMessage) : M txstate unit :=
  match memberIdMap !! senderPlatformId msg with
  | Some senderId =>
      exec (Stmt.insertMessage senderId (timestamp msg) (type msg) (msgContent msg))
  | None => ret tt
  end.

(** The body of [importTransaction]. *)
Definition importBody (nowMs : Z) (parseResult : ParseResult) : M txstate unit :=
  run exec (Stmt.insertMeta (pm_name (pr_meta parseResult))
                            (pm_platform (pr_meta parseResult))
                            (pm_type (pr_meta parseResult))
                            (nowMs / 1000));
  do memberIdMap <- forOf importMember (members parseResult) ∅;
  forOf (importMessage memberIdMap) (messages parseResult) tt.

(** [db.transaction(fn)()]: BEGIN, the body, COMMIT; any exception rolls
    the tables back to their state at BEGIN and is thrown again. *)
Definition transaction {A} (body : M txstate A) (d : database)
  : outcome A * database :=
  match (run exec Stmt.nop; do r <- body; run exec Stmt.nop; ret r)
          {| tx_db := d; tx_step := 0 |} with
  | (Returns a, s) => (Returns a, tx_db s)
  | (Throws e, _) => (Throws e, d)
  end.

(** [importData].  [timestamp] and [random] are what [generateSessionId]
    draws, [nowMs] is the later [Date.now()]. *)
Definition importData (timestamp : Z) (random : string) (nowMs : Z)
           (parseResult : ParseResult) : M directory string :=
  let sessionId := generateSessionId timestamp random in
  do db <- createDatabase sessionId;
  fun fs =>
    match transaction (importBody nowMs parseResult) db with
    | (Returns _, db') =>
        (Returns sessionId, <[getDbPath sessionId := DbFile db']> fs)
    | (Throws e, db') =>
        (Throws e, <[getDbPath sessionId := DbFile db']> fs)
    end.

End Importer.

(** ** The session catalog *)

(** SELECT COUNT( * ) FROM message msg JOIN member m ON msg.sender_id = m.id
    WHERE m.name != '<label>' *)
Definition countMessages (d : database) : Z :=
  Z.of_nat (List.length (Sql.joinWhere d [Sql.CNameNotSystem])).

(** SELECT COUNT( * ) FROM member WHERE name != '<label>' *)
Definition countMembers (d : database) : Z :=
  Z.of_nat (List.length
              (List.filter (fun m => negb (String.eqb (m_name m) systemLabel))
                           (member d))).

Definition sessionOf (sessionId : string) (mt : meta_row) (d : database)
  : AnalysisSession :=
  {| s_id := sessionId;
     s_name := meta_name mt;
     s_platform := meta_platform mt;
     s_type := meta_type mt;
     importedAt := imported_at mt;
     s_messageCount := countMessages d;
     s_memberCount := countMembers d;
     s_dbPath := getDbPath sessionId |}.

(** One turn of the loop of [getAllSessions]; its [try]/[catch] swallows
    every exception.  Opening a path that does not exist creates a database
    without tables, on which the meta query throws. *)
Definition scanFile (acc : list AnalysisSession * directory) (file : string)
  : list AnalysisSession * directory :=
  let '(sessions, fs) := acc in
  let sessionId := JsString.replace ".db" "" file in
  let dbPath := getDbPath sessionId in
  match fs !! dbPath with
  | None => (sessions, <[dbPath := BlankDb]> fs)
  | Some BlankDb => (sessions, fs)
  | Some Foreign => (sessions, fs)
  | Some (DbFile d) =>
      match meta d with
      | mt :: _ => (sessions ++ [sessionOf sessionId mt d], fs)
      | [] => (sessions, fs)
      end
  end.

Definition getAllSessions (fs : directory) : list AnalysisSession * directory :=
  let allFiles := readdirSync fs in
  let files := List.filter (JsString.endsWith ".db") allFiles in
  let '(sessions, fs') := fold_left scanFile files ([], fs) in
  (sortBy (fun a b => importedAt b <=? importedAt a) sessions, fs').

Definition getSession (fs : directory) (sessionId : string)
  : outcome (option AnalysisSession) :=
  obind (openDatabase fs sessionId) (fun db =>
  match db with
  | None => Returns None
  | Some c =>
      obind (tablesOf c) (fun d =>
      match meta d with
      | [] => Returns None
      | mt :: _ => Returns (Some (sessionOf sessionId mt d))
      end)
  end).

Definition unlinkIfExists (locked : string -> bool) (p : string) : M directory unit :=
  fun fs => if existsSync p fs then unlinkSync locked p fs else (Returns tt, fs).

Definition deleteSession (locked : string -> bool) (sessionId : string)
           (fs : directory) : bool * directory :=
  let dbPath := getDbPath sessionId in
  let walPath := (dbPath ++ "-wal")%string in
  let shmPath := (dbPath ++ "-shm")%string in
  match (run unlinkIfExists locked dbPath;
         run unlinkIfExists locked walPath;
         run unlinkIfExists locked shmPath;
         ret true) fs with
  | (Returns b, fs') => (b, fs')
  | (Throws _, fs') => (false, fs')
  end.

(** ** The analytics queries *)

Record TimeFilter := {
  startTs : option Z;
  endTs : option Z
}.

(** [Math.round] on exact rationals: halves go up. *)
Definition Math_round (x : Q) : Z := Qfloor (x + (1 # 2))%Q.

Definition buildTimeFilter (filter : option TimeFilter) : string * list Z :=
  let start := filter ≫= startTs in
  let end_ := filter ≫= endTs in
  let conditions :=
    match start with Some _ => ["ts >= ?"] | None => [] end ++
    match end_ with Some _ => ["ts <= ?"] | None => [] end in
  let params :=
    match start with Some v => [v] | None => [] end ++
    match end_ with Some v => [v] | None => [] end in
  (if (0 <? List.length conditions)%nat
   then (" WHERE " ++ JsString.join " AND " conditions)%string
   else "",
   params).

Definition buildSystemMessageFilter (existingClause : string) : string :=
  let systemFilter := "m.name != '系统消息'" in
  if JsString.includes "WHERE" existingClause
  then (existingClause ++ " AND " ++ systemFilter)%string
  else (" WHERE " ++ systemFilter)%string.

(** SELECT COUNT( * ) as count FROM message msg
    JOIN member m ON msg.sender_id = m.id <clause> *)
Definition selectCount (c : connection) (clause : string) (params : list Z)
  : outcome Z :=
  obind (tablesOf c) (fun d =>
  obind (Sql.prepared (Sql.readWhere clause) params) (fun cs =>
  Returns (Z.of_nat (List.length (Sql.joinWhere d cs))))).

Record member_count_row := {
  mr_memberId : Z;
  mr_platformId : string;
  mr_name : string;
  mr_messageCount : Z
}.

(** COUNT(msg.id) over a group of the left join: NULLs are not counted. *)
Definition countMsgId (g : list (member_row * option message_row)) : Z :=
  Z.of_nat (List.length (List.filter (fun r => bool_decide (is_Some (snd r))) g)).

(** SELECT m.id, m.platform_id, m.name, COUNT(msg.id) as messageCount
    FROM member m LEFT JOIN message msg ON m.id = msg.sender_id <fragment>
    WHERE m.name != '<label>' GROUP BY m.id
    HAVING messageCount > 0 ORDER BY messageCount DESC.
    The bare columns of a group are read from its first row. *)
Definition selectMemberCounts (c : connection) (fragment : string) (params : list Z)
  : outcome (list member_count_row) :=
  obind (tablesOf c) (fun d =>
  obind (Sql.prepared (Sql.readOn ("m.id = msg.sender_id " ++ fragment)%string) params)
        (fun on =>
  let joined := Sql.leftJoinOn d on in
  let kept := List.filter (fun r => negb (String.eqb (m_name (fst r)) systemLabel))
                          joined in
  let groups := Sql.groupBy (fun r => m_id (fst r)) kept in
  let rows :=
    flat_map (fun kg =>
                match snd kg with
                | r :: _ => [{| mr_memberId := m_id (fst r);
                                mr_platformId := platform_id (fst r);
                                mr_name := m_name (fst r);
                                mr_messageCount := countMsgId (snd kg) |}]
                | [] => []
                end) groups in
  let having := List.filter (fun r => 0 <? mr_messageCount r) rows in
  Returns (sortBy (fun a b => mr_messageCount b <=? mr_messageCount a) having))).

Definition percentageOf (messageCount totalMessages : Z) : Q :=
  if 0 <? totalMessages
  then (inject_Z (Math_round (inject_Z messageCount / inject_Z totalMessages
                              * inject_Z 10000))
        / inject_Z 100)%Q
  else 0%Q.

Definition getMemberActivity (fs : directory) (sessionId : string)
           (filter : option TimeFilter) : outcome (list MemberActivity) :=
  obind (openDatabase fs sessionId) (fun db =>
  match db with
  | None => Returns []
  | Some c =>
      let '(clause, params) := buildTimeFilter filter in
      let msgFilterBase :=
        if JsString.truthy clause then JsString.replace "WHERE" "AND" clause else "" in
      let msgFilterWithSystem := (msgFilterBase ++ " AND m.name != '系统消息'")%string in
      let totalClauseWithSystem := buildSystemMessageFilter clause in
      obind (selectCount c totalClauseWithSystem params) (fun totalMessages =>
      obind (selectMemberCounts c msgFilterWithSystem params) (fun rows =>
      Returns (List.map (fun row =>
                 {| memberId := mr_memberId row;
                    ma_platformId := mr_platformId row;
                    ma_name := mr_name row;
                    messageCount := mr_messageCount row;
                    percentage := percentageOf (mr_messageCount row) totalMessages |})
               rows)))
  end).

(** Ordering of a nullable column: NULL sorts first. *)
Definition nullsFirst {A} (le : A -> A -> bool) (a b : option A) : bool :=
  match a, b with
  | None, _ => true
  | Some _, None => false
  | Some x, Some y => le x y
  end.

(** [getTimeRange] *)
Definition minTs (l : list message_row) : option Z :=
  match l with
  | [] => None
  | r :: l' => Some (fold_right (fun x acc => Z.min (ts x) acc) (ts r) l')
  end.

Definition maxTs (l : list message_row) : option Z :=
  match l with
  | [] => None
  | r :: l' => Some (fold_right (fun x acc => Z.max (ts x) acc) (ts r) l')
  end.

Definition getTimeRange (fs : directory) (sessionId : string)
  : outcome (option (Z * Z)) :=
  obind (openDatabase fs sessionId) (fun db =>
  match db with
  | None => Returns None
  | Some c =>
      obind (tablesOf c) (fun d =>
      match minTs (message d), maxTs (message d) with
      | Some start, Some end_ => Returns (Some (start, end_))
      | _, _ => Returns None
      end)
  end).

Section LocalTime.

(** The environment's time zone: what [strftime('%H', ts, 'unixepoch',
    'localtime')] cast to an integer and [strftime('%Y-%m-%d', ...)] yield;
    [None] is the NULL returned for a timestamp outside the engine's
    calendar. *)
Variable localHour : Z -> option Z.
Variable localDate : Z -> option string.

Definition getHourlyActivity (fs : directory) (sessionId : string)
           (filter : option TimeFilter) : outcome (list HourlyActivity) :=
  obind (openDatabase fs sessionId) (fun db =>
  match db with
  | None => Returns []
  | Some c =>
      let '(clause, params) := buildTimeFilter filter in
      let clauseWithSystem := buildSystemMessageFilter clause in
      obind (tablesOf c) (fun d =>
      obind (Sql.prepared (Sql.readWhere clauseWithSystem) params) (fun cs =>
      let groups := Sql.groupBy (fun r => localHour (ts (fst r))) (Sql.joinWhere d cs) in
      let rows :=
        sortBy (fun a b => nullsFirst Z.leb (fst a) (fst b))
               (List.map (fun kg => (fst kg, Z.of_nat (List.length (snd kg)))) groups) in
      Returns
        (List.map (fun h =>
                     let found := List.find (fun r => bool_decide (fst r = Some h)) rows in
                     {| hour := h;
                        h_messageCount := match found with
                                          | Some r => snd r
                                          | None => 0
                                          end |})
                  (List.map Z.of_nat (seq 0 24)))))
  end).

Definition getDailyActivity (fs : directory) (sessionId : string)
           (filter : option TimeFilter) : outcome (list DailyActivity) :=
  obind (openDatabase fs sessionId) (fun db =>
  match db with
  | None => Returns []
  | Some c =>
      let '(clause, params) := buildTimeFilter filter in
      let clauseWithSystem := buildSystemMessageFilter clause in
      obind (tablesOf c) (fun d =>
      obind (Sql.prepared (Sql.readWhere clauseWithSystem) params) (fun cs =>
      let groups := Sql.groupBy (fun r => localDate (ts (fst r))) (Sql.joinWhere d cs) in
      Returns
        (sortBy (fun a b => nullsFirst String.leb (date a) (date b))
                (List.map (fun kg => {| date := fst kg;
                                        d_messageCount := Z.of_nat (List.length (snd kg)) |})
                          groups))))
  end).

End LocalTime.

Definition getMessageTypeDistribution (fs : directory) (sessionId : string)
           (filter : option TimeFilter) : outcome (list TypeCount) :=
  obind (openDatabase fs sessionId) (fun db =>
  match db with
  | None => Returns []
  | Some c =>
      let '(clause, params) := buildTimeFilter filter in
      let clauseWithSystem := buildSystemMessageFilter clause in
      obind (tablesOf c) (fun d =>
      obind (Sql.prepared (Sql.readWhere clauseWithSystem) params) (fun cs =>
      let groups := Sql.groupBy (fun r => msg_type (fst r)) (Sql.joinWhere d cs) in
      let rows := List.map (fun kg => (fst kg, Z.of_nat (List.length (snd kg)))) groups in
      Returns
        (List.map (fun r => {| tc_type := fst r; tc_count := snd r |})
                  (sortBy (fun a b => snd b <=? snd a) rows))))
  end).

(** ** [getAvailableYears] *)

Section LocalYear.

(** What [CAST(strftime('%Y', ts, 'unixepoch', 'localtime') AS INTEGER)]
    yields in the environment's time zone; [None] is NULL. *)
Variable localYear : Z -> option Z.

(** SELECT DISTINCT ... as year FROM message ORDER BY year *)
Definition getAvailableYears (fs : directory) (sessionId : string)
  : outcome (list (option Z)) :=
  obind (openDatabase fs sessionId) (fun db =>
  match db with
  | None => Returns []
  | Some c =>
      obind (tablesOf c) (fun d =>
      let rows :=
        sortBy (nullsFirst Z.leb)
               (remove_dups (List.map (fun msg => localYear (ts msg)) (message d))) in
      Returns (List.map (fun r => r) rows))
  end).

End LocalYear.

(** ** The views that consume the query results

    The computed values of the Vue components, as functions of their
    props. *)

(** [list.reduce((max, x) => count(x) > count(max) ? x : max, list[0])],
    guarded by [if (!list.length) return null]. *)
Definition peakBy {A : Type} (count : A -> Z) (l : list A) : option A :=
  match l with
  | [] => None
  | first :: _ =>
      Some (fold_left (fun max x => if count max <? count x then x else max) l first)
  end.

Module TimelineTab.

Definition peakHour (hourlyActivity : list HourlyActivity) : option HourlyActivity :=
  peakBy h_messageCount hourlyActivity.

Definition peakDay (dailyActivity : list DailyActivity) : option DailyActivity :=
  peakBy d_messageCount dailyActivity.




Definition avgDailyMessages (dailyActivity : list DailyActivity) : Z :=
  match dailyActivity with
  | [] => 0
  | _ =>
      let total := fold_left (fun sum d => sum + d_messageCount d) dailyActivity 0 in
      Math_round (inject_Z total / inject_Z (Z.of_nat (List.length dailyActivity)))%Q
  end.

End TimelineTab.

Module OverviewTab.

(** Truthiness of [number | null]: [null] and [0] are falsy. *)
Definition truthyNumber (n : option Z) : bool :=
  match n with
  | Some v => negb (v =? 0)
  | None => false
  end.

(** [%] is the remainder that takes the sign of the dividend. *)
Definition isLeapYear (year : Z) : bool :=
  ((Z.rem year 4 =? 0) && negb (Z.rem year 100 =? 0)) || (Z.rem year 400 =? 0).

Definition durationDays (selectedYear : option Z) (timeRange : option (Z * Z)) : Z :=
  if truthyNumber selectedYear
  then (if isLeapYear (default 0 selectedYear) then 366 else 365)
  else match timeRange with
       | None => 0
       | Some (start, end_) => Qceiling (inject_Z (end_ - start) / inject_Z 86400)%Q
       end.

Definition displayMessageCount (selectedYear : option Z) (filteredMessageCount : Z)
           (session : AnalysisSession) : Z :=
  if truthyNumber selectedYear then filteredMessageCount else s_messageCount session.

Definition peakHour (hourlyActivity : list HourlyActivity) : option HourlyActivity :=
  peakBy h_messageCount hourlyActivity.

(** [messageTypes.find((t) => t.type === 1)], then [imageType?.count || 0] *)
Definition imageCount (messageTypes : list TypeCount) : Z :=
  match List.find (fun t => tc_type t =? 1) messageTypes with
  | Some imageType => tc_count imageType
  | None => 0
  end.

End OverviewTab.

(** The member ranking tab. *)
Module MemberTab.

Record MemberRankItem := {
  ri_id : string;
  ri_name : string;
  ri_value : Z;
  ri_percentage : Q
}.

Definition toRankItem (m : MemberActivity) : MemberRankItem :=
  {| ri_id := pretty (memberId m);
     ri_name := ma_name m;
     ri_value := messageCount m;
     ri_percentage := percentage m |}.

(** [memberActivity.slice(0, 10).map(...)] *)
Definition top10RankData (memberActivity : list MemberActivity) : list MemberRankItem :=
  List.map toRankItem (firstn 10 memberActivity).

Definition fullRankData (memberActivity : list MemberActivity) : list MemberRankItem :=
  List.map toRankItem memberActivity.

(** [v-if="memberActivity.length > 10"] on the button that opens the full
    ranking. *)
Definition showFullRankButton (memberActivity : list MemberActivity) : bool :=
  (10 <? List.length memberActivity)%nat.

End MemberTab.

(** The import progress dialog; [None] is a missing [importProgress]. *)
Module ImportProgressModal.

Definition statusIcon (stage : option string) : string :=
  match stage with
  | None => "i-heroicons-arrow-path"
  | Some st =>
      if String.eqb st "done" then "i-heroicons-check-circle"
      else if String.eqb st "error" then "i-heroicons-exclamation-circle"
      else "i-heroicons-arrow-path"
  end.

Definition statusColor (stage : option string) : string :=
  match stage with
  | None => "text-purple-500"
  | Some st =>
      if String.eqb st "done" then "text-green-500"
      else if String.eqb st "error" then "text-red-500"
      else "text-purple-500"
  end.

Definition isSpinning (stage : option string) : bool :=
  match stage with
  | None => true
  | Some st => negb (existsb (String.eqb st) ["done"; "error"])
  end.

End ImportProgressModal.

(** * Vocabulary of the properties *)

(** The storage files of a session: the database and the two companions the
    engine keeps next to it in WAL mode. *)
Definition artifacts (sessionId : string) : list string :=
  [getDbPath sessionId;
   (getDbPath sessionId ++ "-wal")%string;
   (getDbPath sessionId ++ "-shm")%string].


(** What [scanFile] maintains: the scan only ever adds table-less databases
    at paths that did not exist, and every session it collects was read from
    a database whose [meta] table has a first row. *)
Definition scanInv (fs0 : directory) (acc : list AnalysisSession * directory) : Prop :=
  (forall p d, snd acc !! p = Some (DbFile d) <-> fs0 !! p = Some (DbFile d)) /\
  (forall s, In s (fst acc) ->
     exists d mt rest, fs0 !! getDbPath (s_id s) = Some (DbFile d) /\
                       meta d = mt :: rest /\ s = sessionOf (s_id s) mt d).


(** The display name carried by the last occurrence of a platform id in a
    member list. *)
Definition lastNameOf (pid : string) (l : list ParsedMember) : option string :=
  option_map name (List.find (fun pm => String.eqb (platformId pm) pid) (rev l)).

(** What a stored message carries besides its own row id. *)
Definition msgData (r : message_row) : Z * Z * Z * option string :=
  (sender_id r, ts r, msg_type r, content r).

(** The row data a parsed message is stored with, given the member table:
    its sender is looked up by platform id; there is nothing to store when
    the lookup fails. *)
Definition storedFrom (rows : list member_row) (msg : ParsedMessage)
  : option (Z * Z * Z * option string) :=
  option_map (fun r => (m_id r, timestamp msg, type msg, msgContent msg))
             (List.find (fun r => String.eqb (platform_id r) (senderPlatformId msg))
                        rows).

(** The two writes of one turn of the member loop, on the tables. *)
Definition memberStep (pm : ParsedMember) (d : database) : database :=
  snd (Stmt.updateMemberName (name pm) (platformId pm)
         (snd (Stmt.insertMember (platformId pm) (name pm) d))).

(** What the member loop maintains, [done] being the members processed so
    far and [mp] the [memberIdMap]. *)
Definition memberInv (metaRows : list meta_row) (done : list ParsedMember)
           (mp : gmap string Z) (s : txstate) : Prop :=
  meta (tx_db s) = metaRows /\
  message (tx_db s) = [] /\
  NoDup (List.map platform_id (member (tx_db s))) /\
  NoDup (List.map m_id (member (tx_db s))) /\
  (forall pid, In pid (List.map platform_id (member (tx_db s))) <->
               In pid (List.map platformId done)) /\
  (forall r, In r (member (tx_db s)) ->
             lastNameOf (platform_id r) done = Some (m_name r)) /\
  (forall pid, mp !! pid =
               option_map m_id (List.find (fun r => String.eqb (platform_id r) pid)
                                          (member (tx_db s)))).

(** What the message loop maintains. *)
Definition messageInv (metaRows : list meta_row) (rows : list member_row)
           (done : list ParsedMessage) (s : txstate) : Prop :=
  meta (tx_db s) = metaRows /\
  member (tx_db s) = rows /\
  List.map msgData (message (tx_db s)) = omap (storedFrom rows) done.

(** The state a successful import of [pr] leaves in a new database. *)
Definition importPost (nowMs : Z) (pr : ParseResult) (d : database) : Prop :=
  meta d = [MetaRow (pm_name (pr_meta pr)) (pm_platform (pr_meta pr))
                    (pm_type (pr_meta pr)) (nowMs / 1000)] /\
  NoDup (List.map platform_id (member d)) /\
  NoDup (List.map m_id (member d)) /\
  (forall pid, In pid (List.map platform_id (member d)) <->
               In pid (List.map platformId (members pr))) /\
  (forall r, In r (member d) ->
             lastNameOf (platform_id r) (members pr) = Some (m_name r)) /\
  List.map msgData (message d) = omap (storedFrom (member d)) (messages pr).

(** The time filter as a predicate on timestamps: inclusive bounds, each one
    applying only when present. *)
Definition inTimeFilter (filter : option TimeFilter) (t : Z) : bool :=
  match filter ≫= startTs with Some v => v <=? t | None => true end &&
  match filter ≫= endTs with Some v => t <=? v | None => true end.

(** The sender of a message is a member whose name is not the sentinel
    label. *)
Definition senderNotSystem (d : database) (msg : message_row) : bool :=
  existsb (fun m => (m_id m =? sender_id msg) && negb (String.eqb (m_name m) systemLabel))
          (member d).

(** The conjunction of the time filter and of the sentinel exclusion. *)
Definition counted (filter : option TimeFilter) (d : database) (msg : message_row)
  : bool :=
  inTimeFilter filter (ts msg) && senderNotSystem d msg.

(** The number of counted messages that fall into a bucket. *)
Definition countedIn (filter : option TimeFilter) (d : database)
           (bucket : message_row -> bool) : Z :=
  Z.of_nat (List.length
              (List.filter (fun msg => counted filter d msg && bucket msg) (message d))).

(** The number of non-system messages under the filter. *)
Definition totalNonSystemMessages (filter : option TimeFilter) (d : database) : Z :=
  Z.of_nat (List.length (List.filter (counted filter d) (message d))).

(** The number of messages of one member that match the filter. *)
Definition memberCount (filter : option TimeFilter) (d : database) (m : member_row) : Z :=
  Z.of_nat (List.length
              (List.filter (fun msg => (m_id m =? sender_id msg)
                                       && inTimeFilter filter (ts msg))
                           (message d))).

(** A member that [getMemberActivity] has to report. *)
Definition qualifies (filter : option TimeFilter) (d : database) (m : member_row) : bool :=
  negb (String.eqb (m_name m) systemLabel) && (0 <? memberCount filter d m).

(** The entry [getMemberActivity] has to report for a member. *)
Definition entryOf (filter : option TimeFilter) (d : database) (m : member_row)
  : MemberActivity :=
  {| memberId := m_id m;
     ma_platformId := platform_id m;
     ma_name := m_name m;
     messageCount := memberCount filter d m;
     percentage :=
       (inject_Z (Math_round (inject_Z (memberCount filter d m)
                              / inject_Z (totalNonSystemMessages filter d)
                              * inject_Z 10000))
        / inject_Z 100)%Q |}.

Definition sumZ (l : list Z) : Z := fold_right Z.add 0 l.

(** The bound conditions a time filter stands for. *)
Definition timeConds (filter : option TimeFilter) : list Sql.cond :=
  match filter ≫= startTs with Some v => [Sql.CTsGe v] | None => [] end ++
  match filter ≫= endTs with Some v => [Sql.CTsLe v] | None => [] end.

(** The rows the left join of [getMemberActivity] yields for one member. *)
Definition memberBlock (d : database) (cs : list Sql.cond) (m : member_row)
  : list (member_row * option message_row) :=
  match List.filter (fun msg => Sql.holdsAll cs m msg) (message d) with
  | [] => [(m, None)]
  | l => List.map (fun msg => (m, Some msg)) l
  end.

(** The hours 0, 1, ..., 23. *)
Definition hoursOfDay : list Z := List.map Z.of_nat (seq 0 24).

(** The aggregated row of one member's block of the left join. *)
Definition memberCountRow (d : database) (cs : list Sql.cond) (m : member_row)
  : member_count_row :=
  {| mr_memberId := m_id m;
     mr_platformId := platform_id m;
     mr_name := m_name m;
     mr_messageCount := countMsgId (memberBlock d cs m) |}.

Definition notSystem (m : member_row) : bool :=
  negb (String.eqb (m_name m) systemLabel).

(** ** A worked dataset

    Three members -- A with 7 messages, B with 2, the system sentinel with
    5 -- all on one day, at hours 9 and 14 of a clock that runs on UTC. *)

Module Example.

Definition day : Z := 1700006400.     (* a midnight, UTC *)
Definition at9 : Z := day + 9 * 3600.
Definition at14 : Z := day + 14 * 3600.

Definition utcHour (t : Z) : option Z := Some ((t / 3600) mod 24).
Definition utcDate (t : Z) : option string := Some (pretty (t / 86400)).

Definition db : database :=
  {| meta := [MetaRow "family" "qq" "group" 1700100000];
     member := [MemberRow 1 "u-a" "A"; MemberRow 2 "u-b" "B";
                MemberRow 3 "sys" systemLabel];
     message :=
       [MessageRow 1 1 at9 0 (Some "hello");
        MessageRow 2 3 (at9 + 5) 6 None;
        MessageRow 3 1 (at9 + 10) 0 (Some "anyone?");
        MessageRow 4 2 (at9 + 20) 0 (Some "here");
        MessageRow 5 1 (at9 + 30) 1 None;
        MessageRow 6 3 (at9 + 40) 6 None;
        MessageRow 7 1 (at9 + 50) 0 (Some "ok");
        MessageRow 8 3 (at9 + 60) 6 None;
        MessageRow 9 1 at14 0 (Some "back");
        MessageRow 10 2 (at14 + 5) 2 None;
        MessageRow 11 1 (at14 + 10) 0 (Some "good");
        MessageRow 12 3 (at14 + 20) 6 None;
        MessageRow 13 1 (at14 + 30) 0 (Some "bye");
        MessageRow 14 3 (at14 + 40) 6 None];
     seq_member := 3;
     seq_message := 14 |}.

Definition fs : directory :=
  <["s1.db" := DbFile db]> (<["s1.db-wal" := Foreign]> (<["notes.txt" := Foreign]> ∅)).

(** From 09:00:10 to 14:00:10, both ends included. *)
Definition window : option TimeFilter :=
  Some {| startTs := Some (at9 + 10); endTs := Some (at14 + 10) |}.

(** A parse result that lists the sender [u-a] twice and carries a message
    of a sender that is not listed. *)
Definition parsed : ParseResult :=
  {| pr_meta := {| pm_name := "family"; pm_platform := "qq"; pm_type := "group" |};
     members := [ {| platformId := "u-a"; name := "A" |};
                  {| platformId := "u-b"; name := "B" |};
                  {| platformId := "u-a"; name := "A (new)" |} ];
     messages := [ {| senderPlatformId := "u-a"; timestamp := at9; type := 0;
                      msgContent := Some "hello" |};
                   {| senderPlatformId := "ghost"; timestamp := at9 + 1; type := 0;
                      msgContent := Some "boo" |};
                   {| senderPlatformId := "u-b"; timestamp := at9 + 2; type := 1;
                      msgContent := None |} ] |}.

Definition noFault (n : nat) : bool := false.
Definition faultAt (k n : nat) : bool := Nat.eqb n k.

End Example.


(** ** Vocabulary of the further properties *)



(** A platform id that the parsed member list names, with a last name that
    is not the sentinel label. *)
Definition knownNotSystem (pr : ParseResult) (pid : string) : bool :=
  match lastNameOf pid (members pr) with
  | Some n => negb (String.eqb n systemLabel)
  | None => false
  end.


(** The Gregorian leap-year rule. *)
Definition gregorianLeap (year : Z) : Prop :=
  ((4 | year) /\ ~ (100 | year)) \/ (400 | year).


Module Example2.

(** Two stored sessions: the worked dataset under [s1] and under [s2]. *)
Definition fs2 : directory := <["s2.db" := DbFile Example.db]> Example.fs.

Definition utcYear (t : Z) : option Z := Some (1970 + t / 31556952).

(** A filter other than [Example.window] that admits the same stored
    messages. *)
Definition wider : option TimeFilter :=
  Some {| startTs := Some (Example.at9 + 6); endTs := Some (Example.at14 + 15) |}.

End Example2.

(** * Properties *)

(** ** The sort *)

Section SortFacts.
Context {A : Type} (le : A -> A -> bool).

Lemma insertSorted_perm (x : A) (l : list A) :
  Permutation (insertSorted le x l) (x :: l).
Proof.
  induction l as [|y l IH]; simpl.
  - reflexivity.
  - destruct (le x y).
    + reflexivity.
    + rewrite IH. apply perm_swap.
Qed.

Lemma sortBy_perm (l : list A) : Permutation (sortBy le l) l.
Proof.
  induction l as [|x l IH]; simpl.
  - constructor.
  - rewrite insertSorted_perm. now constructor.
Qed.

Lemma sortBy_In (l : list A) (x : A) : In x (sortBy le l) <-> In x l.
Proof.
  split; apply Permutation_in; [|symmetry]; apply sortBy_perm.
Qed.

Hypothesis le_total : forall a b, le a b = true \/ le b a = true.
Hypothesis le_trans : forall a b c, le a b = true -> le b c = true -> le a c = true.

Lemma insertSorted_sorted (x : A) (l : list A) :
  StronglySorted (fun a b => le a b = true) l ->
  StronglySorted (fun a b => le a b = true) (insertSorted le x l).
Proof.
  induction 1 as [|y l Hs IH Hy]; simpl.
  - repeat constructor.
  - destruct (le x y) eqn:E.
    + constructor; [now constructor|].
      constructor; [assumption|].
      eapply List.Forall_impl; [|exact Hy]. intros z Hz. now apply le_trans with y.
    + constructor; [assumption|].
      assert (Hyx : le y x = true) by (destruct (le_total x y); congruence).
      rewrite List.Forall_forall. intros z Hz.
      apply (Permutation_in _ (insertSorted_perm x l)) in Hz.
      destruct Hz as [<-|Hz]; [assumption|].
      rewrite List.Forall_forall in Hy. now apply Hy.
Qed.

Lemma sortBy_sorted (l : list A) :
  StronglySorted (fun a b => le a b = true) (sortBy le l).
Proof.
  induction l as [|x l IH]; simpl.
  - constructor.
  - now apply insertSorted_sorted.
Qed.
End SortFacts.

(** ** Paths *)

Lemma path_suffix_ne (p suffix : string) :
  suffix <> "" -> (p ++ suffix)%string <> p.
Proof.
  intros Hs Heq. apply Hs.
  induction p as [|c p IH]; simpl in Heq.
  - assumption.
  - injection Heq as Heq. now apply IH.
Qed.

Lemma wal_shm_ne (p : string) : (p ++ "-wal")%string <> (p ++ "-shm")%string.
Proof.
  induction p as [|c p IH]; simpl.
  - discriminate.
  - intros Heq. injection Heq as Heq. now apply IH.
Qed.

(** ** The session catalog *)

Lemma scanFile_inv (fs0 : directory) acc file :
  scanInv fs0 acc -> scanInv fs0 (scanFile acc file).
Proof.
  destruct acc as [sessions fs]. intros [Hfs Hs]. unfold scanFile.
  simpl in Hfs, Hs.
  destruct (fs !! getDbPath (JsString.replace ".db" "" file)) as [[d| |]|] eqn:E.
  - destruct (meta d) as [|mt rest] eqn:Em; split; simpl; try assumption.
    intros s Hin. apply in_app_or in Hin. destruct Hin as [Hin|[<-|[]]].
    + now apply Hs.
    + exists d, mt, rest. simpl. repeat split; [|assumption].
      now apply Hfs.
  - now split.
  - now split.
  - split; simpl; [|assumption].
    intros p d. rewrite lookup_insert_Some. rewrite <- Hfs. split.
    + intros [[_ ?]|[_ ?]]; [discriminate|assumption].
    + intros H. right. split; [|assumption]. intros <-. congruence.
Qed.

Lemma scan_fold_inv (fs0 : directory) files acc :
  scanInv fs0 acc -> scanInv fs0 (fold_left scanFile files acc).
Proof.
  revert acc. induction files as [|f files IH]; intros acc Hacc; simpl.
  - assumption.
  - apply IH. now apply scanFile_inv.
Qed.

(** Every session listed by [getAllSessions] is backed by a database file
    named after it whose [meta] table is not empty. *)
Lemma getAllSessions_listed (fs : directory) (s : AnalysisSession) :
  In s (fst (getAllSessions fs)) ->
  exists d mt rest, fs !! getDbPath (s_id s) = Some (DbFile d) /\
                    meta d = mt :: rest /\ s = sessionOf (s_id s) mt d.
Proof.
  unfold getAllSessions.
  pose proof (scan_fold_inv fs
                (List.filter (JsString.endsWith ".db") (readdirSync fs)) ([], fs)) as H.
  destruct (fold_left scanFile _ _) as [sessions fs'].
  simpl. rewrite sortBy_In. intros Hin.
  destruct H as [_ H].
  - split; [tauto|]. intros ? [].
  - now apply H.
Qed.


(** ** [deleteSession] *)

Lemma unlinkIfExists_spec locked p fs :
  (existsSync p fs = true /\ locked p = true /\
   unlinkIfExists locked p fs = (Throws FsError, fs)) \/
  ((existsSync p fs = false \/ locked p = false) /\
   unlinkIfExists locked p fs = (Returns tt, delete p fs)).
Proof.
  unfold unlinkIfExists, unlinkSync, existsSync.
  destruct (fs !! p) as [f|] eqn:E.
  - rewrite bool_decide_eq_true_2 by eauto.
    destruct (locked p); [left|right]; auto.
  - rewrite bool_decide_eq_false_2 by (intros [? ?]; discriminate).
    right. split; [now left|]. now rewrite delete_id.
Qed.

Lemma existsSync_delete_ne p q fs :
  p <> q -> existsSync q (delete p fs) = existsSync q fs.
Proof.
  intros Hne. unfold existsSync. now rewrite lookup_delete_ne.
Qed.

(** The three removals in sequence, as one case analysis. *)
Lemma deleteSession_cases locked sessionId fs :
  let p1 := getDbPath sessionId in
  let p2 := (p1 ++ "-wal")%string in
  let p3 := (p1 ++ "-shm")%string in
  (fst (deleteSession locked sessionId fs) = false /\
   exists p, In p (artifacts sessionId) /\ existsSync p fs = true /\ locked p = true) \/
  (deleteSession locked sessionId fs = (true, delete p3 (delete p2 (delete p1 fs))) /\
   forall p, In p (artifacts sessionId) -> existsSync p fs = false \/ locked p = false).
Proof.
  intros p1 p2 p3.
  assert (H12 : p1 <> p2) by (intros H; symmetry in H; revert H; now apply path_suffix_ne).
  assert (H13 : p1 <> p3) by (intros H; symmetry in H; revert H; now apply path_suffix_ne).
  assert (H23 : p2 <> p3) by apply wal_shm_ne.
  unfold deleteSession, bind. fold p1 p2 p3.
  destruct (unlinkIfExists_spec locked p1 fs) as [(E1 & L1 & ->)|[C1 ->]].
  { left. split; [reflexivity|]. exists p1. unfold artifacts. simpl; auto. }
  destruct (unlinkIfExists_spec locked p2 (delete p1 fs)) as [(E2 & L2 & ->)|[C2 ->]].
  { left. split; [reflexivity|]. exists p2. rewrite existsSync_delete_ne in E2 by assumption.
    unfold artifacts. fold p1 p2. simpl; auto. }
  destruct (unlinkIfExists_spec locked p3 (delete p2 (delete p1 fs)))
    as [(E3 & L3 & ->)|[C3 ->]].
  { left. split; [reflexivity|]. exists p3.
    rewrite !existsSync_delete_ne in E3 by assumption.
    unfold artifacts. fold p1 p3. simpl; auto. }
  right. split; [reflexivity|].
  rewrite existsSync_delete_ne in C2 by assumption.
  rewrite !existsSync_delete_ne in C3 by assumption.
  unfold artifacts. fold p1 p2 p3. intros p [<-|[<-|[<-|[]]]]; assumption.
Qed.


(** C10.  When none of the three storage files of a session id exists,
    [deleteSession] answers [true] and leaves the directory as it was; it
    also answers [true] when no removal is refused, so the two cases cannot
    be told apart by the caller.  The answer is [false] only when one of the
    three files exists and its removal throws. *)
Theorem deleteSession_absent_session (locked : string -> bool)
        (sessionId : string) (fs : directory) :
  ((forall p, In p (artifacts sessionId) -> fs !! p = None) ->
   deleteSession locked sessionId fs = (true, fs)) /\
  ((forall p, In p (artifacts sessionId) -> locked p = false) ->
   fst (deleteSession locked sessionId fs) = true) /\
  (fst (deleteSession locked sessionId fs) = false ->
   exists p, In p (artifacts sessionId) /\ existsSync p fs = true /\ locked p = true).
Proof.
  destruct (deleteSession_cases locked sessionId fs)
    as [[Hf (q & Hq & Eq & Lq)]|[Heq Hall]].
  - split; [|split].
    + intros Habs. unfold existsSync in Eq. rewrite (Habs q Hq) in Eq.
      rewrite bool_decide_eq_false_2 in Eq; [discriminate|].
      intros [? ?]; discriminate.
    + intros Hfree. rewrite (Hfree q Hq) in Lq. discriminate.
    + intros _. now exists q.
  - split; [|split].
    + intros Habs. rewrite Heq. f_equal.
      assert (H : forall p, In p (artifacts sessionId) -> fs !! p = None) by exact Habs.
      unfold artifacts in H. cbn [In] in H.
      rewrite (delete_id fs (getDbPath sessionId)) by auto.
      rewrite (delete_id fs (getDbPath sessionId ++ "-wal")%string) by auto.
      rewrite (delete_id fs (getDbPath sessionId ++ "-shm")%string) by auto.
      reflexivity.
    + intros _. now rewrite Heq.
    + rewrite Heq. discriminate.
Qed.

(** ** [getTimeRange] *)

Lemma minTs_spec (l : list message_row) :
  match minTs l with
  | None => l = []
  | Some lo => (exists m, In m l /\ ts m = lo) /\ forall m, In m l -> lo <= ts m
  end.
Proof.
  destruct l as [|r l]; simpl; [reflexivity|].
  induction l as [|x l [[m [Hm Hlo]] IH]]; simpl.
  - split; [exists r; auto|]. intros m [<-|[]]. lia.
  - split.
    + destruct (Z.min_spec (ts x) (fold_right (fun x acc => Z.min (ts x) acc) (ts r) l))
        as [[_ ->]|[_ ->]].
      * exists x. auto.
      * exists m. destruct Hm as [<-|Hm]; auto.
    + intros m' [<-|[<-|Hm']].
      * specialize (IH r (or_introl eq_refl)). lia.
      * lia.
      * specialize (IH m' (or_intror Hm')). lia.
Qed.

Lemma maxTs_spec (l : list message_row) :
  match maxTs l with
  | None => l = []
  | Some hi => (exists m, In m l /\ ts m = hi) /\ forall m, In m l -> ts m <= hi
  end.
Proof.
  destruct l as [|r l]; simpl; [reflexivity|].
  induction l as [|x l [[m [Hm Hhi]] IH]]; simpl.
  - split; [exists r; auto|]. intros m [<-|[]]. lia.
  - split.
    + destruct (Z.max_spec (ts x) (fold_right (fun x acc => Z.max (ts x) acc) (ts r) l))
        as [[_ ->]|[_ ->]].
      * exists m. destruct Hm as [<-|Hm]; auto.
      * exists x. auto.
    + intros m' [<-|[<-|Hm']].
      * specialize (IH r (or_introl eq_refl)). lia.
      * lia.
      * specialize (IH m' (or_intror Hm')). lia.
Qed.

(** C4.  For a stored session, [getTimeRange] returns [null] exactly when the
    message table is empty; otherwise it returns the least and the greatest
    timestamp over every stored message, whoever sent it (the sentinel's
    messages included) and whatever its time. *)
Theorem getTimeRange_full_span (fs : directory) (sessionId : string) (d : database) :
  fs !! getDbPath sessionId = Some (DbFile d) ->
  (message d = [] /\ getTimeRange fs sessionId = Returns None) \/
  (exists lo hi,
     getTimeRange fs sessionId = Returns (Some (lo, hi)) /\
     (exists m, In m (message d) /\ ts m = lo) /\
     (exists m, In m (message d) /\ ts m = hi) /\
     forall m, In m (message d) -> lo <= ts m <= hi).
Proof.
  intros Hfile. unfold getTimeRange, openDatabase. rewrite Hfile. simpl.
  pose proof (minTs_spec (message d)) as Hmin.
  pose proof (maxTs_spec (message d)) as Hmax.
  destruct (minTs (message d)) as [lo|], (maxTs (message d)) as [hi|].
  - right. exists lo, hi. destruct Hmin as [Hlo Hmin], Hmax as [Hhi Hmax].
    repeat split; try assumption.
    + now apply Hmin.
    + now apply Hmax.
  - left. now split.
  - left. now split.
  - left. now split.
Qed.

(** ** The importer *)

Lemma forOf_inv {S A X : Type} (body : A -> X -> M S A)
      (I : list X -> A -> S -> Prop) (xs : list X) :
  (forall done x acc s, I done acc s ->
     exists acc' s', body acc x s = (Returns acc', s') /\ I (done ++ [x]) acc' s') ->
  forall done acc s, I done acc s ->
    exists acc' s', forOf body xs acc s = (Returns acc', s') /\ I (done ++ xs) acc' s'.
Proof.
  intros Hbody. induction xs as [|x xs IH]; intros done acc s HI; simpl.
  - exists acc, s. rewrite app_nil_r. now split.
  - destruct (Hbody done x acc s HI) as (acc1 & s1 & E1 & HI1).
    destruct (IH _ _ _ HI1) as (acc2 & s2 & E2 & HI2).
    exists acc2, s2. unfold bind. rewrite E1. split; [assumption|].
    now rewrite <- app_assoc in HI2.
Qed.

Lemma max_ids_bound (ids : list Z) (x : Z) :
  In x ids -> x <= fold_right Z.max 0 ids.
Proof.
  induction ids as [|y ids IH]; simpl; [tauto|].
  intros [->|H]; [lia|]. specialize (IH H). lia.
Qed.

Lemma nextRowid_fresh (seq : Z) (ids : list Z) : ~ In (nextRowid seq ids) ids.
Proof.
  intros H. apply max_ids_bound in H. unfold nextRowid in H. lia.
Qed.

Lemma find_map_preserved {A B : Type} (p : B -> bool) (q : A -> bool) (f : A -> B)
      (g : B -> Z) (h : A -> Z) (l : list A) :
  (forall a, p (f a) = q a) -> (forall a, g (f a) = h a) ->
  option_map g (List.find p (List.map f l)) = option_map h (List.find q l).
Proof.
  intros Hp Hg. induction l as [|a l IH]; simpl; [reflexivity|].
  rewrite Hp. destruct (q a); simpl; [now rewrite Hg|assumption].
Qed.

Lemma find_app {A : Type} (p : A -> bool) (l1 l2 : list A) :
  List.find p (l1 ++ l2) =
  match List.find p l1 with Some a => Some a | None => List.find p l2 end.
Proof.
  induction l1 as [|a l1 IH]; simpl; [reflexivity|].
  destruct (p a); [reflexivity|assumption].
Qed.

Lemma find_None_iff {A : Type} (p : A -> bool) (l : list A) :
  List.find p l = None <-> forall a, In a l -> p a = false.
Proof.
  split; [apply find_none|].
  induction l as [|a l IH]; simpl; [reflexivity|].
  intros H. rewrite (H a (or_introl eq_refl)). apply IH. intros b Hb. apply H. now right.
Qed.

Lemma lastNameOf_snoc (pid : string) (done : list ParsedMember) (pm : ParsedMember) :
  lastNameOf pid (done ++ [pm]) =
  if String.eqb (platformId pm) pid then Some (name pm) else lastNameOf pid done.
Proof.
  unfold lastNameOf. rewrite rev_app_distr. simpl.
  now destruct (String.eqb (platformId pm) pid).
Qed.

(** The rows of the member table after one turn of the member loop. *)
Lemma memberStep_member (pm : ParsedMember) (d : database) :
  let rename := fun r => if String.eqb (platform_id r) (platformId pm)
                         then MemberRow (m_id r) (platform_id r) (name pm) else r in
  member (memberStep pm d) =
  List.map rename (member d) ++
  (if existsb (fun r => String.eqb (platform_id r) (platformId pm)) (member d)
   then []
   else [MemberRow (nextRowid (seq_member d) (List.map m_id (member d)))
                   (platformId pm) (name pm)]).
Proof.
  intros rename. unfold memberStep, Stmt.updateMemberName, Stmt.insertMember.
  destruct (existsb _ (member d)); simpl.
  - now rewrite app_nil_r.
  - rewrite List.map_app. simpl. now rewrite String.eqb_refl.
Qed.

Lemma memberStep_rest (pm : ParsedMember) (d : database) :
  meta (memberStep pm d) = meta d /\ message (memberStep pm d) = message d.
Proof.
  unfold memberStep, Stmt.updateMemberName, Stmt.insertMember.
  now destruct (existsb _ (member d)).
Qed.

Lemma existsb_pid_In (pid : string) (rows : list member_row) :
  existsb (fun r => String.eqb (platform_id r) pid) rows = true <->
  In pid (List.map platform_id rows).
Proof.
  rewrite existsb_exists, in_map_iff. split.
  - intros (r & Hr & E). apply String.eqb_eq in E. eauto.
  - intros (r & E & Hr). exists r. split; [assumption|]. now apply String.eqb_eq.
Qed.

Lemma NoDup_snoc {A : Type} (l : list A) (x : A) :
  NoDup l -> ~ In x l -> NoDup (l ++ [x]).
Proof.
  intros Hnd Hx. apply NoDup_app. split; [assumption|].
  split; [|apply NoDup_singleton].
  intros y Hy Hy'. apply list_elem_of_singleton in Hy'. subst y.
  apply Hx. now apply list_elem_of_In.
Qed.

Section ImporterFacts.
Variable faults : nat -> bool.
Hypothesis no_fault : forall n, faults n = false.

Lemma exec_ok {A : Type} (f : database -> A * database) (s : txstate) :
  exec faults f s =
  (Returns (fst (f (tx_db s))),
   {| tx_db := snd (f (tx_db s)); tx_step := S (tx_step s) |}).
Proof.
  unfold exec. rewrite no_fault. now destruct (f (tx_db s)).
Qed.

Lemma importMember_inv (metaRows : list meta_row) (done : list ParsedMember)
      (pm : ParsedMember) (mp : gmap string Z) (s : txstate) :
  memberInv metaRows done mp s ->
  exists mp' s', importMember faults mp pm s = (Returns mp', s') /\
                 memberInv metaRows (done ++ [pm]) mp' s'.
Proof.
  intros (Hmeta & Hmsg & Hpids & Hids & Hdom & Hnames & Hmap).
  set (d := tx_db s) in *.
  set (pid := platformId pm). set (nm := name pm).
  set (rename := fun r => if String.eqb (platform_id r) pid
                          then MemberRow (m_id r) (platform_id r) nm else r).
  set (extra := if existsb (fun r => String.eqb (platform_id r) pid) (member d)
                then []
                else [MemberRow (nextRowid (seq_member d) (List.map m_id (member d)))
                                pid nm]).
  assert (Hrows : member (memberStep pm d) = List.map rename (member d) ++ extra)
    by apply memberStep_member.
  assert (Hrp : forall r, platform_id (rename r) = platform_id r).
  { intros r. unfold rename. now destruct (String.eqb (platform_id r) pid). }
  assert (Hri : forall r, m_id (rename r) = m_id r).
  { intros r. unfold rename. now destruct (String.eqb (platform_id r) pid). }
  assert (Epids : List.map platform_id (member (memberStep pm d)) =
                  List.map platform_id (member d) ++ List.map platform_id extra).
  { rewrite Hrows, List.map_app, List.map_map. f_equal. now apply map_ext. }
  assert (Eids : List.map m_id (member (memberStep pm d)) =
                 List.map m_id (member d) ++ List.map m_id extra).
  { rewrite Hrows, List.map_app, List.map_map. f_equal. now apply map_ext. }
  assert (Hdom' : forall pid', In pid' (List.map platform_id (member (memberStep pm d))) <->
                               In pid' (List.map platformId (done ++ [pm]))).
  { intros pid'. rewrite Epids, List.map_app, !in_app_iff, <- Hdom. simpl.
    unfold extra. fold pid.
    destruct (existsb _ (member d)) eqn:Eex; simpl.
    - apply existsb_pid_In in Eex. split; [tauto|].
      intros [H|[<-|[]]]; auto.
    - tauto. }
  assert (Hfound : exists r, List.find (fun r => String.eqb (platform_id r) pid)
                                       (member (memberStep pm d)) = Some r).
  { destruct (List.find _ (member (memberStep pm d))) as [r|] eqn:Ef; [eauto|].
    exfalso. rewrite find_None_iff in Ef.
    assert (Hin : In pid (List.map platform_id (member (memberStep pm d)))).
    { apply Hdom'. rewrite List.map_app, in_app_iff. right. simpl. auto. }
    apply in_map_iff in Hin. destruct Hin as (r & Er & Hr).
    specialize (Ef r Hr). simpl in Ef. rewrite Er, String.eqb_refl in Ef. discriminate. }
  destruct Hfound as [r0 Hr0].
  exists (<[pid := m_id r0]> mp),
         {| tx_db := memberStep pm d; tx_step := S (S (S (tx_step s))) |}.
  split.
  { unfold importMember, bind. rewrite !exec_ok. cbn [fst snd tx_db tx_step].
    unfold Stmt.getMemberId. cbn [fst snd].
    unfold memberStep, d, pid in Hr0 |- *. rewrite Hr0. reflexivity. }
  unfold memberInv. cbn [tx_db].
  destruct (memberStep_rest pm d) as [-> ->].
  split; [assumption|]. split; [assumption|].
  split; [|split; [|split; [exact Hdom'|split]]].
  - rewrite Epids. unfold extra.
    destruct (existsb _ (member d)) eqn:Eex; simpl.
    + now rewrite app_nil_r.
    + apply NoDup_snoc; [assumption|].
      rewrite <- existsb_pid_In. now rewrite Eex.
  - rewrite Eids. unfold extra.
    destruct (existsb _ (member d)); simpl.
    + now rewrite app_nil_r.
    + apply NoDup_snoc; [assumption|]. apply nextRowid_fresh.
  - intros r Hr. rewrite Hrows, in_app_iff in Hr.
    rewrite lastNameOf_snoc. fold pid nm.
    destruct Hr as [Hr|Hr].
    + apply in_map_iff in Hr. destruct Hr as (r1 & <- & Hr1).
      rewrite Hrp. unfold rename. rewrite (String.eqb_sym pid).
      destruct (String.eqb (platform_id r1) pid); [reflexivity|].
      now apply Hnames.
    + unfold extra in Hr. destruct (existsb _ (member d)); simpl in Hr; [tauto|].
      destruct Hr as [<-|[]]. simpl. now rewrite String.eqb_refl.
  - intros pid'. destruct (String.eqb pid pid') eqn:Epp.
    + apply String.eqb_eq in Epp. subst pid'.
      rewrite lookup_insert_eq. now rewrite Hr0.
    + assert (Hne : pid <> pid') by (intros ->; now rewrite String.eqb_refl in Epp).
      rewrite lookup_insert_ne by assumption.
      rewrite Hmap, Hrows, find_app.
      pose proof (find_map_preserved
                    (fun r => String.eqb (platform_id r) pid')
                    (fun r => String.eqb (platform_id r) pid')
                    rename m_id m_id (member d)) as Hpres.
      rewrite <- Hpres; [|intros a; now rewrite Hrp|exact Hri].
      destruct (List.find _ (List.map rename (member d))); [reflexivity|].
      unfold extra. destruct (existsb _ (member d)); simpl; [reflexivity|].
      now rewrite Epp.
Qed.

Lemma importMessage_inv (metaRows : list meta_row) (rows : list member_row)
      (mp : gmap string Z) (done : list ParsedMessage) (msg : ParsedMessage)
      (u : unit) (s : txstate) :
  (forall pid, mp !! pid =
               option_map m_id (List.find (fun r => String.eqb (platform_id r) pid) rows)) ->
  messageInv metaRows rows done s ->
  exists u' s', importMessage faults mp u msg s = (Returns u', s') /\
                messageInv metaRows rows (done ++ [msg]) s'.
Proof.
  intros Hmap (Hmeta & Hmem & Hmsgs).
  unfold importMessage. rewrite Hmap.
  unfold messageInv. rewrite omap_app. simpl. unfold storedFrom at 2.
  destruct (List.find _ rows) as [r|]; simpl.
  - rewrite exec_ok. eexists _, _. split; [reflexivity|].
    cbn [tx_db snd Stmt.insertMessage meta member message].
    split; [assumption|]. split; [assumption|].
    rewrite List.map_app, Hmsgs. reflexivity.
  - exists tt, s. split; [reflexivity|].
    split; [assumption|]. split; [assumption|]. now rewrite app_nil_r.
Qed.
End ImporterFacts.

(** A run of [importData] in which the storage engine never fails, into a
    directory where the generated session id is not taken. *)
Lemma importData_success (faults : nat -> bool) (timestamp : Z) (random : string)
      (nowMs : Z) (pr : ParseResult) (fs : directory) :
  (forall n, faults n = false) ->
  fs !! getDbPath (generateSessionId timestamp random) = None ->
  exists d,
    importData faults timestamp random nowMs pr fs =
    (Returns (generateSessionId timestamp random),
     <[getDbPath (generateSessionId timestamp random) := DbFile d]> fs) /\
    importPost nowMs pr d.
Proof.
  intros Hnf Hfresh.
  set (sid := generateSessionId timestamp random) in *.
  set (metaRows := [MetaRow (pm_name (pr_meta pr)) (pm_platform (pr_meta pr))
                            (pm_type (pr_meta pr)) (nowMs / 1000)]).
  set (s0 := {| tx_db := snd (Stmt.insertMeta (pm_name (pr_meta pr))
                                (pm_platform (pr_meta pr)) (pm_type (pr_meta pr))
                                (nowMs / 1000) emptyDatabase);
                tx_step := 2 |}).
  assert (H0 : memberInv metaRows [] ∅ s0).
  { unfold memberInv, s0. simpl.
    split; [reflexivity|]. split; [reflexivity|].
    split; [constructor|]. split; [constructor|].
    split; [tauto|]. split; [intros r []|].
    intros pid. apply lookup_empty. }
  destruct (forOf_inv (importMember faults) (memberInv metaRows) (members pr)
              (fun done x acc s => importMember_inv faults Hnf metaRows done x acc s)
              [] ∅ s0 H0) as (mp & s1 & E1 & H1).
  simpl in H1.
  destruct H1 as (Hmeta & Hmsg & Hpids & Hids & Hdom & Hnames & Hmap).
  assert (H1' : messageInv metaRows (member (tx_db s1)) [] s1).
  { unfold messageInv. rewrite Hmsg. now repeat split. }
  destruct (forOf_inv (importMessage faults mp)
              (fun done (_ : unit) s => messageInv metaRows (member (tx_db s1)) done s)
              (messages pr)
              (fun done x acc s =>
                 importMessage_inv faults Hnf metaRows (member (tx_db s1)) mp done x acc s Hmap)
              [] tt s1 H1') as (u & s2 & E2 & H2).
  simpl in H2. destruct H2 as (Hmeta2 & Hmem2 & Hmsgs2).
  exists (tx_db s2). split.
  - unfold importData, bind, createDatabase. fold sid. rewrite Hfresh.
    unfold transaction, importBody, bind.
    rewrite !exec_ok by assumption. cbn [fst snd tx_db tx_step Stmt.nop].
    fold s0. rewrite E1, E2.
    rewrite exec_ok by assumption. cbn [fst snd tx_db tx_step Stmt.nop ret].
    now rewrite insert_insert_eq.
  - unfold importPost. rewrite Hmem2, Hmeta2. repeat split; try assumption.
    + now apply Hdom.
    + now apply Hdom.
Qed.

Lemma filter_none {A : Type} (p : A -> bool) (l : list A) :
  (forall a, In a l -> p a = false) -> List.filter p l = [].
Proof.
  induction l as [|a l IH]; simpl; [reflexivity|].
  intros H. rewrite (H a (or_introl eq_refl)). apply IH. intros b Hb. apply H. now right.
Qed.

Lemma filter_unique_pid (rows : list member_row) (r : member_row) :
  NoDup (List.map platform_id rows) -> In r rows ->
  List.filter (fun x => String.eqb (platform_id x) (platform_id r)) rows = [r].
Proof.
  induction rows as [|x rows IH]; simpl; [tauto|].
  intros Hnd Hin. apply NoDup_cons in Hnd. destruct Hnd as [Hx Hnd].
  rewrite list_elem_of_In in Hx.
  destruct Hin as [->|Hin].
  - rewrite String.eqb_refl. f_equal.
    apply filter_none. intros y Hy.
    destruct (String.eqb (platform_id y) (platform_id r)) eqn:E; [|reflexivity].
    exfalso. apply Hx. apply String.eqb_eq in E. rewrite <- E. now apply in_map.
  - destruct (String.eqb (platform_id x) (platform_id r)) eqn:E.
    + exfalso. apply Hx. apply String.eqb_eq in E. rewrite E. now apply in_map.
    + now apply IH.
Qed.

(** C5.  When anything fails inside the write transaction of an import whose
    freshly generated session id is not taken, [importData] throws that
    failure instead of returning the id; the only trace left is a database
    file whose tables are all empty (nothing the transaction wrote
    survives); [getSession] answers [null] for the id and [getAllSessions]
    lists no session with it. *)
Theorem importData_atomic (faults : nat -> bool) (timestamp : Z) (random : string)
        (nowMs : Z) (pr : ParseResult) (fs : directory) (e : exn) :
  fs !! getDbPath (generateSessionId timestamp random) = None ->
  fst (transaction faults (importBody faults nowMs pr) emptyDatabase) = Throws e ->
  exists fs',
    importData faults timestamp random nowMs pr fs = (Throws e, fs') /\
    fs' = <[getDbPath (generateSessionId timestamp random) := DbFile emptyDatabase]> fs /\
    getSession fs' (generateSessionId timestamp random) = Returns None /\
    (forall s, In s (fst (getAllSessions fs')) ->
               s_id s <> generateSessionId timestamp random).
Proof.
  intros Hfresh Hthrow.
  set (sid := generateSessionId timestamp random) in *.
  exists (<[getDbPath sid := DbFile emptyDatabase]> fs).
  assert (Hroll : transaction faults (importBody faults nowMs pr) emptyDatabase =
                  (Throws e, emptyDatabase)).
  { revert Hthrow. unfold transaction.
    destruct (bind _ _ _) as [[a|e'] s']; simpl; [discriminate|].
    now intros [= ->]. }
  split; [|split; [reflexivity|split]].
  - unfold importData, bind, createDatabase. fold sid. rewrite Hfresh, Hroll.
    now rewrite insert_insert_eq.
  - unfold getSession, openDatabase. now rewrite lookup_insert_eq.
  - intros s Hs Hid. apply getAllSessions_listed in Hs.
    destruct Hs as (d & mt & rest & Hlk & Hmeta & _).
    rewrite Hid, lookup_insert_eq in Hlk. injection Hlk as <-. discriminate.
Qed.

(** C6.  In an import that meets no storage failure and whose generated
    session id is not taken, the stored messages are,
    in order, exactly the parsed messages whose sender platform id resolves
    in the member table; a message resolves to nothing precisely when its
    sender platform id is absent from the parsed member list, and such a
    message is left out without any error: the import returns its session
    id.  Hence every stored message's sender id is the id of a member row of
    the same database. *)
Theorem importData_drops_unresolved (faults : nat -> bool) (timestamp : Z)
        (random : string) (nowMs : Z) (pr : ParseResult) (fs : directory) :
  (forall n, faults n = false) ->
  fs !! getDbPath (generateSessionId timestamp random) = None ->
  exists d,
    importData faults timestamp random nowMs pr fs =
    (Returns (generateSessionId timestamp random),
     <[getDbPath (generateSessionId timestamp random) := DbFile d]> fs) /\
    List.map msgData (message d) = omap (storedFrom (member d)) (messages pr) /\
    (forall msg, storedFrom (member d) msg = None <->
                 ~ In (senderPlatformId msg) (List.map platformId (members pr))) /\
    (forall r, In r (message d) -> exists m, In m (member d) /\ m_id m = sender_id r).
Proof.
  intros Hnf Hfresh.
  destruct (importData_success faults timestamp random nowMs pr fs Hnf Hfresh)
    as (d & Himp & Hmeta & Hpids & Hids & Hdom & Hnames & Hmsgs).
  exists d. split; [assumption|]. split; [assumption|]. split.
  - intros msg. rewrite <- Hdom, <- existsb_pid_In. unfold storedFrom.
    destruct (List.find _ (member d)) as [r|] eqn:Ef; simpl.
    + apply find_some in Ef. destruct Ef as [Hr Er]. split; [discriminate|].
      intros Hn. exfalso. apply Hn. apply existsb_exists. eauto.
    + split; [|reflexivity]. intros _. rewrite find_None_iff in Ef.
      intros Hex. apply existsb_exists in Hex. destruct Hex as (r & Hr & Er).
      rewrite (Ef r Hr) in Er. discriminate.
  - intros r Hr. apply (in_map msgData) in Hr. rewrite Hmsgs in Hr.
    apply list_elem_of_In, list_elem_of_omap in Hr.
    destruct Hr as (msg & _ & Hst). unfold storedFrom in Hst.
    destruct (List.find _ (member d)) as [m|] eqn:Ef; simpl in Hst; [|discriminate].
    apply find_some in Ef. exists m. split; [tauto|].
    unfold msgData in Hst. congruence.
Qed.

(** C8.  In an import that meets no storage failure and whose generated
    session id is not taken, every platform id that occurs in the parsed
    member list -- once or several times -- owns exactly
    one row of the member table, and the name stored in that row is the one
    carried by the last occurrence of the id in the list. *)
Theorem importData_latest_name_wins (faults : nat -> bool) (timestamp : Z)
        (random : string) (nowMs : Z) (pr : ParseResult) (fs : directory) :
  (forall n, faults n = false) ->
  fs !! getDbPath (generateSessionId timestamp random) = None ->
  exists d,
    importData faults timestamp random nowMs pr fs =
    (Returns (generateSessionId timestamp random),
     <[getDbPath (generateSessionId timestamp random) := DbFile d]> fs) /\
    forall pid, In pid (List.map platformId (members pr)) ->
      exists r, List.filter (fun x => String.eqb (platform_id x) pid) (member d) = [r] /\
                lastNameOf pid (members pr) = Some (m_name r).
Proof.
  intros Hnf Hfresh.
  destruct (importData_success faults timestamp random nowMs pr fs Hnf Hfresh)
    as (d & Himp & Hmeta & Hpids & Hids & Hdom & Hnames & Hmsgs).
  exists d. split; [assumption|].
  intros pid Hpid. apply Hdom in Hpid. apply in_map_iff in Hpid.
  destruct Hpid as (r & <- & Hr). exists r. split.
  - now apply filter_unique_pid.
  - now apply Hnames.
Qed.

(** ** Filter composition *)

(** The text that the four aggregates pass to the engine as their WHERE
    clause reads as the time conditions followed by the sentinel
    exclusion. *)
Lemma where_clause_reads (filter : option TimeFilter) :
  Sql.prepared
    (Sql.readWhere (buildSystemMessageFilter (fst (buildTimeFilter filter))))
    (snd (buildTimeFilter filter)) =
  Returns (timeConds filter ++ [Sql.CNameNotSystem]).
Proof.
  destruct filter as [[[s|] [e|]]|]; reflexivity.
Qed.

(** The ON clause of [getMemberActivity]. *)
Lemma on_clause_reads (filter : option TimeFilter) :
  let clause := fst (buildTimeFilter filter) in
  let msgFilterBase :=
    if JsString.truthy clause then JsString.replace "WHERE" "AND" clause else "" in
  Sql.prepared
    (Sql.readOn ("m.id = msg.sender_id "
                 ++ (msgFilterBase ++ " AND m.name != '系统消息'"))%string)
    (snd (buildTimeFilter filter)) =
  Returns (Sql.CIdEqSender :: timeConds filter ++ [Sql.CNameNotSystem]).
Proof.
  destruct filter as [[[s|] [e|]]|]; reflexivity.
Qed.

Lemma holdsAll_timeConds (filter : option TimeFilter) (m : member_row)
      (msg : message_row) :
  Sql.holdsAll (timeConds filter ++ [Sql.CNameNotSystem]) m msg =
  inTimeFilter filter (ts msg) && negb (String.eqb (m_name m) systemLabel).
Proof.
  unfold Sql.holdsAll, timeConds, inTimeFilter.
  destruct (filter ≫= startTs), (filter ≫= endTs); simpl;
    rewrite ?andb_true_r, ?andb_assoc; reflexivity.
Qed.

(** ** Lists: filters, counts and sums *)

Lemma filter_filter_and {A : Type} (p q : A -> bool) (l : list A) :
  List.filter q (List.filter p l) = List.filter (fun x => p x && q x) l.
Proof.
  induction l as [|x l IH]; simpl; [reflexivity|].
  destruct (p x); simpl; [destruct (q x); now rewrite IH|assumption].
Qed.

Lemma filter_map_swap {A B : Type} (f : A -> B) (p : B -> bool) (l : list A) :
  List.filter p (List.map f l) = List.map f (List.filter (fun x => p (f x)) l).
Proof.
  induction l as [|x l IH]; simpl; [reflexivity|].
  destruct (p (f x)); simpl; now rewrite IH.
Qed.

Lemma filter_flat_map {A B : Type} (f : A -> list B) (p : B -> bool) (l : list A) :
  List.filter p (flat_map f l) = flat_map (fun x => List.filter p (f x)) l.
Proof.
  induction l as [|x l IH]; simpl; [reflexivity|].
  now rewrite List.filter_app, IH.
Qed.

Lemma length_filter_le {A : Type} (p q : A -> bool) (l : list A) :
  (forall x, In x l -> p x = true -> q x = true) ->
  (List.length (List.filter p l) <= List.length (List.filter q l))%nat.
Proof.
  induction l as [|x l IH]; simpl; intros H; [lia|].
  assert (IH' : (List.length (List.filter p l) <= List.length (List.filter q l))%nat)
    by (apply IH; intros y Hy; apply H; now right).
  destruct (p x) eqn:Ep.
  - rewrite (H x (or_introl eq_refl) Ep). simpl. lia.
  - destruct (q x); simpl; lia.
Qed.

Lemma sumZ_app (l1 l2 : list Z) : sumZ (l1 ++ l2) = sumZ l1 + sumZ l2.
Proof.
  unfold sumZ. induction l1 as [|x l1 IH]; simpl; lia.
Qed.

Lemma sumZ_perm (l1 l2 : list Z) : Permutation l1 l2 -> sumZ l1 = sumZ l2.
Proof.
  unfold sumZ. induction 1; simpl; lia.
Qed.

(** Among rows with distinct ids, the rows selected by a predicate that pins
    the id are the first such row, if any. *)
Lemma filter_pinned_id (rows : list member_row) (p : member_row -> bool) (k : Z) :
  NoDup (List.map m_id rows) ->
  (forall m, p m = true -> m_id m = k) ->
  List.filter p rows = match List.find p rows with Some m => [m] | None => [] end.
Proof.
  intros Hnd Hp. induction rows as [|m rows IH]; simpl; [reflexivity|].
  simpl in Hnd. apply NoDup_cons in Hnd. destruct Hnd as [Hm Hnd].
  destruct (p m) eqn:Em.
  - f_equal. apply filter_none. intros m' Hm'.
    destruct (p m') eqn:Em'; [|reflexivity].
    exfalso. apply Hm. apply list_elem_of_In.
    rewrite (Hp m Em), <- (Hp m' Em'). now apply in_map.
  - now apply IH.
Qed.

Lemma existsb_find {A : Type} (p : A -> bool) (l : list A) :
  existsb p l = match List.find p l with Some _ => true | None => false end.
Proof.
  induction l as [|x l IH]; simpl; [reflexivity|].
  now destruct (p x).
Qed.

Lemma existsb_and_const {A : Type} (a b : A -> bool) (c : bool) (l : list A) :
  existsb (fun m => a m && (c && b m)) l = c && existsb (fun m => a m && b m) l.
Proof.
  induction l as [|x l IH]; simpl; [now rewrite andb_false_r|].
  rewrite IH. destruct (a x), c, (b x); reflexivity.
Qed.

Lemma existsb_ext {A : Type} (p q : A -> bool) (l : list A) :
  (forall x, p x = q x) -> existsb p l = existsb q l.
Proof.
  intros H. induction l as [|x l IH]; simpl; [reflexivity|]. now rewrite H, IH.
Qed.

(** ** The inner join and its groups *)

(** With distinct member ids the join pairs every counted message with its
    one sender and drops the others: its message column is the list of the
    counted messages. *)
Lemma joinWhere_counted (filter : option TimeFilter) (d : database) :
  NoDup (List.map m_id (member d)) ->
  List.map fst (Sql.joinWhere d (timeConds filter ++ [Sql.CNameNotSystem])) =
  List.filter (counted filter d) (message d).
Proof.
  intros Hnd. unfold Sql.joinWhere.
  induction (message d) as [|msg msgs IH]; simpl; [reflexivity|].
  rewrite List.map_app, IH. clear IH.
  set (p := fun m => (sender_id msg =? m_id m)
                     && Sql.holdsAll (timeConds filter ++ [Sql.CNameNotSystem]) m msg).
  assert (Hc : counted filter d msg = existsb p (member d)).
  { unfold counted, senderNotSystem, p.
    rewrite <- existsb_and_const. apply existsb_ext. intros m.
    now rewrite holdsAll_timeConds, Z.eqb_sym. }
  rewrite (filter_pinned_id (member d) p (sender_id msg) Hnd).
  - rewrite Hc, existsb_find. now destruct (List.find p (member d)).
  - intros m Hm. unfold p in Hm. apply andb_true_iff in Hm. destruct Hm as [Hm _].
    apply Z.eqb_eq in Hm. congruence.
Qed.

Lemma groupBy_In {R K : Type} `{EqDecision K} (key : R -> K) (rows : list R)
      (k : K) (g : list R) :
  In (k, g) (Sql.groupBy key rows) <->
  In k (List.map key rows) /\
  g = List.filter (fun r => bool_decide (key r = k)) rows.
Proof.
  unfold Sql.groupBy. rewrite in_map_iff. split.
  - intros (k' & [= -> <-] & Hk).
    rewrite <- list_elem_of_In, elem_of_remove_dups, list_elem_of_In in Hk. now split.
  - intros [Hk ->]. exists k. split; [reflexivity|].
    now rewrite <- list_elem_of_In, elem_of_remove_dups, list_elem_of_In.
Qed.

(** Grouping the join by a property of the message: each group has as many
    rows as there are counted messages with that property, and every counted
    message has its group. *)
Lemma grouped_counts {K : Type} `{EqDecision K} (filter : option TimeFilter)
      (d : database) (bk : message_row -> K) :
  NoDup (List.map m_id (member d)) ->
  let groups := Sql.groupBy (fun r : message_row * member_row => bk (fst r))
                  (Sql.joinWhere d (timeConds filter ++ [Sql.CNameNotSystem])) in
  (forall kg, In kg groups ->
     Z.of_nat (List.length (snd kg)) =
     countedIn filter d (fun msg => bool_decide (bk msg = fst kg))) /\
  (forall msg, In msg (message d) -> counted filter d msg = true ->
     exists kg, In kg groups /\ fst kg = bk msg).
Proof.
  intros Hnd groups. pose proof (joinWhere_counted filter d Hnd) as Hj.
  set (J := Sql.joinWhere d (timeConds filter ++ [Sql.CNameNotSystem])) in *.
  split.
  - intros [k g] Hkg. apply groupBy_In in Hkg. destruct Hkg as [_ ->]. simpl.
    unfold countedIn. f_equal.
    rewrite <- filter_filter_and, <- Hj.
    rewrite (filter_map_swap fst (fun msg => bool_decide (bk msg = k)) J).
    now rewrite List.length_map.
  - intros msg Hmsg Hc.
    exists (bk msg, List.filter (fun r => bool_decide (bk (fst r) = bk msg)) J).
    split; [|reflexivity]. apply groupBy_In. split; [|reflexivity].
    assert (Hin : In msg (List.map fst J)).
    { rewrite Hj. apply filter_In. now split. }
    apply in_map_iff in Hin. destruct Hin as (r & <- & Hr).
    apply in_map_iff. now exists r.
Qed.

(** A bucket without a group is empty. *)
Lemma countedIn_no_group {K : Type} `{EqDecision K} (filter : option TimeFilter)
      (d : database) (bk : message_row -> K) (k : K) :
  (forall msg, In msg (message d) -> counted filter d msg = true -> bk msg <> k) ->
  countedIn filter d (fun msg => bool_decide (bk msg = k)) = 0.
Proof.
  intros H. unfold countedIn. rewrite filter_none; [reflexivity|].
  intros msg Hmsg. destruct (counted filter d msg) eqn:Ec; [|reflexivity].
  simpl. apply bool_decide_eq_false_2. now apply H.
Qed.

(** ** [getHourlyActivity], [getDailyActivity], [getMessageTypeDistribution] *)

Section LocalTimeFacts.
Variable localHour : Z -> option Z.
Variable localDate : Z -> option string.

Lemma getHourlyActivity_spec (fs : directory) (sessionId : string) (d : database)
      (filter : option TimeFilter) :
  fs !! getDbPath sessionId = Some (DbFile d) ->
  NoDup (List.map m_id (member d)) ->
  getHourlyActivity localHour fs sessionId filter =
  Returns (List.map
             (fun h => {| hour := h;
                          h_messageCount :=
                            countedIn filter d
                              (fun msg => bool_decide (localHour (ts msg) = Some h)) |})
             hoursOfDay).
Proof.
  intros Hfile Hnd. unfold getHourlyActivity, openDatabase. rewrite Hfile.
  cbn [obind]. pose proof (where_clause_reads filter) as Hw.
  destruct (buildTimeFilter filter) as [clause params]. cbn [fst snd] in Hw.
  cbn [tablesOf obind]. rewrite Hw. cbn [obind]. f_equal.
  fold hoursOfDay. apply map_ext. intros h. f_equal.
  destruct (grouped_counts filter d (fun msg => localHour (ts msg)) Hnd)
    as [Hcount Hall].
  set (groups := Sql.groupBy _ _) in *.
  destruct (List.find _ _) as [r|] eqn:Ef.
  - apply find_some in Ef. destruct Ef as [Hr Eh].
    apply bool_decide_eq_true_1 in Eh.
    rewrite sortBy_In in Hr. apply in_map_iff in Hr.
    destruct Hr as (kg & <- & Hkg). cbn [fst snd] in *.
    rewrite (Hcount kg Hkg). now rewrite Eh.
  - symmetry. apply countedIn_no_group. intros msg Hmsg Hc Hk.
    destruct (Hall msg Hmsg Hc) as (kg & Hkg & Ek).
    pose proof (find_none _ _ Ef (fst kg, Z.of_nat (List.length (snd kg)))) as Hn.
    cbn [fst] in Hn. rewrite Ek, Hk in Hn.
    rewrite bool_decide_eq_true_2 in Hn by reflexivity.
    assert (true = false); [|discriminate]. apply Hn.
    rewrite sortBy_In. apply in_map_iff. exists kg.
    split; [|assumption]. now rewrite Ek, Hk.
Qed.

Lemma getDailyActivity_spec (fs : directory) (sessionId : string) (d : database)
      (filter : option TimeFilter) :
  fs !! getDbPath sessionId = Some (DbFile d) ->
  NoDup (List.map m_id (member d)) ->
  exists res,
    getDailyActivity localDate fs sessionId filter = Returns res /\
    (forall e, In e res ->
       d_messageCount e =
       countedIn filter d (fun msg => bool_decide (localDate (ts msg) = date e))) /\
    (forall msg, In msg (message d) -> counted filter d msg = true ->
       exists e, In e res /\ date e = localDate (ts msg)).
Proof.
  intros Hfile Hnd. unfold getDailyActivity, openDatabase. rewrite Hfile.
  cbn [obind]. pose proof (where_clause_reads filter) as Hw.
  destruct (buildTimeFilter filter) as [clause params]. cbn [fst snd] in Hw.
  cbn [tablesOf obind]. rewrite Hw. cbn [obind].
  destruct (grouped_counts filter d (fun msg => localDate (ts msg)) Hnd)
    as [Hcount Hall].
  set (groups := Sql.groupBy _ _) in *.
  eexists. split; [reflexivity|]. split.
  - intros e He. rewrite sortBy_In in He. apply in_map_iff in He.
    destruct He as (kg & <- & Hkg). cbn [date d_messageCount]. now apply Hcount.
  - intros msg Hmsg Hc. destruct (Hall msg Hmsg Hc) as (kg & Hkg & Ek).
    exists {| date := fst kg; d_messageCount := Z.of_nat (List.length (snd kg)) |}.
    split; [|exact Ek]. rewrite sortBy_In. apply in_map_iff. now exists kg.
Qed.
End LocalTimeFacts.

Lemma getMessageTypeDistribution_spec (fs : directory) (sessionId : string)
      (d : database) (filter : option TimeFilter) :
  fs !! getDbPath sessionId = Some (DbFile d) ->
  NoDup (List.map m_id (member d)) ->
  exists res,
    getMessageTypeDistribution fs sessionId filter = Returns res /\
    (forall e, In e res ->
       tc_count e =
       countedIn filter d (fun msg => bool_decide (msg_type msg = tc_type e))) /\
    (forall msg, In msg (message d) -> counted filter d msg = true ->
       exists e, In e res /\ tc_type e = msg_type msg).
Proof.
  intros Hfile Hnd. unfold getMessageTypeDistribution, openDatabase. rewrite Hfile.
  cbn [obind]. pose proof (where_clause_reads filter) as Hw.
  destruct (buildTimeFilter filter) as [clause params]. cbn [fst snd] in Hw.
  cbn [tablesOf obind]. rewrite Hw. cbn [obind].
  destruct (grouped_counts filter d msg_type Hnd) as [Hcount Hall].
  set (groups := Sql.groupBy _ _) in *.
  eexists. split; [reflexivity|]. split.
  - intros e He. apply in_map_iff in He. destruct He as (r & <- & Hr).
    rewrite sortBy_In in Hr. apply in_map_iff in Hr.
    destruct Hr as (kg & <- & Hkg). cbn [tc_type tc_count fst snd]. now apply Hcount.
  - intros msg Hmsg Hc. destruct (Hall msg Hmsg Hc) as (kg & Hkg & Ek).
    exists {| tc_type := fst kg; tc_count := Z.of_nat (List.length (snd kg)) |}.
    split; [|exact Ek].
    apply in_map_iff. exists (fst kg, Z.of_nat (List.length (snd kg))).
    split; [reflexivity|]. rewrite sortBy_In. apply in_map_iff. now exists kg.
Qed.


(** ** The left join of [getMemberActivity] and its groups *)

Lemma filter_all {A : Type} (p : A -> bool) (l : list A) :
  (forall a, In a l -> p a = true) -> List.filter p l = l.
Proof.
  induction l as [|a l IH]; simpl; [reflexivity|].
  intros H. rewrite (H a (or_introl eq_refl)). f_equal. apply IH.
  intros b Hb. apply H. now right.
Qed.

Lemma NoDup_map_filter {A B : Type} (f : A -> B) (p : A -> bool) (l : list A) :
  NoDup (List.map f l) -> NoDup (List.map f (List.filter p l)).
Proof.
  induction l as [|a l IH]; simpl; [trivial|].
  intros Hnd. apply NoDup_cons in Hnd. destruct Hnd as [Ha Hnd].
  destruct (p a); simpl; [|now apply IH].
  apply NoDup_cons. split; [|now apply IH].
  intros Hin. apply Ha. apply list_elem_of_In in Hin. apply list_elem_of_In.
  apply in_map_iff in Hin. destruct Hin as (b & <- & Hb).
  apply filter_In in Hb. apply in_map. tauto.
Qed.

Lemma remove_dups_run {K : Type} `{EqDecision K} (b : list K) (k : K) (rest : list K) :
  b <> [] -> (forall x, In x b -> x = k) -> ~ In k rest ->
  remove_dups (b ++ rest) = k :: remove_dups rest.
Proof.
  intros Hne Hall Hk. induction b as [|x b IH]; [congruence|].
  assert (x = k) by (apply Hall; now left). subst x.
  destruct b as [|y b].
  - simpl. destruct (decide_rel elem_of k rest) as [Hin|_]; [|reflexivity].
    exfalso. apply Hk. now apply list_elem_of_In.
  - assert (y = k) by (apply Hall; right; now left). subst y.
    change ((k :: k :: b) ++ rest) with (k :: (k :: b) ++ rest).
    cbn [remove_dups].
    destruct (decide_rel elem_of k ((k :: b) ++ rest)) as [_|Hn].
    + apply IH; [discriminate|]. intros x Hx. apply Hall. now right.
    + exfalso. apply Hn. simpl. apply list_elem_of_here.
Qed.

Section Blocks.
Context {A R K : Type} `{EqDecision K}.
Variable key : R -> K.
Variable tag : A -> K.
Variable block : A -> list R.
Hypothesis block_nonempty : forall m, block m <> [].
Hypothesis block_key : forall m r, In r (block m) -> key r = tag m.

Lemma keys_flat_map (ms : list A) (k : K) :
  In k (List.map key (flat_map block ms)) -> In k (List.map tag ms).
Proof.
  rewrite !in_map_iff. intros (r & <- & Hr). apply in_flat_map in Hr.
  destruct Hr as (m & Hm & Hr). exists m. split; [|assumption].
  symmetry. now apply block_key.
Qed.

Lemma remove_dups_blocks (ms : list A) :
  NoDup (List.map tag ms) ->
  remove_dups (List.map key (flat_map block ms)) = List.map tag ms.
Proof.
  induction ms as [|m ms IH]; simpl; [reflexivity|].
  intros Hnd. apply NoDup_cons in Hnd. destruct Hnd as [Hm Hnd].
  rewrite List.map_app, (remove_dups_run _ (tag m)).
  - now rewrite IH.
  - intros E. apply (block_nonempty m). now destruct (block m).
  - intros x Hx. apply in_map_iff in Hx. destruct Hx as (r & <- & Hr).
    now apply block_key.
  - intros Hin. apply Hm. apply list_elem_of_In. now apply keys_flat_map.
Qed.

Lemma filter_own_block (ms : list A) (m : A) :
  NoDup (List.map tag ms) -> In m ms ->
  List.filter (fun r => bool_decide (key r = tag m)) (flat_map block ms) = block m.
Proof.
  induction ms as [|m0 ms IH]; simpl; [tauto|].
  intros Hnd Hin. apply NoDup_cons in Hnd. destruct Hnd as [Hm0 Hnd].
  rewrite list_elem_of_In in Hm0. rewrite List.filter_app.
  destruct Hin as [->|Hin].
  - rewrite filter_all, filter_none; [apply app_nil_r| |].
    + intros r Hr. apply bool_decide_eq_false_2. intros E. apply Hm0.
      rewrite <- E. apply keys_flat_map. now apply in_map.
    + intros r Hr. apply bool_decide_eq_true_2. now apply block_key.
  - rewrite filter_none, IH; [reflexivity|assumption|assumption|].
    intros r Hr. apply bool_decide_eq_false_2. intros E. apply Hm0.
    rewrite <- (block_key m0 r Hr), E. now apply in_map.
Qed.

(** Grouping a concatenation of non-empty blocks, each carrying its own
    key, gives the blocks back. *)
Lemma groupBy_blocks (ms : list A) :
  NoDup (List.map tag ms) ->
  Sql.groupBy key (flat_map block ms) = List.map (fun m => (tag m, block m)) ms.
Proof.
  intros Hnd. unfold Sql.groupBy. rewrite remove_dups_blocks by assumption.
  rewrite List.map_map. apply map_ext_in. intros m Hm.
  now rewrite filter_own_block.
Qed.
End Blocks.

Lemma memberBlock_nonempty (d : database) (cs : list Sql.cond) (m : member_row) :
  memberBlock d cs m <> [].
Proof.
  unfold memberBlock. now destruct (List.filter _ (message d)).
Qed.

Lemma memberBlock_fst (d : database) (cs : list Sql.cond) (m : member_row) r :
  In r (memberBlock d cs m) -> fst r = m.
Proof.
  unfold memberBlock. destruct (List.filter _ (message d)) as [|x l].
  - now intros [<-|[]].
  - intros Hr. apply in_map_iff in Hr. now destruct Hr as (msg & <- & _).
Qed.

Lemma memberBlock_count (d : database) (cs : list Sql.cond) (m : member_row) :
  countMsgId (memberBlock d cs m) =
  Z.of_nat (List.length (List.filter (fun msg => Sql.holdsAll cs m msg) (message d))).
Proof.
  unfold memberBlock, countMsgId.
  destruct (List.filter _ (message d)) as [|x l]; [reflexivity|].
  rewrite filter_all, List.length_map; [reflexivity|].
  intros r Hr. apply in_map_iff in Hr. destruct Hr as (msg & <- & _).
  apply bool_decide_eq_true_2. simpl. eauto.
Qed.

Lemma memberBlock_head (d : database) (cs : list Sql.cond) (m : member_row) :
  exists r rest, memberBlock d cs m = r :: rest /\ fst r = m.
Proof.
  pose proof (memberBlock_nonempty d cs m) as Hne.
  pose proof (memberBlock_fst d cs m) as Hfst.
  destruct (memberBlock d cs m) as [|r rest]; [congruence|].
  exists r, rest. split; [reflexivity|]. apply Hfst. now left.
Qed.

Lemma flat_map_filter_blocks {A R : Type} (block : A -> list R) (p : A -> bool)
      (q : R -> bool) (ms : list A) :
  (forall m r, In r (block m) -> q r = p m) ->
  List.filter q (flat_map block ms) = flat_map block (List.filter p ms).
Proof.
  intros H. induction ms as [|m ms IH]; simpl; [reflexivity|].
  rewrite List.filter_app, IH. destruct (p m) eqn:Ep; simpl.
  - f_equal. apply filter_all. intros r Hr. now rewrite (H m r Hr).
  - rewrite filter_none; [reflexivity|]. intros r Hr. now rewrite (H m r Hr).
Qed.

Lemma StronglySorted_map {A B : Type} (R : B -> B -> Prop) (g : A -> B) (l : list A) :
  StronglySorted (fun a b => R (g a) (g b)) l -> StronglySorted R (List.map g l).
Proof.
  induction 1 as [|a l Hs IH Ha]; simpl; constructor; [assumption|].
  rewrite List.Forall_forall in *. intros b Hb. apply in_map_iff in Hb.
  destruct Hb as (x & <- & Hx). now apply Ha.
Qed.

Lemma StronglySorted_weaken {A : Type} (R R' : A -> A -> Prop) (l : list A) :
  (forall a b, In a l -> In b l -> R a b -> R' a b) ->
  StronglySorted R l -> StronglySorted R' l.
Proof.
  intros H Hs. induction Hs as [|a l Hs IH Ha]; constructor.
  - apply IH. intros x y Hx Hy. apply H; now right.
  - rewrite List.Forall_forall in *. intros b Hb.
    apply H; [now left|now right|now apply Ha].
Qed.

(** ** [getMemberActivity] *)

Lemma selectCount_total (filter : option TimeFilter) (d : database) :
  NoDup (List.map m_id (member d)) ->
  selectCount (Conn (Some d)) (buildSystemMessageFilter (fst (buildTimeFilter filter)))
              (snd (buildTimeFilter filter)) =
  Returns (totalNonSystemMessages filter d).
Proof.
  intros Hnd. unfold selectCount. cbn [tablesOf obind].
  rewrite where_clause_reads. cbn [obind]. f_equal.
  unfold totalNonSystemMessages. rewrite <- (joinWhere_counted filter d Hnd).
  now rewrite List.length_map.
Qed.

Lemma selectMemberCounts_rows (d : database) (fragment : string) (params : list Z)
      (on : list Sql.cond) :
  Sql.prepared (Sql.readOn ("m.id = msg.sender_id " ++ fragment)%string) params
  = Returns on ->
  NoDup (List.map m_id (member d)) ->
  selectMemberCounts (Conn (Some d)) fragment params =
  Returns (sortBy (fun a b => mr_messageCount b <=? mr_messageCount a)
             (List.filter (fun r => 0 <? mr_messageCount r)
                (List.map (memberCountRow d on) (List.filter notSystem (member d))))).
Proof.
  intros Hon Hnd. unfold selectMemberCounts. cbn [tablesOf obind].
  rewrite Hon. cbn [obind]. do 3 f_equal.
  change (Sql.leftJoinOn d on) with (flat_map (memberBlock d on) (member d)).
  rewrite (flat_map_filter_blocks (memberBlock d on) notSystem).
  2:{ intros m r Hr. now rewrite (memberBlock_fst d on m r Hr). }
  rewrite (groupBy_blocks (fun r => m_id (fst r)) m_id (memberBlock d on)).
  - induction (List.filter notSystem (member d)) as [|m ms IH]; simpl; [reflexivity|].
    rewrite IH. destruct (memberBlock_head d on m) as (r & rest & E & Efst).
    unfold memberCountRow. rewrite E. simpl. now rewrite Efst.
  - apply memberBlock_nonempty.
  - intros m r Hr. now rewrite (memberBlock_fst d on m r Hr).
  - now apply NoDup_map_filter.
Qed.

Lemma memberBlock_memberCount (filter : option TimeFilter) (d : database)
      (m : member_row) :
  notSystem m = true ->
  countMsgId (memberBlock d (Sql.CIdEqSender :: timeConds filter ++ [Sql.CNameNotSystem]) m)
  = memberCount filter d m.
Proof.
  intros Hm. rewrite memberBlock_count. unfold memberCount. do 2 f_equal.
  apply List.filter_ext. intros msg.
  change (Sql.holdsAll (Sql.CIdEqSender :: timeConds filter ++ [Sql.CNameNotSystem]) m msg)
    with ((m_id m =? sender_id msg)
          && Sql.holdsAll (timeConds filter ++ [Sql.CNameNotSystem]) m msg).
  rewrite holdsAll_timeConds. unfold notSystem in Hm. rewrite Hm.
  now rewrite andb_true_r.
Qed.

Lemma memberCount_le_total (filter : option TimeFilter) (d : database) (m : member_row) :
  In m (member d) -> notSystem m = true ->
  memberCount filter d m <= totalNonSystemMessages filter d.
Proof.
  intros Hin Hm. unfold memberCount, totalNonSystemMessages.
  apply inj_le. apply length_filter_le. intros msg _ Hp.
  apply andb_true_iff in Hp. destruct Hp as [Hid Ht].
  unfold counted. rewrite Ht. simpl. unfold senderNotSystem.
  apply existsb_exists. exists m. split; [assumption|].
  rewrite Hid. exact Hm.
Qed.

Lemma qualifies_In (filter : option TimeFilter) (d : database) (m : member_row) :
  In m (List.filter (qualifies filter d) (member d)) ->
  In m (member d) /\ notSystem m = true /\ 0 < memberCount filter d m.
Proof.
  intros H. apply filter_In in H. destruct H as [Hin Hq].
  unfold qualifies in Hq. apply andb_true_iff in Hq. destruct Hq as [Hn Hc].
  apply Z.ltb_lt in Hc. now repeat split.
Qed.

(** What [getMemberActivity] returns for a stored session: the entries of
    the qualifying members, in an order that is descending by count. *)
Lemma getMemberActivity_spec (fs : directory) (sessionId : string) (d : database)
      (filter : option TimeFilter) :
  fs !! getDbPath sessionId = Some (DbFile d) ->
  NoDup (List.map m_id (member d)) ->
  exists ms,
    getMemberActivity fs sessionId filter = Returns (List.map (entryOf filter d) ms) /\
    Permutation ms (List.filter (qualifies filter d) (member d)) /\
    StronglySorted (fun a b => memberCount filter d b <= memberCount filter d a) ms.
Proof.
  intros Hfile Hnd.
  set (on := Sql.CIdEqSender :: timeConds filter ++ [Sql.CNameNotSystem]).
  set (cnt := fun m => countMsgId (memberBlock d on m)).
  set (ms := sortBy (fun a b => cnt b <=? cnt a)
                    (List.filter (qualifies filter d) (member d))).
  assert (Hperm : Permutation ms (List.filter (qualifies filter d) (member d)))
    by apply sortBy_perm.
  assert (Hq : forall m, In m ms ->
                 In m (member d) /\ notSystem m = true /\ 0 < memberCount filter d m).
  { intros m Hm. apply qualifies_In. now apply (Permutation_in _ Hperm). }
  exists ms. split; [|split; [exact Hperm|]].
  - unfold getMemberActivity, openDatabase. rewrite Hfile. cbn [obind].
    pose proof (selectCount_total filter d Hnd) as Htot.
    pose proof (on_clause_reads filter) as Hon. cbn zeta in Hon.
    destruct (buildTimeFilter filter) as [clause params]. cbn [fst snd] in Htot, Hon.
    rewrite Htot. cbn [obind].
    rewrite (selectMemberCounts_rows d _ params on Hon Hnd). cbn [obind]. f_equal.
    rewrite filter_map_swap, filter_filter_and.
    rewrite (List.filter_ext _ (qualifies filter d)).
    2:{ intros m. unfold qualifies. fold (notSystem m). cbn [mr_messageCount memberCountRow].
        destruct (notSystem m) eqn:En; [|reflexivity].
        unfold on. now rewrite (memberBlock_memberCount filter d m En). }
    assert (Hsort : forall l,
              sortBy (fun a b => mr_messageCount b <=? mr_messageCount a)
                     (List.map (memberCountRow d on) l) =
              List.map (memberCountRow d on) (sortBy (fun a b => cnt b <=? cnt a) l)).
    { induction l as [|x l IH]; simpl; [reflexivity|]. rewrite IH.
      generalize (sortBy (fun a b => cnt b <=? cnt a) l). intros l'.
      induction l' as [|y l' IH']; simpl; [reflexivity|].
      fold (cnt y) (cnt x). destruct (cnt y <=? cnt x); simpl; [reflexivity|].
      now rewrite IH'. }
    rewrite Hsort. fold ms. rewrite List.map_map. apply map_ext_in.
    intros m Hm. destruct (Hq m Hm) as (Hin & Hn & Hpos).
    unfold entryOf. cbn [memberCountRow mr_memberId mr_platformId mr_name mr_messageCount].
    unfold on. rewrite (memberBlock_memberCount filter d m Hn). f_equal.
    unfold percentageOf.
    pose proof (memberCount_le_total filter d m Hin Hn) as Hle.
    assert (Ht : (0 <? totalNonSystemMessages filter d) = true) by (apply Z.ltb_lt; lia).
    now rewrite Ht.
  - apply StronglySorted_weaken
      with (R := fun a b => (cnt b <=? cnt a) = true).
    + intros a b Ha Hb Hab. apply Z.leb_le in Hab. unfold cnt, on in Hab.
      destruct (Hq a Ha) as (_ & Hna & _). destruct (Hq b Hb) as (_ & Hnb & _).
      now rewrite !memberBlock_memberCount in Hab.
    + apply sortBy_sorted.
      * intros a b. rewrite !Z.leb_le. lia.
      * intros a b c. rewrite !Z.leb_le. lia.
Qed.


(** ** The counts add up *)

Lemma sum_indicator (ms : list member_row) (s : Z) (c : bool) :
  NoDup (List.map m_id ms) ->
  sumZ (List.map (fun m => if (m_id m =? s) && c then 1 else 0) ms) =
  if c && existsb (fun m => m_id m =? s) ms then 1 else 0.
Proof.
  induction ms as [|m ms IH]; simpl; intros Hnd.
  - now rewrite andb_false_r.
  - apply NoDup_cons in Hnd. destruct Hnd as [Hm Hnd]. rewrite (IH Hnd).
    destruct (m_id m =? s) eqn:E; simpl.
    + apply Z.eqb_eq in E.
      assert (Hno : existsb (fun m0 => m_id m0 =? s) ms = false).
      { destruct (existsb _ ms) eqn:Ex; [|reflexivity].
        apply existsb_exists in Ex. destruct Ex as (m' & Hm' & E').
        apply Z.eqb_eq in E'. exfalso. apply Hm. apply list_elem_of_In.
        rewrite E, <- E'. now apply in_map. }
      rewrite Hno, andb_false_r, andb_true_r. now destruct c.
    + reflexivity.
Qed.

Lemma sumZ_map_add {A : Type} (f g : A -> Z) (l : list A) :
  sumZ (List.map (fun x => f x + g x) l) = sumZ (List.map f l) + sumZ (List.map g l).
Proof.
  unfold sumZ. induction l as [|x l IH]; simpl; lia.
Qed.

Lemma existsb_filter {A : Type} (p q : A -> bool) (l : list A) :
  existsb p (List.filter q l) = existsb (fun x => p x && q x) l.
Proof.
  induction l as [|x l IH]; simpl; [reflexivity|].
  destruct (q x); simpl; rewrite IH; [now rewrite andb_true_r|now rewrite andb_false_r].
Qed.

(** The per-member counts of the non-system members add up to the number of
    counted messages. *)
Lemma sum_memberCount (filter : option TimeFilter) (d : database) :
  NoDup (List.map m_id (member d)) ->
  sumZ (List.map (memberCount filter d) (List.filter notSystem (member d))) =
  totalNonSystemMessages filter d.
Proof.
  intros Hnd. unfold memberCount, totalNonSystemMessages.
  assert (Hc : forall msg, counted filter d msg =
                 inTimeFilter filter (ts msg)
                 && existsb (fun m => m_id m =? sender_id msg)
                            (List.filter notSystem (member d))).
  { intros msg. unfold counted, senderNotSystem. now rewrite existsb_filter. }
  pose proof (NoDup_map_filter m_id notSystem (member d) Hnd) as Hnd'.
  revert Hc Hnd'. generalize (List.filter notSystem (member d)). intros ms Hc Hnd'.
  induction (message d) as [|msg msgs IH]; simpl.
  - clear. unfold sumZ. induction ms as [|m ms IH]; simpl in *; lia.
  - rewrite Hc.
    rewrite (map_ext _ (fun m =>
               (if (m_id m =? sender_id msg) && inTimeFilter filter (ts msg) then 1 else 0)
               + Z.of_nat (List.length
                             (List.filter (fun msg0 => (m_id m =? sender_id msg0)
                                                       && inTimeFilter filter (ts msg0))
                                          msgs)))).
    2:{ intros m. destruct ((m_id m =? sender_id msg) && inTimeFilter filter (ts msg));
          simpl; lia. }
    rewrite sumZ_map_add, IH, sum_indicator by assumption.
    destruct (inTimeFilter filter (ts msg) && existsb _ ms); simpl; lia.
Qed.

Lemma sum_positive_only {A : Type} (c : A -> Z) (p : A -> bool) (l : list A) :
  (forall x, 0 <= c x) ->
  sumZ (List.map c (List.filter (fun x => p x && (0 <? c x)) l)) =
  sumZ (List.map c (List.filter p l)).
Proof.
  intros Hc. unfold sumZ. induction l as [|x l IH]; simpl; [reflexivity|].
  destruct (p x); simpl; [|assumption].
  destruct (0 <? c x) eqn:E; simpl; rewrite IH; [reflexivity|].
  apply Z.ltb_ge in E. specialize (Hc x). lia.
Qed.

(** C2.  For a stored session and any time filter, the message counts of the
    entries returned by [getMemberActivity] add up to the number of stored
    messages inside the filter whose sender is not the system sentinel. *)
Theorem getMemberActivity_counts_sum (fs : directory) (sessionId : string)
        (d : database) (filter : option TimeFilter) :
  fs !! getDbPath sessionId = Some (DbFile d) ->
  NoDup (List.map m_id (member d)) ->
  exists res,
    getMemberActivity fs sessionId filter = Returns res /\
    sumZ (List.map messageCount res) = totalNonSystemMessages filter d.
Proof.
  intros Hfile Hnd.
  destruct (getMemberActivity_spec fs sessionId d filter Hfile Hnd)
    as (ms & Hres & Hperm & _).
  exists (List.map (entryOf filter d) ms). split; [assumption|].
  rewrite List.map_map. cbn [entryOf messageCount].
  etransitivity; [apply sumZ_perm, Permutation_map, Hperm|].
  etransitivity; [apply (sum_positive_only (memberCount filter d) notSystem)|].
  - intros m. unfold memberCount. lia.
  - now apply sum_memberCount.
Qed.

(** C7.  In each of the four filtered aggregates a stored message is counted
    exactly when it passes the inclusive start bound if there is one, the
    inclusive end bound if there is one, and its sender's name is not the
    sentinel label ([counted]), whatever bounds the filter has: every
    returned bucket holds the number of counted messages that belong to it,
    and every counted message has its bucket in the result. *)
Theorem filters_are_conjoined (localHour : Z -> option Z) (localDate : Z -> option string)
        (fs : directory) (sessionId : string) (d : database)
        (filter : option TimeFilter) :
  fs !! getDbPath sessionId = Some (DbFile d) ->
  NoDup (List.map m_id (member d)) ->
  (exists res,
     getMemberActivity fs sessionId filter = Returns res /\
     (forall e, In e res ->
        messageCount e = countedIn filter d (fun msg => sender_id msg =? memberId e)) /\
     (forall msg, In msg (message d) -> counted filter d msg = true ->
        exists e, In e res /\ memberId e = sender_id msg)) /\
  (exists res,
     getHourlyActivity localHour fs sessionId filter = Returns res /\
     (forall e, In e res ->
        h_messageCount e =
        countedIn filter d (fun msg => bool_decide (localHour (ts msg) = Some (hour e)))) /\
     (forall msg h, In msg (message d) -> counted filter d msg = true ->
        localHour (ts msg) = Some h -> 0 <= h < 24 ->
        exists e, In e res /\ hour e = h)) /\
  (exists res,
     getDailyActivity localDate fs sessionId filter = Returns res /\
     (forall e, In e res ->
        d_messageCount e =
        countedIn filter d (fun msg => bool_decide (localDate (ts msg) = date e))) /\
     (forall msg, In msg (message d) -> counted filter d msg = true ->
        exists e, In e res /\ date e = localDate (ts msg))) /\
  (exists res,
     getMessageTypeDistribution fs sessionId filter = Returns res /\
     (forall e, In e res ->
        tc_count e =
        countedIn filter d (fun msg => bool_decide (msg_type msg = tc_type e))) /\
     (forall msg, In msg (message d) -> counted filter d msg = true ->
        exists e, In e res /\ tc_type e = msg_type msg)).
Proof.
  intros Hfile Hnd. split; [|split; [|split]].
  - destruct (getMemberActivity_spec fs sessionId d filter Hfile Hnd)
      as (ms & Hres & Hperm & _).
    exists (List.map (entryOf filter d) ms). split; [assumption|]. split.
    + intros e He. apply in_map_iff in He. destruct He as (m & <- & Hm).
      apply (Permutation_in _ Hperm), qualifies_In in Hm.
      destruct Hm as (Hin & Hn & _). cbn [entryOf messageCount memberId].
      unfold memberCount, countedIn. do 2 f_equal.
      apply List.filter_ext. intros msg. unfold counted.
      rewrite (Z.eqb_sym (sender_id msg)).
      destruct (m_id m =? sender_id msg) eqn:E; [|now rewrite andb_false_r].
      assert (Hs : senderNotSystem d msg = true).
      { apply existsb_exists. exists m. split; [assumption|]. now rewrite E. }
      rewrite Hs. now rewrite !andb_true_r.
    + intros msg Hmsg Hc. unfold counted in Hc.
      apply andb_true_iff in Hc. destruct Hc as [Ht Hs].
      apply existsb_exists in Hs. destruct Hs as (m & Hm & Hms).
      apply andb_true_iff in Hms. destruct Hms as [Eid Hn].
      exists (entryOf filter d m). split; [|now apply Z.eqb_eq in Eid].
      apply in_map. apply (Permutation_in _ (Permutation_sym Hperm)).
      apply filter_In. split; [assumption|]. unfold qualifies. rewrite Hn. simpl.
      apply Z.ltb_lt. unfold memberCount.
      assert (Hin : In msg (List.filter
                              (fun msg0 => (m_id m =? sender_id msg0)
                                           && inTimeFilter filter (ts msg0))
                              (message d))).
      { apply filter_In. split; [assumption|]. now rewrite Eid, Ht. }
      destruct (List.filter _ (message d)); [destruct Hin|simpl; lia].
  - rewrite (getHourlyActivity_spec localHour fs sessionId d filter Hfile Hnd).
    eexists. split; [reflexivity|]. split.
    + intros e He. apply in_map_iff in He. now destruct He as (h & <- & _).
    + intros msg h _ _ _ Hh.
      exists {| hour := h;
                h_messageCount :=
                  countedIn filter d
                    (fun msg0 => bool_decide (localHour (ts msg0) = Some h)) |}.
      split; [|reflexivity].
      apply in_map_iff. exists h. split; [reflexivity|].
      unfold hoursOfDay. apply in_map_iff. exists (Z.to_nat h).
      split; [lia|]. apply in_seq. lia.
  - now apply getDailyActivity_spec.
  - now apply getMessageTypeDistribution_spec.
Qed.

(** * The properties on the worked dataset *)

Example scenario_member_activity :
  getMemberActivity Example.fs "s1" None =
  Returns [ {| memberId := 1; ma_platformId := "u-a"; ma_name := "A";
               messageCount := 7; percentage := (7778 # 100)%Q |};
            {| memberId := 2; ma_platformId := "u-b"; ma_name := "B";
               messageCount := 2; percentage := (2222 # 100)%Q |} ].
Proof. vm_compute. reflexivity. Qed.

Example scenario_daily_activity :
  getDailyActivity Example.utcDate Example.fs "s1" None =
  Returns [ {| date := Some "19676"; d_messageCount := 9 |} ].
Proof. vm_compute. reflexivity. Qed.

Example scenario_hourly_activity :
  obind (getHourlyActivity Example.utcHour Example.fs "s1" None)
        (fun res => Returns (List.filter (fun e => negb (h_messageCount e =? 0)) res)) =
  Returns [ {| hour := 9; h_messageCount := 5 |};
            {| hour := 14; h_messageCount := 4 |} ].
Proof. vm_compute. reflexivity. Qed.

Example scenario_time_range :
  getTimeRange Example.fs "s1" = Returns (Some (Example.at9, Example.at14 + 40)).
Proof. vm_compute. reflexivity. Qed.

Example scenario_import :
  option_map (fun f => match f with
                       | DbFile d => (List.map m_name (member d),
                                      List.length (message d))
                       | _ => ([], 0%nat)
                       end)
    (snd (importData Example.noFault 1700000000000 "k3x9ab" 1700000000123
                     Example.parsed Example.fs)
     !! "chat_1700000000000_k3x9ab.db") =
  Some (["A (new)"; "B"], 2%nat).
Proof. vm_compute. reflexivity. Qed.


Lemma getMemberActivity_counts_sum_witness :
  exists res,
    getMemberActivity Example.fs "s1" None = Returns res /\
    sumZ (List.map messageCount res) = totalNonSystemMessages None Example.db.
Proof.
  apply (getMemberActivity_counts_sum Example.fs "s1" Example.db None).
  - reflexivity.
  - apply (bool_decide_unpack _). vm_compute. exact I.
Defined.



Lemma getTimeRange_full_span_witness :
  (message Example.db = [] /\ getTimeRange Example.fs "s1" = Returns None) \/
  (exists lo hi,
     getTimeRange Example.fs "s1" = Returns (Some (lo, hi)) /\
     (exists m, In m (message Example.db) /\ ts m = lo) /\
     (exists m, In m (message Example.db) /\ ts m = hi) /\
     forall m, In m (message Example.db) -> lo <= ts m <= hi).
Proof.
  apply (getTimeRange_full_span Example.fs "s1" Example.db). reflexivity.
Defined.

Lemma importData_atomic_witness :
  exists fs',
    importData (Example.faultAt 4) 1700000000000 "k3x9ab" 1700000000123
               Example.parsed Example.fs = (Throws SqliteError, fs') /\
    fs' = <[getDbPath (generateSessionId 1700000000000 "k3x9ab")
            := DbFile emptyDatabase]> Example.fs /\
    getSession fs' (generateSessionId 1700000000000 "k3x9ab") = Returns None /\
    (forall s, In s (fst (getAllSessions fs')) ->
               s_id s <> generateSessionId 1700000000000 "k3x9ab").
Proof.
  apply (importData_atomic (Example.faultAt 4) 1700000000000 "k3x9ab" 1700000000123
                           Example.parsed Example.fs SqliteError).
  - vm_compute. reflexivity.
  - vm_compute. reflexivity.
Defined.

Lemma importData_drops_unresolved_witness :
  exists d,
    importData Example.noFault 1700000000000 "k3x9ab" 1700000000123
               Example.parsed Example.fs =
    (Returns (generateSessionId 1700000000000 "k3x9ab"),
     <[getDbPath (generateSessionId 1700000000000 "k3x9ab") := DbFile d]> Example.fs) /\
    List.map msgData (message d) =
    omap (storedFrom (member d)) (messages Example.parsed) /\
    (forall msg, storedFrom (member d) msg = None <->
                 ~ In (senderPlatformId msg)
                      (List.map platformId (members Example.parsed))) /\
    (forall r, In r (message d) -> exists m, In m (member d) /\ m_id m = sender_id r).
Proof.
  apply (importData_drops_unresolved Example.noFault 1700000000000 "k3x9ab"
                                     1700000000123 Example.parsed Example.fs).
  - intros n. reflexivity.
  - vm_compute. reflexivity.
Defined.

Lemma importData_latest_name_wins_witness :
  exists d,
    importData Example.noFault 1700000000000 "k3x9ab" 1700000000123
               Example.parsed Example.fs =
    (Returns (generateSessionId 1700000000000 "k3x9ab"),
     <[getDbPath (generateSessionId 1700000000000 "k3x9ab") := DbFile d]> Example.fs) /\
    forall pid, In pid (List.map platformId (members Example.parsed)) ->
      exists r, List.filter (fun x => String.eqb (platform_id x) pid) (member d) = [r] /\
                lastNameOf pid (members Example.parsed) = Some (m_name r).
Proof.
  apply (importData_latest_name_wins Example.noFault 1700000000000 "k3x9ab"
                                     1700000000123 Example.parsed Example.fs).
  - intros n. reflexivity.
  - vm_compute. reflexivity.
Defined.

Lemma filters_are_conjoined_witness :
  exists res,
    getMessageTypeDistribution Example.fs "s1" Example.window = Returns res /\
    (forall e, In e res ->
       tc_count e =
       countedIn Example.window Example.db
         (fun msg => bool_decide (msg_type msg = tc_type e))) /\
    (forall msg, In msg (message Example.db) ->
       counted Example.window Example.db msg = true ->
       exists e, In e res /\ tc_type e = msg_type msg).
Proof.
  apply (filters_are_conjoined Example.utcHour Example.utcDate Example.fs "s1"
                               Example.db Example.window).
  - reflexivity.
  - apply (bool_decide_unpack _). vm_compute. exact I.
Defined.


Lemma deleteSession_absent_session_witness :
  deleteSession (fun _ => true) "s2" Example.fs = (true, Example.fs).
Proof.
  apply (proj1 (deleteSession_absent_session (fun _ => true) "s2" Example.fs)).
  intros p Hp. unfold artifacts in Hp. cbn [In] in Hp.
  destruct Hp as [<-|[<-|[<-|[]]]]; vm_compute; reflexivity.
Defined.

(** * Further properties of the code *)

(** ** The session catalog *)

Lemma Zleb_total (f : AnalysisSession -> Z) (a b : AnalysisSession) :
  (f b <=? f a) = true \/ (f a <=? f b) = true.
Proof. rewrite !Z.leb_le. lia. Qed.

(** X1.  [getAllSessions] returns the sessions newest first: no session is
    followed by one with a later import time. *)
Theorem getAllSessions_newest_first (fs : directory) :
  StronglySorted (fun a b => importedAt b <= importedAt a) (fst (getAllSessions fs)).
Proof.
  unfold getAllSessions. destruct (fold_left scanFile _ _) as [sessions fs'].
  cbn [fst].
  apply StronglySorted_weaken with (R := fun a b => (importedAt b <=? importedAt a) = true).
  - intros a b _ _ H. now apply Z.leb_le.
  - apply sortBy_sorted.
    + intros a b. apply (Zleb_total importedAt).
    + intros a b c. rewrite !Z.leb_le. lia.
Qed.



(** X3.  Every session that [getAllSessions] lists is the one [getSession]
    returns for its id. *)
Theorem getAllSessions_agrees_with_getSession (fs : directory) (s : AnalysisSession) :
  In s (fst (getAllSessions fs)) -> getSession fs (s_id s) = Returns (Some s).
Proof.
  intros Hs. apply getAllSessions_listed in Hs.
  destruct Hs as (d & mt & rest & Hfile & Hmeta & Hs).
  unfold getSession, openDatabase. rewrite Hfile. cbn [obind tablesOf].
  rewrite Hmeta. now rewrite <- Hs.
Qed.

Lemma endsWith_app (suffix s : string) :
  JsString.endsWith suffix (s ++ suffix)%string = true.
Proof.
  induction s as [|c s IH]; simpl.
  - destruct suffix; simpl; [reflexivity|].
    now rewrite Ascii.eqb_refl, String.eqb_refl.
  - rewrite IH. apply orb_true_r.
Qed.

Lemma prefix_cons (a b : ascii) (s1 s2 : string) :
  String.prefix (String a s1) (String b s2) =
  if ascii_dec a b then String.prefix s1 s2 else false.
Proof. reflexivity. Qed.

Lemma prefix_db_app (s : string) :
  String.prefix ".db" s = false -> s <> "" ->
  String.prefix ".db" (s ++ ".db")%string = false.
Proof.
  intros H Hne. destruct s as [|c1 s]; [congruence|].
  change ((String c1 s ++ ".db")%string) with (String c1 (s ++ ".db")%string).
  rewrite prefix_cons in *. destruct (ascii_dec "." c1); [|reflexivity].
  destruct s as [|c2 s]; [reflexivity|].
  change ((String c2 s ++ ".db")%string) with (String c2 (s ++ ".db")%string).
  rewrite prefix_cons in *. destruct (ascii_dec "d" c2); [|reflexivity].
  destruct s as [|c3 s]; [reflexivity|].
  change ((String c3 s ++ ".db")%string) with (String c3 (s ++ ".db")%string).
  rewrite prefix_cons in *. destruct (ascii_dec "b" c3); [|reflexivity].
  destruct s; discriminate.
Qed.

(** A session id that does not contain [.db] is recovered from its file
    name. *)
Lemma replace_db_suffix (sessionId : string) :
  JsString.includes ".db" sessionId = false ->
  JsString.replace ".db" "" (getDbPath sessionId) = sessionId.
Proof.
  unfold getDbPath. induction sessionId as [|c s IH]; intros H.
  - reflexivity.
  - cbn [JsString.includes] in H. apply orb_false_iff in H. destruct H as [Hp Hi].
    change ((String c s ++ ".db")%string) with (String c (s ++ ".db")%string).
    cbn [JsString.replace].
    change (String c (s ++ ".db")%string) with ((String c s ++ ".db")%string).
    rewrite (prefix_db_app (String c s) Hp) by discriminate.
    now rewrite IH.
Qed.

Lemma scanFile_keeps_sessions acc file (s : AnalysisSession) :
  In s (fst acc) -> In s (fst (scanFile acc file)).
Proof.
  destruct acc as [sessions fs]. unfold scanFile. cbn [fst].
  destruct (fs !! getDbPath (JsString.replace ".db" "" file)) as [[d| |]|];
    try tauto.
  destruct (meta d); cbn [fst]; [tauto|]. intros H. apply in_or_app. now left.
Qed.

Lemma scan_fold_keeps_sessions files acc (s : AnalysisSession) :
  In s (fst acc) -> In s (fst (fold_left scanFile files acc)).
Proof.
  revert acc. induction files as [|f files IH]; intros acc H; simpl; [assumption|].
  apply IH. now apply scanFile_keeps_sessions.
Qed.

(** X4.  [getAllSessions] lists every stored session whose id does not
    contain [.db]: when the file of such an id is a database whose [meta]
    table has a first row, the session read from it is in the result. *)
Theorem getAllSessions_lists_stored (fs : directory) (sessionId : string)
        (d : database) (mt : meta_row) (rest : list meta_row) :
  JsString.includes ".db" sessionId = false ->
  fs !! getDbPath sessionId = Some (DbFile d) ->
  meta d = mt :: rest ->
  In (sessionOf sessionId mt d) (fst (getAllSessions fs)).
Proof.
  intros Hreg Hfile Hmeta. unfold getAllSessions.
  assert (Hin : In (getDbPath sessionId)
                   (List.filter (JsString.endsWith ".db") (readdirSync fs))).
  { apply filter_In. split; [|apply endsWith_app].
    unfold readdirSync. apply in_map_iff. exists (getDbPath sessionId, DbFile d).
    split; [reflexivity|]. apply list_elem_of_In. now apply elem_of_map_to_list. }
  assert (Hgoal : forall files acc,
            scanInv fs acc -> In (getDbPath sessionId) files ->
            In (sessionOf sessionId mt d) (fst (fold_left scanFile files acc))).
  { induction files as [|f files IH]; intros acc Hacc Hf; [destruct Hf|].
    simpl. destruct Hf as [->|Hf].
    - apply scan_fold_keeps_sessions. destruct acc as [sessions fs1].
      unfold scanFile. rewrite (replace_db_suffix sessionId Hreg).
      destruct Hacc as [Hfs _]. cbn [snd] in Hfs.
      rewrite (proj2 (Hfs _ _) Hfile), Hmeta. cbn [fst].
      apply in_or_app. right. now left.
    - apply IH; [|assumption]. now apply scanFile_inv. }
  specialize (Hgoal (List.filter (JsString.endsWith ".db") (readdirSync fs)) ([], fs)).
  destruct (fold_left scanFile _ _) as [sessions fs']. cbn [fst] in *.
  rewrite sortBy_In. apply Hgoal; [|assumption].
  split; [tauto|]. intros ? [].
Qed.

(** X5.  The counts of a stored session agree with its unfiltered ranking:
    the session's message count is the sum of the counts that
    [getMemberActivity] reports without a time filter, and its member count
    is at least the number of ranked members. *)
Theorem session_counts_match_ranking (fs : directory) (sessionId : string)
        (d : database) (mt : meta_row) (rest : list meta_row) :
  fs !! getDbPath sessionId = Some (DbFile d) ->
  NoDup (List.map m_id (member d)) ->
  meta d = mt :: rest ->
  exists s res,
    getSession fs sessionId = Returns (Some s) /\
    getMemberActivity fs sessionId None = Returns res /\
    s_messageCount s = sumZ (List.map messageCount res) /\
    Z.of_nat (List.length res) <= s_memberCount s.
Proof.
  intros Hfile Hnd Hmeta.
  destruct (getMemberActivity_spec fs sessionId d None Hfile Hnd)
    as (ms & Hres & Hperm & _).
  exists (sessionOf sessionId mt d), (List.map (entryOf None d) ms).
  split; [|split; [assumption|split]].
  - unfold getSession, openDatabase. rewrite Hfile. cbn [obind tablesOf].
    now rewrite Hmeta.
  - cbn [sessionOf s_messageCount]. unfold countMessages.
    change [Sql.CNameNotSystem] with (timeConds None ++ [Sql.CNameNotSystem]).
    rewrite <- (List.length_map fst), (joinWhere_counted None d Hnd).
    fold (totalNonSystemMessages None d).
    rewrite List.map_map. cbn [entryOf messageCount]. symmetry.
    etransitivity; [apply sumZ_perm, Permutation_map, Hperm|].
    etransitivity; [apply (sum_positive_only (memberCount None d) notSystem)|].
    + intros m. unfold memberCount. lia.
    + now apply sum_memberCount.
  - cbn [sessionOf s_memberCount]. unfold countMembers. fold notSystem.
    rewrite List.length_map, (Permutation_length Hperm). apply inj_le.
    apply length_filter_le. intros m _ Hq. unfold qualifies in Hq.
    apply andb_true_iff in Hq. tauto.
Qed.

(** ** Paths of different sessions *)

Lemma string_length_app (a b : string) :
  String.length (a ++ b)%string = (String.length a + String.length b)%nat.
Proof.
  induction a as [|c a IH]; [reflexivity|].
  change (S (String.length (a ++ b)%string) = S (String.length a + String.length b)).
  now rewrite IH.
Qed.

Lemma string_app_assoc (a b c : string) :
  ((a ++ b) ++ c)%string = (a ++ (b ++ c))%string.
Proof.
  induction a as [|x a IH]; [reflexivity|].
  change (String x ((a ++ b) ++ c)%string = String x (a ++ (b ++ c))%string).
  now rewrite IH.
Qed.

Lemma append_inv_tail (a b s t : string) :
  String.length s = String.length t ->
  (a ++ s)%string = (b ++ t)%string -> a = b /\ s = t.
Proof.
  intros Hlen. revert b. induction a as [|x a IH]; intros [|y b] H.
  - change (s = t) in H. now split.
  - exfalso. change (s = String y (b ++ t)%string) in H.
    apply (f_equal String.length) in H. cbn [String.length] in H.
    rewrite string_length_app in H. lia.
  - exfalso. change (String x (a ++ s)%string = t) in H.
    apply (f_equal String.length) in H. cbn [String.length] in H.
    rewrite string_length_app in H. lia.
  - change (String x (a ++ s)%string = String y (b ++ t)%string) in H.
    injection H as -> H. destruct (IH b H) as [-> ->]. now split.
Qed.

Lemma getDbPath_inj (a b : string) : getDbPath a = getDbPath b -> a = b.
Proof.
  unfold getDbPath. intros H. now apply (append_inv_tail a b ".db" ".db").
Qed.

(** The storage files of two different session ids are different files. *)
Lemma artifacts_disjoint (a b : string) (p : string) :
  a <> b -> In p (artifacts a) -> ~ In p (artifacts b).
Proof.
  intros Hne Ha Hb. unfold artifacts in *. cbn [In] in *.
  assert (Hdb : forall x y, getDbPath x <> (getDbPath y ++ "-wal")%string /\
                            getDbPath x <> (getDbPath y ++ "-shm")%string).
  { intros x y. unfold getDbPath. split; intros H.
    - change "-wal" with ("-" ++ "wal")%string in H.
      rewrite <- string_app_assoc in H.
      apply append_inv_tail in H; [|reflexivity]. destruct H as [_ H]. discriminate.
    - change "-shm" with ("-" ++ "shm")%string in H.
      rewrite <- string_app_assoc in H.
      apply append_inv_tail in H; [|reflexivity]. destruct H as [_ H]. discriminate. }
  assert (Hsame : forall suffix, (getDbPath a ++ suffix)%string
                                 <> (getDbPath b ++ suffix)%string).
  { intros suffix H. apply append_inv_tail in H; [|reflexivity].
    destruct H as [H _]. now apply getDbPath_inj in H. }
  assert (Hws : forall x y, (getDbPath x ++ "-wal")%string
                            <> (getDbPath y ++ "-shm")%string).
  { intros x y H. apply append_inv_tail in H; [|reflexivity].
    destruct H as [_ H]. discriminate. }
  destruct Ha as [<-|[<-|[<-|[]]]]; destruct Hb as [Hb|[Hb|[Hb|[]]]].
  - apply getDbPath_inj in Hb. congruence.
  - exact (proj1 (Hdb a b) (eq_sym Hb)).
  - exact (proj2 (Hdb a b) (eq_sym Hb)).
  - exact (proj1 (Hdb b a) Hb).
  - exact (Hsame "-wal" (eq_sym Hb)).
  - exact (Hws a b (eq_sym Hb)).
  - exact (proj2 (Hdb b a) Hb).
  - exact (Hws b a Hb).
  - exact (Hsame "-shm" (eq_sym Hb)).
Qed.

(** ** [deleteSession] and the other sessions *)

Lemma unlinkIfExists_other locked p q fs :
  p <> q -> snd (unlinkIfExists locked p fs) !! q = fs !! q.
Proof.
  intros Hne.
  destruct (unlinkIfExists_spec locked p fs) as [(_ & _ & ->)|[_ ->]]; cbn [snd].
  - reflexivity.
  - now apply lookup_delete_ne.
Qed.

Lemma deleteSession_elsewhere locked sessionId fs (q : string) :
  ~ In q (artifacts sessionId) ->
  snd (deleteSession locked sessionId fs) !! q = fs !! q.
Proof.
  intros Hq. unfold artifacts in Hq. cbn [In] in Hq.
  unfold deleteSession, bind.
  pose proof (unlinkIfExists_other locked (getDbPath sessionId) q fs) as H1.
  destruct (unlinkIfExists locked (getDbPath sessionId) fs) as [[[]|e1] fs1];
    cbn [snd] in *; [|apply H1; tauto].
  pose proof (unlinkIfExists_other locked (getDbPath sessionId ++ "-wal")%string q fs1)
    as H2.
  destruct (unlinkIfExists locked (getDbPath sessionId ++ "-wal")%string fs1)
    as [[[]|e2] fs2]; cbn [snd] in *; [|rewrite H2, H1; tauto].
  pose proof (unlinkIfExists_other locked (getDbPath sessionId ++ "-shm")%string q fs2)
    as H3.
  destruct (unlinkIfExists locked (getDbPath sessionId ++ "-shm")%string fs2)
    as [[[]|e3] fs3]; cbn [snd ret] in *; rewrite H3, H2, H1; tauto.
Qed.

(** X6.  Deleting a session never touches another session: whatever the
    outcome, the three storage files of every other session id are as they
    were, and [getSession] answers for it as before. *)
Theorem deleteSession_spares_others (locked : string -> bool) (sessionId other : string)
        (fs : directory) :
  other <> sessionId ->
  (forall p, In p (artifacts other) ->
             snd (deleteSession locked sessionId fs) !! p = fs !! p) /\
  getSession (snd (deleteSession locked sessionId fs)) other = getSession fs other.
Proof.
  intros Hne.
  assert (H : forall p, In p (artifacts other) ->
                        snd (deleteSession locked sessionId fs) !! p = fs !! p).
  { intros p Hp. apply deleteSession_elsewhere. now apply (artifacts_disjoint other). }
  split; [exact H|].
  unfold getSession, openDatabase. rewrite H; [reflexivity|].
  unfold artifacts. cbn [In]. auto.
Qed.

(** ** [importData] and the other sessions *)

Lemma importData_elsewhere (faults : nat -> bool) (timestamp : Z) (random : string)
      (nowMs : Z) (pr : ParseResult) (fs : directory) (p : string) :
  p <> getDbPath (generateSessionId timestamp random) ->
  snd (importData faults timestamp random nowMs pr fs) !! p = fs !! p.
Proof.
  intros Hne. unfold importData, bind, createDatabase.
  destruct (fs !! getDbPath (generateSessionId timestamp random)) as [[d| |]|];
    try reflexivity;
    destruct (transaction faults (importBody faults nowMs pr) _) as [[u|e] db'];
    cbn [snd]; rewrite ?lookup_insert_ne by congruence; reflexivity.
Qed.

(** X7.  Importing never touches another session: whatever the outcome, the
    three storage files of every session id other than the generated one are
    as they were, and [getSession] answers for it as before. *)
Theorem importData_spares_others (faults : nat -> bool) (timestamp : Z)
        (random : string) (nowMs : Z) (pr : ParseResult) (fs : directory)
        (other : string) :
  other <> generateSessionId timestamp random ->
  (forall p, In p (artifacts other) ->
             snd (importData faults timestamp random nowMs pr fs) !! p = fs !! p) /\
  getSession (snd (importData faults timestamp random nowMs pr fs)) other
  = getSession fs other.
Proof.
  intros Hne.
  assert (H : forall p, In p (artifacts other) ->
                snd (importData faults timestamp random nowMs pr fs) !! p = fs !! p).
  { intros p Hp. apply importData_elsewhere. intros ->.
    apply (artifacts_disjoint other (generateSessionId timestamp random) _ Hne Hp).
    unfold artifacts. cbn [In]. auto. }
  split; [exact H|].
  unfold getSession, openDatabase. rewrite H; [reflexivity|].
  unfold artifacts. cbn [In]. auto.
Qed.

Lemma importData_fresh_file (faults : nat -> bool) (timestamp : Z) (random : string)
      (nowMs : Z) (pr : ParseResult) (fs : directory) :
  fs !! getDbPath (generateSessionId timestamp random) = None ->
  exists db, snd (importData faults timestamp random nowMs pr fs) =
             <[getDbPath (generateSessionId timestamp random) := DbFile db]> fs.
Proof.
  intros Hfresh. unfold importData, bind, createDatabase. rewrite Hfresh.
  destruct (transaction faults (importBody faults nowMs pr) emptyDatabase)
    as [[u|e] db']; exists db'; cbn [snd]; now rewrite insert_insert_eq.
Qed.

(** X8.  Deleting what an import left behind restores the directory: when
    none of the three storage files of the generated id existed before the
    import and no removal is refused, [deleteSession] on that id answers
    [true] and the directory is again the one before the import -- whether
    the import succeeded or failed. *)
Theorem import_then_delete (faults : nat -> bool) (timestamp : Z) (random : string)
        (nowMs : Z) (pr : ParseResult) (fs : directory) :
  (forall p, In p (artifacts (generateSessionId timestamp random)) -> fs !! p = None) ->
  deleteSession (fun _ => false) (generateSessionId timestamp random)
                (snd (importData faults timestamp random nowMs pr fs))
  = (true, fs).
Proof.
  intros Habs. set (sid := generateSessionId timestamp random) in *.
  assert (H : forall p, In p (artifacts sid) -> fs !! p = None) by exact Habs.
  unfold artifacts in H. cbn [In] in H.
  destruct (importData_fresh_file faults timestamp random nowMs pr fs) as [db Hfs];
    [apply H; auto|]. fold sid in Hfs. rewrite Hfs.
  destruct (deleteSession_cases (fun _ => false) sid (<[getDbPath sid := DbFile db]> fs))
    as [[_ (q & _ & _ & Hq)]|[Heq _]]; [discriminate|].
  rewrite Heq. f_equal.
  rewrite delete_insert_eq.
  rewrite (delete_id fs (getDbPath sid)) by (apply H; auto).
  rewrite (delete_id fs (getDbPath sid ++ "-wal")%string) by (apply H; auto).
  now rewrite (delete_id fs (getDbPath sid ++ "-shm")%string) by (apply H; auto).
Qed.

(** ** From the parse result to the session *)

Lemma filter_perm {A : Type} (p : A -> bool) (l l' : list A) :
  Permutation l l' -> Permutation (List.filter p l) (List.filter p l').
Proof.
  induction 1 as [|x l l' _ IH|x y l|l l' l'' _ IH1 _ IH2]; simpl.
  - constructor.
  - destruct (p x); [now constructor|assumption].
  - destruct (p x), (p y); try reflexivity. apply perm_swap.
  - now transitivity (List.filter p l').
Qed.

Lemma length_filter_omap {A B : Type} (f : A -> option B) (q : B -> bool) (l : list A) :
  List.length (List.filter q (omap f l)) =
  List.length (List.filter (fun x => match f x with Some y => q y | None => false end) l).
Proof.
  induction l as [|x l IH]; [reflexivity|].
  change (omap f (x :: l)) with (match f x with Some y => y :: omap f l | None => omap f l end).
  cbn [List.filter]. destruct (f x) as [y|]; [|assumption].
  cbn [List.filter]. destruct (q y); cbn [List.length]; now rewrite IH.
Qed.

Lemma existsb_unique_id (rows : list member_row) (r : member_row)
      (p : member_row -> bool) :
  NoDup (List.map m_id rows) -> In r rows ->
  existsb (fun m => (m_id m =? m_id r) && p m) rows = p r.
Proof.
  induction rows as [|m rows IH]; simpl; [tauto|].
  intros Hnd Hin. apply NoDup_cons in Hnd. destruct Hnd as [Hm Hnd].
  rewrite list_elem_of_In in Hm. destruct Hin as [->|Hin].
  - rewrite Z.eqb_refl. simpl. destruct (p r); [reflexivity|]. simpl.
    destruct (existsb _ rows) eqn:E; [|reflexivity].
    apply existsb_exists in E. destruct E as (m' & Hm' & E).
    apply andb_true_iff in E. destruct E as [E _]. apply Z.eqb_eq in E.
    exfalso. apply Hm. rewrite <- E. now apply in_map.
  - rewrite (IH Hnd Hin). destruct (m_id m =? m_id r) eqn:E; [|reflexivity].
    apply Z.eqb_eq in E. exfalso. apply Hm. rewrite E. now apply in_map.
Qed.

Lemma lastNameOf_unknown (pid : string) (l : list ParsedMember) :
  ~ In pid (List.map platformId l) -> lastNameOf pid l = None.
Proof.
  intros H. unfold lastNameOf.
  rewrite (proj2 (find_None_iff _ (rev l))); [reflexivity|].
  intros pm Hpm. apply in_rev in Hpm.
  destruct (String.eqb (platformId pm) pid) eqn:E; [|reflexivity].
  apply String.eqb_eq in E. exfalso. apply H. rewrite <- E. now apply in_map.
Qed.

(** X9.  What [getSession] reports for a freshly imported session, in terms
    of the parse result: the name, platform and type of its metadata, the
    import time in whole seconds, the number of distinct platform ids whose
    last listed name is not the sentinel label, and the number of parsed
    messages sent by such an id. *)
Theorem import_then_getSession (faults : nat -> bool) (timestamp : Z) (random : string)
        (nowMs : Z) (pr : ParseResult) (fs : directory) :
  (forall n, faults n = false) ->
  fs !! getDbPath (generateSessionId timestamp random) = None ->
  exists fs' s,
    importData faults timestamp random nowMs pr fs =
    (Returns (generateSessionId timestamp random), fs') /\
    getSession fs' (generateSessionId timestamp random) = Returns (Some s) /\
    s_id s = generateSessionId timestamp random /\
    s_name s = pm_name (pr_meta pr) /\
    s_platform s = pm_platform (pr_meta pr) /\
    s_type s = pm_type (pr_meta pr) /\
    importedAt s = nowMs / 1000 /\
    s_memberCount s =
    Z.of_nat (List.length (List.filter (knownNotSystem pr)
                             (remove_dups (List.map platformId (members pr))))) /\
    s_messageCount s =
    Z.of_nat (List.length (List.filter (fun msg => knownNotSystem pr (senderPlatformId msg))
                                       (messages pr))).
Proof.
  intros Hnf Hfresh.
  destruct (importData_success faults timestamp random nowMs pr fs Hnf Hfresh)
    as (d & Himp & Hmeta & Hpids & Hids & Hdom & Hnames & Hmsgs).
  set (sid := generateSessionId timestamp random) in *.
  assert (Hknown : forall r, In r (member d) ->
                     notSystem r = knownNotSystem pr (platform_id r)).
  { intros r Hr. unfold knownNotSystem. now rewrite (Hnames r Hr). }
  eexists _, (sessionOf sid (MetaRow (pm_name (pr_meta pr)) (pm_platform (pr_meta pr))
                                     (pm_type (pr_meta pr)) (nowMs / 1000)) d).
  split; [exact Himp|]. split.
  { unfold getSession, openDatabase. rewrite lookup_insert_eq. cbn [obind tablesOf].
    rewrite Hmeta. reflexivity. }
  do 5 (split; [reflexivity|]). split.
  - cbn [sessionOf s_memberCount]. unfold countMembers. fold notSystem. f_equal.
    rewrite (List.filter_ext_in notSystem
               (fun r => knownNotSystem pr (platform_id r)) (member d) Hknown).
    rewrite <- (List.length_map platform_id), <- filter_map_swap.
    apply Permutation_length, filter_perm.
    apply NoDup_Permutation; [assumption|apply NoDup_remove_dups|].
    intros pid. now rewrite elem_of_remove_dups, !list_elem_of_In.
  - cbn [sessionOf s_messageCount]. unfold countMessages. f_equal.
    change [Sql.CNameNotSystem] with (timeConds None ++ [Sql.CNameNotSystem]).
    rewrite <- (List.length_map fst), (joinWhere_counted None d Hids).
    set (q := fun x : Z * Z * Z * option string =>
                existsb (fun m => (m_id m =? fst (fst (fst x))) && notSystem m) (member d)).
    rewrite (List.filter_ext (counted None d) (fun msg => q (msgData msg)))
      by reflexivity.
    rewrite <- (List.length_map msgData), <- filter_map_swap, Hmsgs.
    rewrite length_filter_omap. f_equal. apply List.filter_ext. intros msg.
    unfold storedFrom.
    destruct (List.find _ (member d)) as [r|] eqn:Ef; cbn [option_map].
    + apply find_some in Ef. destruct Ef as [Hr Er]. apply String.eqb_eq in Er.
      unfold q. cbn [fst]. rewrite (existsb_unique_id (member d) r notSystem Hids Hr).
      rewrite <- Er. now apply Hknown.
    + unfold knownNotSystem. rewrite lastNameOf_unknown; [reflexivity|].
      rewrite <- Hdom. intros Hin. apply in_map_iff in Hin.
      destruct Hin as (r & Er & Hr).
      pose proof (find_none _ _ Ef r Hr) as Hn. cbn beta in Hn.
      rewrite Er, String.eqb_refl in Hn. discriminate.
Qed.

(** ** Orders used by the queries *)

Lemma string_leb_trans (a b c : string) :
  String.leb a b = true -> String.leb b c = true -> String.leb a c = true.
Proof.
  unfold String.leb. revert b c.
  induction a as [|x a IH]; intros b c Hab Hbc.
  - now destruct c.
  - destruct b as [|y b]; [discriminate|]. destruct c as [|z c]; [discriminate|].
    cbn [String.compare] in *.
    destruct (Ascii.compare x y) eqn:Exy; [| |discriminate];
      destruct (Ascii.compare y z) eqn:Eyz; try discriminate.
    + apply Ascii.compare_eq_iff in Exy, Eyz. subst y z.
      assert (E : Ascii.compare x x = Eq)
        by (unfold Ascii.compare; apply N.compare_refl).
      rewrite E. now apply (IH b c).
    + apply Ascii.compare_eq_iff in Exy. subst y. now rewrite Eyz.
    + apply Ascii.compare_eq_iff in Eyz. subst z. now rewrite Exy.
    + assert (E : Ascii.compare x z = Lt).
      { unfold Ascii.compare in *. rewrite N.compare_lt_iff in *. lia. }
      now rewrite E.
Qed.

Section NullsFirst.
Context {A : Type} (le : A -> A -> bool).
Hypothesis le_total : forall a b, le a b = true \/ le b a = true.
Hypothesis le_trans : forall a b c, le a b = true -> le b c = true -> le a c = true.

Lemma nullsFirst_total (a b : option A) :
  nullsFirst le a b = true \/ nullsFirst le b a = true.
Proof.
  destruct a as [x|], b as [y|]; simpl; auto.
Qed.

Lemma nullsFirst_trans (a b c : option A) :
  nullsFirst le a b = true -> nullsFirst le b c = true -> nullsFirst le a c = true.
Proof.
  destruct a as [x|], b as [y|], c as [z|]; simpl; try discriminate; auto.
  apply le_trans.
Qed.
End NullsFirst.

Lemma Zleb_trans (a b c : Z) : (a <=? b) = true -> (b <=? c) = true -> (a <=? c) = true.
Proof. rewrite !Z.leb_le. lia. Qed.

Lemma Zleb_total2 (a b : Z) : (a <=? b) = true \/ (b <=? a) = true.
Proof. rewrite !Z.leb_le. lia. Qed.

(** ** Groups partition the rows *)

Lemma sum_one_key {K : Type} `{EqDecision K} (ks : list K) (k0 : K) :
  NoDup ks -> In k0 ks ->
  sumZ (List.map (fun k => if bool_decide (k0 = k) then 1 else 0) ks) = 1.
Proof.
  unfold sumZ. induction ks as [|k ks IH]; simpl; [tauto|].
  intros Hnd Hin. apply NoDup_cons in Hnd. destruct Hnd as [Hk Hnd].
  rewrite list_elem_of_In in Hk.
  destruct (bool_decide (k0 = k)) eqn:E.
  - apply bool_decide_eq_true_1 in E. subst k.
    assert (H0 : foldr Z.add 0 (List.map (fun k => if bool_decide (k0 = k) then 1 else 0) ks)
                 = 0).
    { clear IH Hnd Hin. induction ks as [|k ks IH]; simpl; [reflexivity|].
      rewrite bool_decide_eq_false_2 by (intros ->; apply Hk; now left).
      rewrite IH; [reflexivity|]. intros H. apply Hk. now right. }
    rewrite H0. reflexivity.
  - apply bool_decide_eq_false_1 in E. destruct Hin as [->|Hin]; [congruence|].
    rewrite (IH Hnd Hin). reflexivity.
Qed.

(** The sizes of the classes of a list under a key, taken over a
    duplicate-free list of keys that covers the list, add up to its
    length. *)
Lemma partition_count {A K : Type} `{EqDecision K} (key : A -> K) (ks : list K)
      (l : list A) :
  NoDup ks -> (forall x, In x l -> In (key x) ks) ->
  sumZ (List.map (fun k => Z.of_nat (List.length
                              (List.filter (fun x => bool_decide (key x = k)) l))) ks)
  = Z.of_nat (List.length l).
Proof.
  intros Hnd. induction l as [|x l IH]; intros Hcov.
  - simpl. unfold sumZ. clear. induction ks; simpl; [reflexivity|assumption].
  - rewrite (map_ext _ (fun k =>
               (if bool_decide (key x = k) then 1 else 0)
               + Z.of_nat (List.length (List.filter (fun x => bool_decide (key x = k)) l)))).
    2:{ intros k. cbn [List.filter]. destruct (bool_decide (key x = k));
          cbn [List.length]; lia. }
    rewrite sumZ_map_add, IH by (intros y Hy; apply Hcov; now right).
    rewrite (sum_one_key ks (key x) Hnd) by (apply Hcov; now left).
    cbn [List.length]. lia.
Qed.

Lemma groupBy_keys {R K : Type} `{EqDecision K} (key : R -> K) (rows : list R) :
  List.map fst (Sql.groupBy key rows) = remove_dups (List.map key rows).
Proof.
  unfold Sql.groupBy. rewrite List.map_map. cbn [fst]. apply List.map_id.
Qed.

Lemma groupBy_sizes {R K : Type} `{EqDecision K} (key : R -> K) (rows : list R) :
  sumZ (List.map (fun kg => Z.of_nat (List.length (snd kg))) (Sql.groupBy key rows))
  = Z.of_nat (List.length rows).
Proof.
  unfold Sql.groupBy. rewrite List.map_map. cbn [snd].
  apply (partition_count key (remove_dups (List.map key rows)) rows).
  - apply NoDup_remove_dups.
  - intros x Hx. rewrite <- list_elem_of_In, elem_of_remove_dups, list_elem_of_In.
    now apply in_map.
Qed.

Lemma groupBy_nonempty {R K : Type} `{EqDecision K} (key : R -> K) (rows : list R) kg :
  In kg (Sql.groupBy key rows) -> (1 <= List.length (snd kg))%nat.
Proof.
  destruct kg as [k g]. intros H. apply groupBy_In in H. destruct H as [Hk ->].
  apply in_map_iff in Hk. destruct Hk as (r & <- & Hr). cbn [snd].
  assert (Hin : In r (List.filter (fun r0 => bool_decide (key r0 = key r)) rows)).
  { apply filter_In. split; [assumption|]. now apply bool_decide_eq_true_2. }
  destruct (List.filter _ rows); [destruct Hin|simpl; lia].
Qed.

Lemma join_size (filter : option TimeFilter) (d : database) :
  NoDup (List.map m_id (member d)) ->
  Z.of_nat (List.length (Sql.joinWhere d (timeConds filter ++ [Sql.CNameNotSystem])))
  = totalNonSystemMessages filter d.
Proof.
  intros Hnd. unfold totalNonSystemMessages.
  rewrite <- (joinWhere_counted filter d Hnd). now rewrite List.length_map.
Qed.

(** ** [getDailyActivity] and [getMessageTypeDistribution] as wholes *)

Section DailyFacts.
Variable localDate : Z -> option string.

(** The shape of the rows of [getDailyActivity], shared by the properties
    of the query and of the views that read it. *)
Lemma daily_rows (fs : directory) (sessionId : string) (d : database)
      (filter : option TimeFilter) :
  fs !! getDbPath sessionId = Some (DbFile d) ->
  NoDup (List.map m_id (member d)) ->
  exists res,
    getDailyActivity localDate fs sessionId filter = Returns res /\
    NoDup (List.map date res) /\
    (forall e, In e res -> 1 <= d_messageCount e) /\
    StronglySorted (fun a b => nullsFirst String.leb (date a) (date b) = true) res /\
    sumZ (List.map d_messageCount res) = totalNonSystemMessages filter d.
Proof.
  intros Hfile Hnd. unfold getDailyActivity, openDatabase. rewrite Hfile.
  cbn [obind]. pose proof (where_clause_reads filter) as Hw.
  destruct (buildTimeFilter filter) as [clause params]. cbn [fst snd] in Hw.
  cbn [tablesOf obind]. rewrite Hw. cbn [obind].
  set (J := Sql.joinWhere d (timeConds filter ++ [Sql.CNameNotSystem])).
  set (groups := Sql.groupBy (fun r : message_row * member_row => localDate (ts (fst r))) J).
  set (mk := fun kg : option string * list (message_row * member_row) =>
               {| date := fst kg; d_messageCount := Z.of_nat (List.length (snd kg)) |}).
  set (le := fun a b => nullsFirst String.leb (date a) (date b)).
  pose proof (sortBy_perm le (List.map mk groups)) as Hperm.
  eexists. split; [reflexivity|]. split; [|split; [|split]].
  - rewrite (Permutation_map date Hperm), List.map_map. cbn [mk date].
    unfold groups. rewrite groupBy_keys. apply NoDup_remove_dups.
  - intros e He. apply (Permutation_in _ Hperm) in He. apply in_map_iff in He.
    destruct He as (kg & <- & Hkg). cbn [mk d_messageCount].
    apply groupBy_nonempty in Hkg. lia.
  - apply sortBy_sorted.
    + intros a b. apply nullsFirst_total, String.leb_total.
    + intros a b c. apply nullsFirst_trans, string_leb_trans.
  - rewrite (sumZ_perm _ _ (Permutation_map d_messageCount Hperm)), List.map_map.
    cbn [mk d_messageCount]. unfold groups. rewrite groupBy_sizes.
    now apply join_size.
Qed.

(** X10.  For a stored session [getDailyActivity] returns each date once, no
    date with a zero count, in ascending order of the date (a NULL date
    first), and the counts add up to the number of non-system messages
    under the same filter. *)
Theorem getDailyActivity_days (fs : directory) (sessionId : string) (d : database)
        (filter : option TimeFilter) :
  fs !! getDbPath sessionId = Some (DbFile d) ->
  NoDup (List.map m_id (member d)) ->
  exists res,
    getDailyActivity localDate fs sessionId filter = Returns res /\
    NoDup (List.map date res) /\
    (forall e, In e res -> 1 <= d_messageCount e) /\
    StronglySorted (fun a b => nullsFirst String.leb (date a) (date b) = true) res /\
    sumZ (List.map d_messageCount res) = totalNonSystemMessages filter d.
Proof.
  exact (daily_rows fs sessionId d filter).
Qed.
End DailyFacts.

(** X11.  For a stored session [getMessageTypeDistribution] returns each
    message type once, no type with a zero count, in descending order of the
    count, and the counts add up to the number of non-system messages under
    the same filter. *)
Theorem getMessageTypeDistribution_types (fs : directory) (sessionId : string)
        (d : database) (filter : option TimeFilter) :
  fs !! getDbPath sessionId = Some (DbFile d) ->
  NoDup (List.map m_id (member d)) ->
  exists res,
    getMessageTypeDistribution fs sessionId filter = Returns res /\
    NoDup (List.map tc_type res) /\
    (forall e, In e res -> 1 <= tc_count e) /\
    StronglySorted (fun a b => tc_count b <= tc_count a) res /\
    sumZ (List.map tc_count res) = totalNonSystemMessages filter d.
Proof.
  intros Hfile Hnd. unfold getMessageTypeDistribution, openDatabase. rewrite Hfile.
  cbn [obind]. pose proof (where_clause_reads filter) as Hw.
  destruct (buildTimeFilter filter) as [clause params]. cbn [fst snd] in Hw.
  cbn [tablesOf obind]. rewrite Hw. cbn [obind].
  set (J := Sql.joinWhere d (timeConds filter ++ [Sql.CNameNotSystem])).
  set (groups := Sql.groupBy (fun r : message_row * member_row => msg_type (fst r)) J).
  set (rows := List.map (fun kg : Z * list (message_row * member_row) =>
                           (fst kg, Z.of_nat (List.length (snd kg)))) groups).
  set (le := fun a b : Z * Z => snd b <=? snd a).
  pose proof (sortBy_perm le rows) as Hperm.
  eexists. split; [reflexivity|]. split; [|split; [|split]].
  - rewrite List.map_map. cbn [tc_type].
    rewrite (Permutation_map fst Hperm). unfold rows. rewrite List.map_map. cbn [fst].
    unfold groups. rewrite groupBy_keys. apply NoDup_remove_dups.
  - intros e He. apply in_map_iff in He. destruct He as (r & <- & Hr).
    apply (Permutation_in _ Hperm) in Hr. apply in_map_iff in Hr.
    destruct Hr as (kg & <- & Hkg). cbn [tc_count snd].
    apply groupBy_nonempty in Hkg. lia.
  - apply StronglySorted_map. cbn [tc_count].
    apply StronglySorted_weaken with (R := fun a b => le a b = true).
    + intros a b _ _ H. now apply Z.leb_le.
    + apply sortBy_sorted.
      * intros a b. apply Zleb_total2.
      * intros a b c H1 H2. unfold le in *. now apply (Zleb_trans _ (snd b)).
  - rewrite List.map_map. cbn [tc_count].
    etransitivity; [apply sumZ_perm, (Permutation_map snd), Hperm|]. unfold rows.
    rewrite List.map_map. cbn [snd]. unfold groups. rewrite groupBy_sizes.
    now apply join_size.
Qed.

(** X12.  When the clock gives every stored message an hour between 0 and
    23, the 24 counts returned by [getHourlyActivity] add up to the number of
    non-system messages under the same filter. *)
Theorem getHourlyActivity_total (localHour : Z -> option Z) (fs : directory)
        (sessionId : string) (d : database) (filter : option TimeFilter) :
  fs !! getDbPath sessionId = Some (DbFile d) ->
  NoDup (List.map m_id (member d)) ->
  (forall msg, In msg (message d) ->
     exists h, localHour (ts msg) = Some h /\ 0 <= h < 24) ->
  exists res,
    getHourlyActivity localHour fs sessionId filter = Returns res /\
    sumZ (List.map h_messageCount res) = totalNonSystemMessages filter d.
Proof.
  intros Hfile Hnd Hclock.
  rewrite (getHourlyActivity_spec localHour fs sessionId d filter Hfile Hnd).
  eexists. split; [reflexivity|].
  rewrite List.map_map. cbn [h_messageCount].
  unfold countedIn, totalNonSystemMessages.
  rewrite (map_ext _ (fun h =>
             Z.of_nat (List.length
               (List.filter (fun msg => bool_decide (localHour (ts msg) = Some h))
                            (List.filter (counted filter d) (message d)))))).
  2:{ intros h. now rewrite filter_filter_and. }
  rewrite <- (List.map_map Some
                (fun k => Z.of_nat (List.length
                   (List.filter (fun msg => bool_decide (localHour (ts msg) = k))
                                (List.filter (counted filter d) (message d)))))).
  apply (partition_count (fun msg => localHour (ts msg)) (List.map Some hoursOfDay)).
  - apply (bool_decide_unpack _). vm_compute. exact I.
  - intros msg Hmsg. apply filter_In in Hmsg. destruct Hmsg as [Hmsg _].
    destruct (Hclock msg Hmsg) as (h & -> & Hh). apply in_map.
    unfold hoursOfDay. apply in_map_iff. exists (Z.to_nat h).
    split; [lia|]. apply in_seq. lia.
Qed.

(** ** [getAvailableYears] *)

(** X13.  For a stored session [getAvailableYears] returns each year once,
    in ascending order (NULL first), and a year is returned exactly when
    some stored message -- whoever sent it -- falls into it. *)
Theorem getAvailableYears_years (localYear : Z -> option Z) (fs : directory)
        (sessionId : string) (d : database) :
  fs !! getDbPath sessionId = Some (DbFile d) ->
  exists res,
    getAvailableYears localYear fs sessionId = Returns res /\
    NoDup res /\
    StronglySorted (fun a b => nullsFirst Z.leb a b = true) res /\
    (forall y, In y res <-> exists msg, In msg (message d) /\ localYear (ts msg) = y).
Proof.
  intros Hfile. unfold getAvailableYears, openDatabase. rewrite Hfile.
  cbn [obind tablesOf]. rewrite List.map_id.
  set (keys := List.map (fun msg => localYear (ts msg)) (message d)).
  pose proof (sortBy_perm (nullsFirst Z.leb) (remove_dups keys)) as Hperm.
  eexists. split; [reflexivity|]. split; [|split].
  - rewrite Hperm. apply NoDup_remove_dups.
  - apply sortBy_sorted.
    + apply nullsFirst_total, Zleb_total2.
    + apply nullsFirst_trans, Zleb_trans.
  - intros y. rewrite sortBy_In.
    rewrite <- list_elem_of_In, elem_of_remove_dups, list_elem_of_In.
    unfold keys. rewrite in_map_iff. split.
    + intros (msg & E & Hmsg). eauto.
    + intros (msg & Hmsg & E). eauto.
Qed.

(** ** The queries after a deletion *)

(** X14.  Once [deleteSession] has answered [true], every query on that id
    yields its empty answer: the four aggregates and the list of years are
    empty and the time range is [null]. *)
Theorem queries_after_delete (localHour : Z -> option Z) (localDate : Z -> option string)
        (localYear : Z -> option Z) (locked : string -> bool) (sessionId : string)
        (fs : directory) (filter : option TimeFilter) :
  fst (deleteSession locked sessionId fs) = true ->
  let fs' := snd (deleteSession locked sessionId fs) in
  getMemberActivity fs' sessionId filter = Returns [] /\
  getHourlyActivity localHour fs' sessionId filter = Returns [] /\
  getDailyActivity localDate fs' sessionId filter = Returns [] /\
  getMessageTypeDistribution fs' sessionId filter = Returns [] /\
  getTimeRange fs' sessionId = Returns None /\
  getAvailableYears localYear fs' sessionId = Returns [].
Proof.
  intros Htrue fs'.
  assert (Hgone : fs' !! getDbPath sessionId = None).
  { unfold fs'.
    destruct (deleteSession_cases locked sessionId fs) as [[Hf _]|[Heq _]];
      [congruence|].
    rewrite Heq. cbn [snd]. rewrite !lookup_delete_None. auto. }
  unfold getMemberActivity, getHourlyActivity, getDailyActivity,
    getMessageTypeDistribution, getTimeRange, getAvailableYears, openDatabase.
  rewrite Hgone. cbn [obind]. now repeat split.
Qed.

(** ** Rounding and percentages *)


Lemma Qfloor_half (n : Z) : Qfloor (inject_Z n + (1 # 2)) = n.
Proof.
  pose proof (Qfloor_le (inject_Z n + (1#2))) as H1.
  pose proof (Qlt_floor (inject_Z n + (1#2))) as H2.
  assert (Ha : (inject_Z (Qfloor (inject_Z n + (1 # 2))) < inject_Z (n + 1))%Q).
  { rewrite inject_Z_plus. eapply Qle_lt_trans; [exact H1|].
    change (inject_Z 1) with 1%Q. lra. }
  assert (Hb : (inject_Z n < inject_Z (Qfloor (inject_Z n + (1 # 2)) + 1))%Q)
    by (eapply Qle_lt_trans; [|exact H2]; lra).
  rewrite <- Zlt_Qlt in Ha, Hb. lia.
Qed.





(** ** The time filter acts through the stored timestamps only *)

Lemma joinWhere_ext (d : database) (cs cs' : list Sql.cond) :
  (forall m msg, In msg (message d) -> Sql.holdsAll cs m msg = Sql.holdsAll cs' m msg) ->
  Sql.joinWhere d cs = Sql.joinWhere d cs'.
Proof.
  unfold Sql.joinWhere. induction (message d) as [|msg msgs IH]; intros H.
  - reflexivity.
  - cbn [flat_map]. rewrite IH by (intros m x Hx; apply H; now right).
    do 2 f_equal. apply List.filter_ext. intros m.
    now rewrite (H m msg (or_introl eq_refl)).
Qed.

Lemma leftJoinOn_ext (d : database) (cs cs' : list Sql.cond) :
  (forall m msg, In msg (message d) -> Sql.holdsAll cs m msg = Sql.holdsAll cs' m msg) ->
  Sql.leftJoinOn d cs = Sql.leftJoinOn d cs'.
Proof.
  intros H. unfold Sql.leftJoinOn. apply flat_map_ext. intros m.
  assert (E : List.filter (fun msg => Sql.holdsAll cs m msg) (message d) =
              List.filter (fun msg => Sql.holdsAll cs' m msg) (message d))
    by (apply List.filter_ext_in; intros msg Hmsg; now apply H).
  now rewrite E.
Qed.

Section FilterExt.
Variables (d : database) (f f' : option TimeFilter).
Hypothesis same_admitted :
  forall msg, In msg (message d) ->
              inTimeFilter f (ts msg) = inTimeFilter f' (ts msg).

Lemma where_conds_agree (m : member_row) (msg : message_row) :
  In msg (message d) ->
  Sql.holdsAll (timeConds f ++ [Sql.CNameNotSystem]) m msg =
  Sql.holdsAll (timeConds f' ++ [Sql.CNameNotSystem]) m msg.
Proof.
  intros Hmsg. now rewrite !holdsAll_timeConds, (same_admitted msg Hmsg).
Qed.

Lemma on_conds_agree (m : member_row) (msg : message_row) :
  In msg (message d) ->
  Sql.holdsAll (Sql.CIdEqSender :: timeConds f ++ [Sql.CNameNotSystem]) m msg =
  Sql.holdsAll (Sql.CIdEqSender :: timeConds f' ++ [Sql.CNameNotSystem]) m msg.
Proof.
  intros Hmsg.
  change ((m_id m =? sender_id msg)
          && Sql.holdsAll (timeConds f ++ [Sql.CNameNotSystem]) m msg =
          (m_id m =? sender_id msg)
          && Sql.holdsAll (timeConds f' ++ [Sql.CNameNotSystem]) m msg).
  now rewrite where_conds_agree.
Qed.
End FilterExt.

Lemma filters_admitting_the_same_aux (localHour : Z -> option Z)
        (localDate : Z -> option string) (fs : directory) (sessionId : string)
        (d : database) (f f' : option TimeFilter) :
  fs !! getDbPath sessionId = Some (DbFile d) ->
  (forall msg, In msg (message d) ->
               inTimeFilter f (ts msg) = inTimeFilter f' (ts msg)) ->
  getMemberActivity fs sessionId f = getMemberActivity fs sessionId f' /\
  getHourlyActivity localHour fs sessionId f = getHourlyActivity localHour fs sessionId f' /\
  getDailyActivity localDate fs sessionId f = getDailyActivity localDate fs sessionId f' /\
  getMessageTypeDistribution fs sessionId f = getMessageTypeDistribution fs sessionId f'.
Proof.
  intros Hfile Hsame.
  pose proof (where_clause_reads f) as Hw. pose proof (where_clause_reads f') as Hw'.
  pose proof (on_clause_reads f) as Hon. pose proof (on_clause_reads f') as Hon'.
  cbn zeta in Hon, Hon'.
  pose proof (joinWhere_ext d _ _ (where_conds_agree d f f' Hsame)) as Hj.
  pose proof (leftJoinOn_ext d _ _ (on_conds_agree d f f' Hsame)) as Hl.
  unfold getMemberActivity, getHourlyActivity, getDailyActivity,
    getMessageTypeDistribution, selectCount, selectMemberCounts, openDatabase.
  rewrite Hfile. cbn [obind tablesOf].
  destruct (buildTimeFilter f) as [clause params].
  destruct (buildTimeFilter f') as [clause' params'].
  cbn [fst snd] in Hw, Hw', Hon, Hon'.
  rewrite Hw, Hw', Hon, Hon'. cbn [obind]. rewrite Hj, Hl.
  now repeat split.
Qed.

(** X16.  The time filter matters only through the stored timestamps it
    admits: two filters that admit the same stored messages give the same
    result in each of the four aggregates. *)
Theorem filters_admitting_the_same (localHour : Z -> option Z)
        (localDate : Z -> option string) (fs : directory) (sessionId : string)
        (d : database) (f f' : option TimeFilter) :
  fs !! getDbPath sessionId = Some (DbFile d) ->
  (forall msg, In msg (message d) ->
               inTimeFilter f (ts msg) = inTimeFilter f' (ts msg)) ->
  getMemberActivity fs sessionId f = getMemberActivity fs sessionId f' /\
  getHourlyActivity localHour fs sessionId f = getHourlyActivity localHour fs sessionId f' /\
  getDailyActivity localDate fs sessionId f = getDailyActivity localDate fs sessionId f' /\
  getMessageTypeDistribution fs sessionId f = getMessageTypeDistribution fs sessionId f'.
Proof.
  intros Hfile Hsame.
  now apply (filters_admitting_the_same_aux localHour localDate fs sessionId d f f').
Qed.

(** X17.  Filtering by the full span of a session changes nothing: with the
    bounds that [getTimeRange] returns as start and end of the filter, each
    of the four aggregates returns what it returns without a filter. *)
Theorem full_span_filter_is_no_filter (localHour : Z -> option Z)
        (localDate : Z -> option string) (fs : directory) (sessionId : string)
        (d : database) (lo hi : Z) :
  fs !! getDbPath sessionId = Some (DbFile d) ->
  getTimeRange fs sessionId = Returns (Some (lo, hi)) ->
  let span := Some {| startTs := Some lo; endTs := Some hi |} in
  getMemberActivity fs sessionId span = getMemberActivity fs sessionId None /\
  getHourlyActivity localHour fs sessionId span
  = getHourlyActivity localHour fs sessionId None /\
  getDailyActivity localDate fs sessionId span
  = getDailyActivity localDate fs sessionId None /\
  getMessageTypeDistribution fs sessionId span
  = getMessageTypeDistribution fs sessionId None.
Proof.
  intros Hfile Hrange span.
  apply (filters_admitting_the_same_aux localHour localDate fs sessionId d span None Hfile).
  intros msg Hmsg. unfold getTimeRange, openDatabase in Hrange. rewrite Hfile in Hrange.
  cbn [obind tablesOf] in Hrange.
  pose proof (minTs_spec (message d)) as Hmin.
  pose proof (maxTs_spec (message d)) as Hmax.
  destruct (minTs (message d)) as [lo'|]; [|discriminate].
  destruct (maxTs (message d)) as [hi'|]; [|discriminate].
  injection Hrange as -> ->.
  destruct Hmin as [_ Hmin], Hmax as [_ Hmax].
  unfold inTimeFilter, span. cbn.
  rewrite (proj2 (Z.leb_le lo (ts msg)) (Hmin msg Hmsg)).
  now rewrite (proj2 (Z.leb_le (ts msg) hi) (Hmax msg Hmsg)).
Qed.

(** ** The views *)

Lemma peak_fold {A : Type} (count : A -> Z) (rest l1 l2 : list A) (m : A) :
  (forall y, In y l1 -> count y < count m) ->
  (forall y, In y l2 -> count y <= count m) ->
  exists l1' l2',
    l1 ++ m :: l2 ++ rest =
    l1' ++ fold_left (fun max x => if count max <? count x then x else max) rest m :: l2' /\
    (forall y, In y l1' ->
       count y < count (fold_left (fun max x => if count max <? count x then x else max)
                                  rest m)) /\
    (forall y, In y l2' ->
       count y <= count (fold_left (fun max x => if count max <? count x then x else max)
                                   rest m)).
Proof.
  revert l1 l2 m. induction rest as [|r rest IH]; intros l1 l2 m H1 H2.
  - exists l1, l2. rewrite app_nil_r. now repeat split.
  - cbn [fold_left]. destruct (count m <? count r) eqn:E.
    + apply Z.ltb_lt in E.
      destruct (IH (l1 ++ m :: l2) [] r) as (l1' & l2' & Heq & Hlt & Hle).
      * intros y Hy. apply in_app_or in Hy. destruct Hy as [Hy|[<-|Hy]].
        -- specialize (H1 y Hy). lia.
        -- assumption.
        -- specialize (H2 y Hy). lia.
      * intros y [].
      * exists l1', l2'. split; [|now split].
        rewrite <- Heq. rewrite <- !app_assoc. reflexivity.
    + apply Z.ltb_ge in E.
      destruct (IH l1 (l2 ++ [r]) m) as (l1' & l2' & Heq & Hlt & Hle).
      * assumption.
      * intros y Hy. apply in_app_or in Hy. destruct Hy as [Hy|[<-|[]]]; auto.
      * exists l1', l2'. split; [|now split].
        rewrite <- Heq. rewrite <- !app_assoc. reflexivity.
Qed.

(** What the [reduce] of the peak computations returns: the first entry
    among those with the greatest count. *)
Lemma peakBy_first_max {A : Type} (count : A -> Z) (l : list A) :
  match peakBy count l with
  | None => l = []
  | Some x => exists l1 l2, l = l1 ++ x :: l2 /\
                            (forall y, In y l1 -> count y < count x) /\
                            (forall y, In y l2 -> count y <= count x)
  end.
Proof.
  destruct l as [|first rest]; [reflexivity|]. unfold peakBy.
  cbn [fold_left]. rewrite Z.ltb_irrefl.
  destruct (peak_fold count rest [] [] first) as (l1 & l2 & Heq & Hlt & Hle);
    [intros y []|intros y []|].
  exists l1, l2. now repeat split.
Qed.

Lemma hours_ascending (a n : nat) :
  StronglySorted Z.le (List.map Z.of_nat (seq a n)).
Proof.
  revert a. induction n as [|n IH]; intros a; simpl; constructor.
  - apply IH.
  - rewrite List.Forall_forall. intros x Hx. apply in_map_iff in Hx.
    destruct Hx as (k & <- & Hk). apply in_seq in Hk. lia.
Qed.

Lemma StronglySorted_split {A : Type} (R : A -> A -> Prop) (l1 l2 : list A) :
  StronglySorted R (l1 ++ l2) -> forall a b, In a l1 -> In b l2 -> R a b.
Proof.
  induction l1 as [|x l1 IH]; intros Hs a b Ha Hb; [destruct Ha|].
  cbn in Hs. apply StronglySorted_inv in Hs. destruct Hs as [Hs Hx].
  destruct Ha as [<-|Ha].
  - rewrite List.Forall_forall in Hx. apply Hx. apply in_or_app. now right.
  - now apply IH.
Qed.

(** X18.  For a stored session the peak hour shown by the timeline and
    overview tabs is never missing: it is one of the 24 entries of
    [getHourlyActivity], no entry has more messages, and among the entries
    with as many messages it is the earliest hour. *)
Theorem peakHour_is_earliest_busiest (localHour : Z -> option Z) (fs : directory)
        (sessionId : string) (d : database) (filter : option TimeFilter) :
  fs !! getDbPath sessionId = Some (DbFile d) ->
  NoDup (List.map m_id (member d)) ->
  exists res e,
    getHourlyActivity localHour fs sessionId filter = Returns res /\
    TimelineTab.peakHour res = Some e /\
    OverviewTab.peakHour res = Some e /\
    In e res /\ 0 <= hour e < 24 /\
    (forall e', In e' res -> h_messageCount e' <= h_messageCount e) /\
    (forall e', In e' res -> h_messageCount e' = h_messageCount e -> hour e <= hour e').
Proof.
  intros Hfile Hnd.
  rewrite (getHourlyActivity_spec localHour fs sessionId d filter Hfile Hnd).
  set (res := List.map _ hoursOfDay).
  assert (Hhours : List.map hour res = hoursOfDay).
  { unfold res. rewrite List.map_map. cbn [hour]. apply List.map_id. }
  pose proof (peakBy_first_max h_messageCount res) as Hpeak.
  unfold TimelineTab.peakHour, OverviewTab.peakHour.
  destruct (peakBy h_messageCount res) as [e|] eqn:Epk; [|discriminate].
  destruct Hpeak as (l1 & l2 & Heq & Hlt & Hle).
  assert (Hin : In e res) by (rewrite Heq; apply in_or_app; right; now left).
  assert (Hrange : 0 <= hour e < 24).
  { pose proof (in_map hour _ _ Hin) as Hh. rewrite Hhours in Hh.
    unfold hoursOfDay in Hh. apply in_map_iff in Hh.
    destruct Hh as (k & <- & Hk). apply in_seq in Hk. lia. }
  exists res, e. split; [reflexivity|]. split; [exact Epk|]. split; [exact Epk|].
  split; [exact Hin|]. split; [exact Hrange|]. split.
  - intros e' He'. rewrite Heq in He'. apply in_app_or in He'.
    destruct He' as [He'|[<-|He']]; [specialize (Hlt e' He'); lia|lia|now apply Hle].
  - intros e' He' Hcount. rewrite Heq in He'. apply in_app_or in He'.
    destruct He' as [He'|[<-|He']]; [specialize (Hlt e' He'); lia|lia|].
    pose proof (hours_ascending 0 24) as Hs. fold hoursOfDay in Hs.
    rewrite <- Hhours, Heq, List.map_app in Hs. cbn [List.map] in Hs.
    assert (Hs' : StronglySorted Z.le
                    ((List.map hour l1 ++ [hour e]) ++ List.map hour l2))
      by (rewrite <- app_assoc; exact Hs).
    apply (StronglySorted_split _ _ _ Hs' (hour e) (hour e')).
    + apply in_or_app. right. now left.
    + now apply in_map.
Qed.

(** X19.  The ranking tab: the top-ten list is the first ten rows of the
    full list (all of them when there are fewer), nobody left out of it has
    more messages than somebody in it, and the button that opens the full
    list is shown exactly when somebody is left out. *)
Theorem top10_are_the_busiest (fs : directory) (sessionId : string) (d : database)
        (filter : option TimeFilter) :
  fs !! getDbPath sessionId = Some (DbFile d) ->
  NoDup (List.map m_id (member d)) ->
  exists res,
    getMemberActivity fs sessionId filter = Returns res /\
    MemberTab.top10RankData res = firstn 10 (MemberTab.fullRankData res) /\
    List.length (MemberTab.top10RankData res) = Nat.min 10 (List.length res) /\
    (forall a b, In a (firstn 10 res) -> In b (skipn 10 res) ->
                 messageCount b <= messageCount a) /\
    (MemberTab.showFullRankButton res = true <-> skipn 10 res <> []).
Proof.
  intros Hfile Hnd.
  destruct (getMemberActivity_spec fs sessionId d filter Hfile Hnd)
    as (ms & Hres & _ & Hsorted).
  set (res := List.map (entryOf filter d) ms).
  assert (Hs : StronglySorted (fun a b => messageCount b <= messageCount a) res)
    by now apply StronglySorted_map.
  exists res. split; [assumption|]. split; [|split; [|split]].
  - unfold MemberTab.top10RankData, MemberTab.fullRankData. symmetry.
    apply List.firstn_map.
  - unfold MemberTab.top10RankData. rewrite List.length_map. apply List.length_firstn.
  - intros a b Ha Hb. rewrite <- (firstn_skipn 10 res) in Hs.
    exact (StronglySorted_split _ _ _ Hs a b Ha Hb).
  - unfold MemberTab.showFullRankButton. rewrite Nat.ltb_lt. split.
    + intros Hlen Hnil. apply (f_equal (@List.length _)) in Hnil.
      rewrite List.length_skipn in Hnil. simpl in Hnil. lia.
    + intros Hne. destruct (le_lt_dec (List.length res) 10) as [Hle|Hlt]; [|assumption].
      exfalso. apply Hne. now apply List.skipn_all2.
Qed.

(** X20.  The image count of the overview tab is the number of non-system
    messages of type 1 under the filter; it is 0 when the distribution has
    no entry for that type. *)
Theorem imageCount_counts_images (fs : directory) (sessionId : string) (d : database)
        (filter : option TimeFilter) :
  fs !! getDbPath sessionId = Some (DbFile d) ->
  NoDup (List.map m_id (member d)) ->
  exists res,
    getMessageTypeDistribution fs sessionId filter = Returns res /\
    OverviewTab.imageCount res =
    countedIn filter d (fun msg => bool_decide (msg_type msg = 1)).
Proof.
  intros Hfile Hnd.
  destruct (getMessageTypeDistribution_spec fs sessionId d filter Hfile Hnd)
    as (res & Hres & Hcount & Hall).
  exists res. split; [assumption|]. unfold OverviewTab.imageCount.
  destruct (List.find _ res) as [e|] eqn:Ef.
  - apply find_some in Ef. destruct Ef as [He E1]. apply Z.eqb_eq in E1.
    rewrite (Hcount e He). now rewrite E1.
  - symmetry. apply countedIn_no_group. intros msg Hmsg Hc Ht.
    destruct (Hall msg Hmsg Hc) as (e & He & Ee).
    pose proof (find_none _ _ Ef e He) as Hn. cbn beta in Hn.
    rewrite Ee, Ht in Hn. discriminate.
Qed.

(** X21.  The import dialog is consistent: its icon is the spinning arrow
    exactly when [isSpinning] holds, and so is the purple colour; that is the
    case for every stage but [done] and [error]. *)
Theorem import_dialog_consistent (stage : option string) :
  (ImportProgressModal.isSpinning stage = true <->
   ImportProgressModal.statusIcon stage = "i-heroicons-arrow-path") /\
  (ImportProgressModal.isSpinning stage = true <->
   ImportProgressModal.statusColor stage = "text-purple-500") /\
  (ImportProgressModal.isSpinning stage = false <->
   stage = Some "done" \/ stage = Some "error").
Proof.
  destruct stage as [st|]; cbn.
  - destruct (String.eqb st "done") eqn:Ed.
    + apply String.eqb_eq in Ed. subst st. cbn. repeat split; try discriminate; auto.
    + destruct (String.eqb st "error") eqn:Ee.
      * apply String.eqb_eq in Ee. subst st. cbn.
        repeat split; try discriminate; auto.
      * cbn. apply String.eqb_neq in Ed, Ee.
        repeat split; try discriminate; auto.
        intros [[= ->]|[= ->]]; congruence.
  - repeat split; try discriminate; auto. intros [H|H]; discriminate.
Qed.

(** ** The day parts of the timeline tab *)

Lemma fold_left_add {A : Type} (c : A -> Z) (l : list A) (a : Z) :
  fold_left (fun sum h => sum + c h) l a = a + sumZ (List.map c l).
Proof.
  unfold sumZ. revert a. induction l as [|x l IH]; intros a; simpl; [lia|].
  rewrite IH. lia.
Qed.









(** ** The duration shown by the overview tab *)

Lemma isLeapYear_gregorian (year : Z) :
  OverviewTab.isLeapYear year = true <-> gregorianLeap year.
Proof.
  unfold OverviewTab.isLeapYear, gregorianLeap.
  rewrite orb_true_iff, andb_true_iff, negb_true_iff, !Z.eqb_eq, Z.eqb_neq.
  now rewrite !Z.rem_divide by lia.
Qed.

Lemma ceil_days (n : Z) :
  86400 * (Qceiling (inject_Z n / inject_Z 86400) - 1) < n
  <= 86400 * Qceiling (inject_Z n / inject_Z 86400).
Proof.
  pose proof (Qle_ceiling (inject_Z n / inject_Z 86400)) as H1.
  pose proof (Qceiling_lt (inject_Z n / inject_Z 86400)) as H2.
  set (c := Qceiling (inject_Z n / inject_Z 86400)) in *.
  assert (E : (86400 * (inject_Z n / inject_Z 86400) == inject_Z n)%Q).
  { change (inject_Z 86400) with 86400%Q. field. }
  set (x := (inject_Z n / inject_Z 86400)%Q) in *.
  assert (Ha : (inject_Z n <= inject_Z (86400 * c))%Q).
  { rewrite inject_Z_mult. change (inject_Z 86400) with 86400%Q. lra. }
  assert (Hb : (inject_Z (86400 * (c - 1)) < inject_Z n)%Q).
  { rewrite inject_Z_mult. change (inject_Z 86400) with 86400%Q. lra. }
  rewrite <- Zle_Qle in Ha. rewrite <- Zlt_Qlt in Hb. lia.
Qed.

(** X23.  The duration of the overview tab.  With a selected year other than
    0 it is 366 exactly for the Gregorian leap years (also for negative
    years) and 365 otherwise; the year 0 counts as no selection.  Without a
    selection it is 0 when there is no time range, and otherwise the least
    number of whole days that covers the span from start to end. *)
Theorem durationDays_days (year : Z) (timeRange : option (Z * Z)) (start end_ : Z) :
  (year <> 0 ->
   (OverviewTab.durationDays (Some year) timeRange = 366 /\ gregorianLeap year) \/
   (OverviewTab.durationDays (Some year) timeRange = 365 /\ ~ gregorianLeap year)) /\
  OverviewTab.durationDays (Some 0) timeRange = OverviewTab.durationDays None timeRange /\
  OverviewTab.durationDays None None = 0 /\
  86400 * (OverviewTab.durationDays None (Some (start, end_)) - 1) < end_ - start
  <= 86400 * OverviewTab.durationDays None (Some (start, end_)).
Proof.
  split; [|split; [reflexivity|split; [reflexivity|]]].
  - intros Hy. unfold OverviewTab.durationDays, OverviewTab.truthyNumber.
    rewrite (proj2 (Z.eqb_neq year 0) Hy). cbn [negb from_option id].
    destruct (OverviewTab.isLeapYear year) eqn:E.
    + left. split; [reflexivity|]. now apply isLeapYear_gregorian.
    + right. split; [reflexivity|]. rewrite <- isLeapYear_gregorian. congruence.
  - unfold OverviewTab.durationDays. cbn [OverviewTab.truthyNumber]. apply ceil_days.
Qed.

(** ** The further properties on the worked dataset *)

Lemma getAllSessions_agrees_with_getSession_witness :
  getSession Example.fs "s1" =
  Returns (Some (sessionOf "s1" (MetaRow "family" "qq" "group" 1700100000) Example.db)).
Proof.
  apply (getAllSessions_agrees_with_getSession Example.fs
           (sessionOf "s1" (MetaRow "family" "qq" "group" 1700100000) Example.db)).
  vm_compute. left. reflexivity.
Defined.

Lemma getAllSessions_lists_stored_witness :
  In (sessionOf "s1" (MetaRow "family" "qq" "group" 1700100000) Example.db)
     (fst (getAllSessions Example.fs)).
Proof.
  apply (getAllSessions_lists_stored Example.fs "s1" Example.db
           (MetaRow "family" "qq" "group" 1700100000) []).
  - vm_compute. reflexivity.
  - reflexivity.
  - reflexivity.
Defined.

Lemma session_counts_match_ranking_witness :
  exists s res,
    getSession Example.fs "s1" = Returns (Some s) /\
    getMemberActivity Example.fs "s1" None = Returns res /\
    s_messageCount s = sumZ (List.map messageCount res) /\
    Z.of_nat (List.length res) <= s_memberCount s.
Proof.
  apply (session_counts_match_ranking Example.fs "s1" Example.db
           (MetaRow "family" "qq" "group" 1700100000) []).
  - reflexivity.
  - apply (bool_decide_unpack _). vm_compute. exact I.
  - reflexivity.
Defined.

Lemma deleteSession_spares_others_witness :
  (forall p, In p (artifacts "s1") ->
             snd (deleteSession (fun _ => false) "s2" Example2.fs2) !! p
             = Example2.fs2 !! p) /\
  getSession (snd (deleteSession (fun _ => false) "s2" Example2.fs2)) "s1"
  = getSession Example2.fs2 "s1".
Proof.
  apply (deleteSession_spares_others (fun _ => false) "s2" "s1" Example2.fs2).
  intros H. discriminate H.
Defined.

Lemma importData_spares_others_witness :
  (forall p, In p (artifacts "s1") ->
             snd (importData Example.noFault 1700000000000 "k3x9ab" 1700000000123
                             Example.parsed Example.fs) !! p
             = Example.fs !! p) /\
  getSession (snd (importData Example.noFault 1700000000000 "k3x9ab" 1700000000123
                              Example.parsed Example.fs)) "s1"
  = getSession Example.fs "s1".
Proof.
  apply (importData_spares_others Example.noFault 1700000000000 "k3x9ab" 1700000000123
           Example.parsed Example.fs "s1").
  intros H. vm_compute in H. discriminate H.
Defined.

Lemma import_then_delete_witness :
  deleteSession (fun _ => false) (generateSessionId 1700000000000 "k3x9ab")
                (snd (importData (Example.faultAt 4) 1700000000000 "k3x9ab" 1700000000123
                                 Example.parsed Example.fs))
  = (true, Example.fs).
Proof.
  apply (import_then_delete (Example.faultAt 4) 1700000000000 "k3x9ab" 1700000000123
           Example.parsed Example.fs).
  intros p Hp. unfold artifacts in Hp. cbn [In] in Hp.
  destruct Hp as [<-|[<-|[<-|[]]]]; vm_compute; reflexivity.
Defined.

Lemma import_then_getSession_witness :
  exists fs' s,
    importData Example.noFault 1700000000000 "k3x9ab" 1700000000123
               Example.parsed Example.fs =
    (Returns (generateSessionId 1700000000000 "k3x9ab"), fs') /\
    getSession fs' (generateSessionId 1700000000000 "k3x9ab") = Returns (Some s) /\
    s_id s = generateSessionId 1700000000000 "k3x9ab" /\
    s_name s = pm_name (pr_meta Example.parsed) /\
    s_platform s = pm_platform (pr_meta Example.parsed) /\
    s_type s = pm_type (pr_meta Example.parsed) /\
    importedAt s = 1700000000123 / 1000 /\
    s_memberCount s =
    Z.of_nat (List.length (List.filter (knownNotSystem Example.parsed)
                             (remove_dups (List.map platformId (members Example.parsed))))) /\
    s_messageCount s =
    Z.of_nat (List.length
                (List.filter (fun msg => knownNotSystem Example.parsed (senderPlatformId msg))
                             (messages Example.parsed))).
Proof.
  apply (import_then_getSession Example.noFault 1700000000000 "k3x9ab" 1700000000123
           Example.parsed Example.fs).
  - intros n. reflexivity.
  - vm_compute. reflexivity.
Defined.

Lemma getDailyActivity_days_witness :
  exists res,
    getDailyActivity Example.utcDate Example.fs "s1" Example.window = Returns res /\
    NoDup (List.map date res) /\
    (forall e, In e res -> 1 <= d_messageCount e) /\
    StronglySorted (fun a b => nullsFirst String.leb (date a) (date b) = true) res /\
    sumZ (List.map d_messageCount res) = totalNonSystemMessages Example.window Example.db.
Proof.
  apply (getDailyActivity_days Example.utcDate Example.fs "s1" Example.db Example.window).
  - reflexivity.
  - apply (bool_decide_unpack _). vm_compute. exact I.
Defined.

Lemma getMessageTypeDistribution_types_witness :
  exists res,
    getMessageTypeDistribution Example.fs "s1" Example.window = Returns res /\
    NoDup (List.map tc_type res) /\
    (forall e, In e res -> 1 <= tc_count e) /\
    StronglySorted (fun a b => tc_count b <= tc_count a) res /\
    sumZ (List.map tc_count res) = totalNonSystemMessages Example.window Example.db.
Proof.
  apply (getMessageTypeDistribution_types Example.fs "s1" Example.db Example.window).
  - reflexivity.
  - apply (bool_decide_unpack _). vm_compute. exact I.
Defined.

Lemma getHourlyActivity_total_witness :
  exists res,
    getHourlyActivity Example.utcHour Example.fs "s1" Example.window = Returns res /\
    sumZ (List.map h_messageCount res) = totalNonSystemMessages Example.window Example.db.
Proof.
  apply (getHourlyActivity_total Example.utcHour Example.fs "s1" Example.db Example.window).
  - reflexivity.
  - apply (bool_decide_unpack _). vm_compute. exact I.
  - intros msg _. exists ((ts msg / 3600) mod 24). split; [reflexivity|].
    apply Z.mod_pos_bound. lia.
Defined.

Lemma getAvailableYears_years_witness :
  exists res,
    getAvailableYears Example2.utcYear Example.fs "s1" = Returns res /\
    NoDup res /\
    StronglySorted (fun a b => nullsFirst Z.leb a b = true) res /\
    (forall y, In y res <->
               exists msg, In msg (message Example.db) /\ Example2.utcYear (ts msg) = y).
Proof.
  apply (getAvailableYears_years Example2.utcYear Example.fs "s1" Example.db).
  reflexivity.
Defined.

Lemma queries_after_delete_witness :
  getMemberActivity (snd (deleteSession (fun _ => false) "s1" Example.fs)) "s1"
                    Example.window = Returns [] /\
  getHourlyActivity Example.utcHour (snd (deleteSession (fun _ => false) "s1" Example.fs))
                    "s1" Example.window = Returns [] /\
  getDailyActivity Example.utcDate (snd (deleteSession (fun _ => false) "s1" Example.fs))
                   "s1" Example.window = Returns [] /\
  getMessageTypeDistribution (snd (deleteSession (fun _ => false) "s1" Example.fs))
                             "s1" Example.window = Returns [] /\
  getTimeRange (snd (deleteSession (fun _ => false) "s1" Example.fs)) "s1" = Returns None /\
  getAvailableYears Example2.utcYear (snd (deleteSession (fun _ => false) "s1" Example.fs))
                    "s1" = Returns [].
Proof.
  apply (queries_after_delete Example.utcHour Example.utcDate Example2.utcYear
           (fun _ => false) "s1" Example.fs Example.window).
  vm_compute. reflexivity.
Defined.


Lemma filters_admitting_the_same_witness :
  getMemberActivity Example.fs "s1" Example.window
  = getMemberActivity Example.fs "s1" Example2.wider /\
  getHourlyActivity Example.utcHour Example.fs "s1" Example.window
  = getHourlyActivity Example.utcHour Example.fs "s1" Example2.wider /\
  getDailyActivity Example.utcDate Example.fs "s1" Example.window
  = getDailyActivity Example.utcDate Example.fs "s1" Example2.wider /\
  getMessageTypeDistribution Example.fs "s1" Example.window
  = getMessageTypeDistribution Example.fs "s1" Example2.wider.
Proof.
  apply (filters_admitting_the_same Example.utcHour Example.utcDate Example.fs "s1"
           Example.db Example.window Example2.wider).
  - reflexivity.
  - intros msg Hin. unfold Example.db in Hin. cbn [message In] in Hin.
    repeat (destruct Hin as [<-|Hin]; [vm_compute; reflexivity|]). destruct Hin.
Defined.

Lemma full_span_filter_is_no_filter_witness :
  getMemberActivity Example.fs "s1"
    (Some {| startTs := Some Example.at9; endTs := Some (Example.at14 + 40) |})
  = getMemberActivity Example.fs "s1" None /\
  getHourlyActivity Example.utcHour Example.fs "s1"
    (Some {| startTs := Some Example.at9; endTs := Some (Example.at14 + 40) |})
  = getHourlyActivity Example.utcHour Example.fs "s1" None /\
  getDailyActivity Example.utcDate Example.fs "s1"
    (Some {| startTs := Some Example.at9; endTs := Some (Example.at14 + 40) |})
  = getDailyActivity Example.utcDate Example.fs "s1" None /\
  getMessageTypeDistribution Example.fs "s1"
    (Some {| startTs := Some Example.at9; endTs := Some (Example.at14 + 40) |})
  = getMessageTypeDistribution Example.fs "s1" None.
Proof.
  apply (full_span_filter_is_no_filter Example.utcHour Example.utcDate Example.fs "s1"
           Example.db Example.at9 (Example.at14 + 40)).
  - reflexivity.
  - vm_compute. reflexivity.
Defined.

Lemma peakHour_is_earliest_busiest_witness :
  exists res e,
    getHourlyActivity Example.utcHour Example.fs "s1" Example.window = Returns res /\
    TimelineTab.peakHour res = Some e /\
    OverviewTab.peakHour res = Some e /\
    In e res /\ 0 <= hour e < 24 /\
    (forall e', In e' res -> h_messageCount e' <= h_messageCount e) /\
    (forall e', In e' res -> h_messageCount e' = h_messageCount e -> hour e <= hour e').
Proof.
  apply (peakHour_is_earliest_busiest Example.utcHour Example.fs "s1" Example.db
           Example.window).
  - reflexivity.
  - apply (bool_decide_unpack _). vm_compute. exact I.
Defined.

Lemma top10_are_the_busiest_witness :
  exists res,
    getMemberActivity Example.fs "s1" Example.window = Returns res /\
    MemberTab.top10RankData res = firstn 10 (MemberTab.fullRankData res) /\
    List.length (MemberTab.top10RankData res) = Nat.min 10 (List.length res) /\
    (forall a b, In a (firstn 10 res) -> In b (skipn 10 res) ->
                 messageCount b <= messageCount a) /\
    (MemberTab.showFullRankButton res = true <-> skipn 10 res <> []).
Proof.
  apply (top10_are_the_busiest Example.fs "s1" Example.db Example.window).
  - reflexivity.
  - apply (bool_decide_unpack _). vm_compute. exact I.
Defined.

Lemma imageCount_counts_images_witness :
  exists res,
    getMessageTypeDistribution Example.fs "s1" Example.window = Returns res /\
    OverviewTab.imageCount res =
    countedIn Example.window Example.db (fun msg => bool_decide (msg_type msg = 1)).
Proof.
  apply (imageCount_counts_images Example.fs "s1" Example.db Example.window).
  - reflexivity.
  - apply (bool_decide_unpack _). vm_compute. exact I.
Defined.


Lemma durationDays_days_witness :
  (OverviewTab.durationDays (Some 2024) None = 366 /\ gregorianLeap 2024) \/
  (OverviewTab.durationDays (Some 2024) None = 365 /\ ~ gregorianLeap 2024).
Proof.
  apply (proj1 (durationDays_days 2024 None 0 0)). lia.
Defined.

(** ** The busiest day and the daily average of the timeline tab *)

Lemma Math_round_between (x : Q) (a b : Z) :
  (inject_Z a <= x <= inject_Z b)%Q -> a <= Math_round x <= b.
Proof.
  intros [Ha Hb]. unfold Math_round. split.
  - assert (H : Qfloor (inject_Z a + (1 # 2)) <= Qfloor (x + (1 # 2)))
      by (apply Qfloor_resp_le; lra).
    now rewrite Qfloor_half in H.
  - assert (H : Qfloor (x + (1 # 2)) <= Qfloor (inject_Z b + (1 # 2)))
      by (apply Qfloor_resp_le; lra).
    now rewrite Qfloor_half in H.
Qed.

Lemma sum_between (l : list Z) (a b : Z) :
  (forall x, In x l -> a <= x <= b) ->
  Z.of_nat (List.length l) * a <= sumZ l <= Z.of_nat (List.length l) * b.
Proof.
  unfold sumZ. induction l as [|x l IH]; intros H; [simpl; lia|].
  specialize (IH (fun y Hy => H y (or_intror Hy))).
  pose proof (H x (or_introl eq_refl)) as Hx.
  cbn [List.length foldr]. lia.
Qed.

Lemma mean_between (s n a b : Z) :
  0 < n -> n * a <= s <= n * b ->
  (inject_Z a <= inject_Z s / inject_Z n <= inject_Z b)%Q.
Proof.
  intros Hn [Ha Hb].
  assert (Hn' : (0 < inject_Z n)%Q)
    by (change 0%Q with (inject_Z 0); rewrite <- Zlt_Qlt; lia).
  split.
  - apply Qle_shift_div_l; [assumption|]. rewrite <- inject_Z_mult, <- Zle_Qle. lia.
  - apply Qle_shift_div_r; [assumption|]. rewrite <- inject_Z_mult, <- Zle_Qle. lia.
Qed.

(** X24.  The busiest day and the daily average of the timeline tab, on the
    daily activity of a stored session.  Without a counted message there is
    no busiest day and the average is 0.  Otherwise the busiest day is a
    returned day that no day exceeds, the earliest date among the days with
    as many messages, and the average is at least 1 and at most the count of
    the busiest day. *)
Theorem daily_peak_and_average (localDate : Z -> option string) (fs : directory)
        (sessionId : string) (d : database) (filter : option TimeFilter) :
  fs !! getDbPath sessionId = Some (DbFile d) ->
  NoDup (List.map m_id (member d)) ->
  exists res,
    getDailyActivity localDate fs sessionId filter = Returns res /\
    match TimelineTab.peakDay res with
    | None => res = [] /\ TimelineTab.avgDailyMessages res = 0
    | Some e =>
        In e res /\
        (forall e', In e' res -> d_messageCount e' <= d_messageCount e) /\
        (forall e', In e' res -> d_messageCount e' = d_messageCount e ->
                    nullsFirst String.leb (date e) (date e') = true) /\
        1 <= TimelineTab.avgDailyMessages res <= d_messageCount e
    end.
Proof.
  intros Hfile Hnd.
  destruct (daily_rows localDate fs sessionId d filter Hfile Hnd)
    as (res & Hres & _ & Hpos & Hsorted & _).
  exists res. split; [exact Hres|].
  pose proof (peakBy_first_max d_messageCount res) as Hpeak.
  unfold TimelineTab.peakDay.
  destruct (peakBy d_messageCount res) as [e|] eqn:Epk.
  - destruct Hpeak as (l1 & l2 & Heq & Hlt & Hle).
    assert (Hin : In e res) by (rewrite Heq; apply in_or_app; right; now left).
    assert (Hmax : forall e', In e' res -> d_messageCount e' <= d_messageCount e).
    { intros e' He'. rewrite Heq in He'. apply in_app_or in He'.
      destruct He' as [He'|[<-|He']]; [specialize (Hlt e' He'); lia|lia|now apply Hle]. }
    split; [exact Hin|]. split; [exact Hmax|]. split.
    + intros e' He' Hcount. rewrite Heq in He'. apply in_app_or in He'.
      destruct He' as [He'|[<-|He']]; [specialize (Hlt e' He'); lia| |].
      * destruct (nullsFirst_total String.leb String.leb_total (date e) (date e));
          assumption.
      * assert (Hs' : StronglySorted
                        (fun a b => nullsFirst String.leb (date a) (date b) = true)
                        ((l1 ++ [e]) ++ l2))
          by (rewrite <- app_assoc; cbn [app]; rewrite <- Heq; exact Hsorted).
        apply (StronglySorted_split _ _ _ Hs' e e'); [|assumption].
        apply in_or_app. right. now left.
    + unfold TimelineTab.avgDailyMessages.
      destruct res as [|r0 res0] eqn:Er; [destruct Hin|]. rewrite <- Er in *.
      rewrite fold_left_add, Z.add_0_l.
      apply Math_round_between. apply mean_between.
      * rewrite Er. cbn [List.length]. lia.
      * rewrite <- (List.length_map d_messageCount res). apply sum_between.
        intros x Hx. apply in_map_iff in Hx. destruct Hx as (e' & <- & He').
        split; [now apply Hpos|now apply Hmax].
  - subst res. now split.
Qed.

Lemma daily_peak_and_average_witness :
  exists res,
    getDailyActivity Example.utcDate Example.fs "s1" Example.window = Returns res /\
    match TimelineTab.peakDay res with
    | None => res = [] /\ TimelineTab.avgDailyMessages res = 0
    | Some e =>
        In e res /\
        (forall e', In e' res -> d_messageCount e' <= d_messageCount e) /\
        (forall e', In e' res -> d_messageCount e' = d_messageCount e ->
                    nullsFirst String.leb (date e) (date e') = true) /\
        1 <= TimelineTab.avgDailyMessages res <= d_messageCount e
    end.
Proof.
  apply (daily_peak_and_average Example.utcDate Example.fs "s1" Example.db Example.window).
  - reflexivity.
  - apply (bool_decide_unpack _). vm_compute. exact I.
Defined.
